(** * The Aleph server request dispatcher ([server/server.ts])

    A shallow embedding of [Server.handle]: the HMR channel loop, the
    on-demand module gateway with its ETag validator, the HMR code variant,
    static files with [Last-Modified], and the API dispatcher.

    JavaScript strings are modelled as [string] (sequences of bytes; for
    ASCII text the UTF-16 string and its UTF-8 encoding coincide).  The
    module registry is a list of records whose positions stand for object
    identity, so that [Object.assign(module, ...)] is an in-place update
    seen by every later lookup. *)

From Stdlib Require Import ZArith NArith Ascii String List Lia Bool.
From stdpp Require Import base option list strings pretty.
Import ListNotations.

Set Warnings "-register-all".

Local Open Scope string_scope.
Local Open Scope list_scope.

(* ------------------------------------------------------------------ *)
(** ** [shared/util.ts] helpers used by the handler *)

Module Util.

(** [s.startsWith(p)] *)
Definition startsWith (s p : string) : bool := String.prefix p s.

(** The rest of [s] after the prefix [p], when [s] starts with [p]. *)
Fixpoint strip_prefix (p s : string) : option string :=
  match p with
  | EmptyString => Some s
  | String a p' =>
      match s with
      | String b s' => if Ascii.eqb a b then strip_prefix p' s' else None
      | EmptyString => None
      end
  end.

(** The part of [s] before the suffix [suf], when [s] ends with [suf]. *)
Fixpoint strip_suffix (suf s : string) : option string :=
  if String.eqb s suf then Some EmptyString
  else match s with
       | EmptyString => None
       | String c s' => option_map (String c) (strip_suffix suf s')
       end.

(** [s.endsWith(suf)] *)
Definition endsWith (s suf : string) : bool :=
  match strip_suffix suf s with Some _ => true | None => false end.

(** Modelled from the spec: [util.trimPrefix] ([shared/util.ts] is not
    among the sources): drops the prefix when it is there, else returns
    the string unchanged. *)
Definition trimPrefix (s p : string) : string :=
  match strip_prefix p s with Some r => r | None => s end.

(** Modelled from the spec: [util.trimSuffix] ([shared/util.ts] is not
    among the sources): drops the suffix when it is there, else returns
    the string unchanged. *)
Definition trimSuffix (s suf : string) : string :=
  match strip_suffix suf s with Some r => r | None => s end.

(** Modelled from the spec: [util.isNEString] on a value already known
    to be a string: it is not the empty string. *)
Definition isNEString (s : string) : bool := negb (String.eqb s "").

(** [parts.join(sep)] *)
Fixpoint join_with (sep : string) (parts : list string) : string :=
  match parts with
  | [] => ""
  | [p] => p
  | p :: rest => p +:+ sep +:+ join_with sep rest
  end.

End Util.

(* ------------------------------------------------------------------ *)
(** ** JSON values, object spread and [JSON.stringify] *)

(** The fields of an object are in insertion order, with distinct keys. *)
Inductive JSON : Type :=
| JNull
| JBool (b : bool)
| JNum (n : Z)
| JStr (s : string)
| JArr (items : list JSON)
| JObj (fields : list (string * JSON)).

Module Json.

(** [obj.key]: the own property, [None] for [undefined]. *)
Fixpoint get (key : string) (fields : list (string * JSON)) : option JSON :=
  match fields with
  | [] => None
  | (k, v) :: rest => if String.eqb k key then Some v else get key rest
  end.

(** [obj[key] = v]: an existing key keeps its place, a new key goes last. *)
Fixpoint set (key : string) (v : JSON) (fields : list (string * JSON))
  : list (string * JSON) :=
  match fields with
  | [] => [(key, v)]
  | (k, v0) :: rest =>
      if String.eqb k key then (k, v) :: rest else (k, v0) :: set key v rest
  end.

(** [{ ...base, k1: v1, ..., kn: vn }] *)
Definition spread (base extra : list (string * JSON)) : list (string * JSON) :=
  fold_left (fun acc kv => set (fst kv) (snd kv) acc) extra base.

Definition hexdigit (n : N) : ascii :=
  ascii_of_N (if (n <? 10)%N then 48 + n else 87 + n).

(** QuoteJSONString on one code unit. *)
Definition quote_char (c : ascii) : string :=
  let n := N_of_ascii c in
  if (n =? 34)%N then String "\" (String "034" "")
  else if (n =? 92)%N then "\\"
  else if (n =? 8)%N then "\b"
  else if (n =? 12)%N then "\f"
  else if (n =? 10)%N then "\n"
  else if (n =? 13)%N then "\r"
  else if (n =? 9)%N then "\t"
  else if (n <? 32)%N then
    "\u00" +:+ String (hexdigit (N.shiftr n 4)) (String (hexdigit (N.land n 15)) "")
  else String c "".

Fixpoint quote_body (s : string) : string :=
  match s with
  | EmptyString => ""
  | String c r => quote_char c +:+ quote_body r
  end.

(** [JSON.stringify(s)] for a string [s]. *)
Definition quote (s : string) : string :=
  String "034" (quote_body s +:+ String "034" "").

(** [JSON.stringify(v)] (integers only among the numbers, printed in
    full as JavaScript prints the safe integers). *)
Fixpoint stringify (v : JSON) : string :=
  match v with
  | JNull => "null"
  | JBool true => "true"
  | JBool false => "false"
  | JNum n => pretty n
  | JStr s => quote s
  | JArr items => "[" +:+ Util.join_with "," (map stringify items) +:+ "]"
  | JObj fields =>
      "{" +:+ Util.join_with ","
               (map (fun kv => quote (fst kv) +:+ ":" +:+ stringify (snd kv)) fields)
          +:+ "}"
  end.

End Json.


(* ------------------------------------------------------------------ *)
(** ** [createHash('md5')] of the Deno standard library (RFC 1321) *)

Module MD5.
Local Open Scope N_scope.

Definition mask32 (x : N) : N := N.land x 0xffffffff.
Definition add32 (x y : N) : N := mask32 (x + y).
Definition not32 (x : N) : N := N.lxor x 0xffffffff.
Definition rotl32 (x n : N) : N :=
  mask32 (N.lor (N.shiftl x n) (N.shiftr x (32 - n))).

Definition K : list N :=
  [0xd76aa478; 0xe8c7b756; 0x242070db; 0xc1bdceee;
   0xf57c0faf; 0x4787c62a; 0xa8304613; 0xfd469501;
   0x698098d8; 0x8b44f7af; 0xffff5bb1; 0x895cd7be;
   0x6b901122; 0xfd987193; 0xa679438e; 0x49b40821;
   0xf61e2562; 0xc040b340; 0x265e5a51; 0xe9b6c7aa;
   0xd62f105d; 0x02441453; 0xd8a1e681; 0xe7d3fbc8;
   0x21e1cde6; 0xc33707d6; 0xf4d50d87; 0x455a14ed;
   0xa9e3e905; 0xfcefa3f8; 0x676f02d9; 0x8d2a4c8a;
   0xfffa3942; 0x8771f681; 0x6d9d6122; 0xfde5380c;
   0xa4beea44; 0x4bdecfa9; 0xf6bb4b60; 0xbebfbc70;
   0x289b7ec6; 0xeaa127fa; 0xd4ef3085; 0x04881d05;
   0xd9d4d039; 0xe6db99e5; 0x1fa27cf8; 0xc4ac5665;
   0xf4292244; 0x432aff97; 0xab9423a7; 0xfc93a039;
   0x655b59c3; 0x8f0ccc92; 0xffeff47d; 0x85845dd1;
   0x6fa87e4f; 0xfe2ce6e0; 0xa3014314; 0x4e0811a1;
   0xf7537e82; 0xbd3af235; 0x2ad7d2bb; 0xeb86d391].

Definition shifts : list N :=
  [7; 12; 17; 22; 7; 12; 17; 22; 7; 12; 17; 22; 7; 12; 17; 22;
   5; 9; 14; 20; 5; 9; 14; 20; 5; 9; 14; 20; 5; 9; 14; 20;
   4; 11; 16; 23; 4; 11; 16; 23; 4; 11; 16; 23; 4; 11; 16; 23;
   6; 10; 15; 21; 6; 10; 15; 21; 6; 10; 15; 21; 6; 10; 15; 21].

Record state := St { sa : N; sb : N; sc : N; sd : N }.

Definition init : state :=
  St 0x67452301 0xefcdab89 0x98badcfe 0x10325476.

(** One of the 64 steps on the 16-word block [m]. *)
Definition step (m : list N) (st : state) (i : N) : state :=
  let '(St a b c d) := st in
  let '(f, g) :=
    if i <? 16 then (N.lor (N.land b c) (N.land (not32 b) d), i)
    else if i <? 32 then
      (N.lor (N.land d b) (N.land (not32 d) c), (5 * i + 1) mod 16)
    else if i <? 48 then (N.lxor (N.lxor b c) d, (3 * i + 5) mod 16)
    else (N.lxor c (N.lor b (not32 d)), (7 * i) mod 16) in
  let f' :=
    add32 (add32 (add32 f a) (nth (N.to_nat i) K 0)) (nth (N.to_nat g) m 0) in
  St d (add32 b (rotl32 f' (nth (N.to_nat i) shifts 0))) b c.

Definition block (st : state) (m : list N) : state :=
  let '(St a b c d) := fold_left (step m) (map N.of_nat (seq 0 64)) st in
  St (add32 (sa st) a) (add32 (sb st) b) (add32 (sc st) c) (add32 (sd st) d).

Definition le_bytes (n : nat) (x : N) : list N :=
  map (fun k => N.land (N.shiftr x (8 * N.of_nat k)) 0xff) (seq 0 n).

Definition pad (msg : list N) : list N :=
  let len := List.length msg in
  let zeros := Nat.modulo (119 - Nat.modulo len 64) 64 in
  msg ++ [0x80] ++ repeat 0 zeros ++ le_bytes 8 (8 * N.of_nat len).

Fixpoint words (bs : list N) : list N :=
  match bs with
  | b0 :: b1 :: b2 :: b3 :: r =>
      (b0 + N.shiftl b1 8 + N.shiftl b2 16 + N.shiftl b3 24) :: words r
  | _ => []
  end.

Fixpoint blocks (fuel : nat) (ws : list N) (st : state) : state :=
  match fuel, ws with
  | S k, _ :: _ => blocks k (skipn 16 ws) (block st (firstn 16 ws))
  | _, _ => st
  end.

Definition hex (bs : list N) : string :=
  fold_right
    (fun b acc =>
       String (Json.hexdigit (N.shiftr b 4))
              (String (Json.hexdigit (N.land b 0xf)) acc))
    EmptyString bs.

Definition digest (msg : list N) : string :=
  let ws := words (pad msg) in
  let '(St a b c d) := blocks (List.length ws) ws init in
  hex (le_bytes 4 a ++ le_bytes 4 b ++ le_bytes 4 c ++ le_bytes 4 d).

(** The hasher object: the bytes fed so far. *)
Definition Hasher := list N.

Definition createHash : Hasher := [].

(** The bytes of a string. *)
Definition bytesOf (s : string) : list N :=
  map N_of_ascii (list_ascii_of_string s).

(** [.update(s)]: the bytes of [s] are appended. *)
Definition update (h : Hasher) (s : string) : Hasher := h ++ bytesOf s.

(** [.toString()]: the digest in lower-case hexadecimal. *)
Definition toString (h : Hasher) : string := digest h.

End MD5.


(* ------------------------------------------------------------------ *)
(** ** Data model *)

(** A thrown [Error]. *)
Record Error := mkError { message : string; stack : string }.

Inductive Result (A : Type) : Type :=
| Ok (a : A)
| Throw (e : Error).
Arguments Ok {A} a.
Arguments Throw {A} e.

(** The fields of a module record that the handler reads or writes.
    [hash], [denoHooks], [ssrPropsFn], [ssgPathsFn] and [csrCode] are
    optional properties; [csrCode] is the memoized client-only variant. *)
Record ModuleRecord := mkModule {
  specifier : string;
  jsFile : string;
  hash : option string;
  sourceHash : string;
  denoHooks : option (list string);
  ssrPropsFn : option string;
  ssgPathsFn : option bool;
  csrCode : option string;
}.

(** A regular file: [info.mtime?.toUTCString()] and its bytes. *)
Record File := mkFile { mtime : option string; content : string }.

(** The calls to collaborators that a request performs, in order. *)
Inductive Effect : Type :=
| ExistsFile (path : string)
| Compile (sepcifier : string)
| GetModuleJS (spec : string)
| StripSsrCode (spec : string)
| ReadFile (path : string).

(** What a request can observe and change: the module registry (a position
    in the list is the identity of a module object), the file system and
    the clock ([(new Date).toUTCString()]). *)
Record Store := mkStore {
  modules : list ModuleRecord;
  fs : string -> option File;
  clock : string;
}.

(** The store together with the log of collaborator calls made so far. *)
Record World := mkWorld {
  store : Store;
  trace : list Effect;
}.

Record URL := mkURL {
  pathname : string;
  searchParams : list (string * string);
}.

(** The incoming [ServerRequest]: its URL and [r.headers.get]. *)
Record ServerRequest := mkServerRequest {
  url : string;
  reqHeaders : string -> option string;
}.

(** A finalized response: the status and the headers set on the request
    context when [req.send(body, contentType)] is called, and the body and
    the content type that it is called with. *)
Record Response := mkResponse {
  status : Z;
  headers : list (string * string);
  body : option string;
  contentType : option string;
}.

(** Modelled from the spec: the request context of [server/api.ts]
    ([Request], not among the sources): a response status (default 200) and
    response headers, last write wins, until [send] finalizes.  Header
    names are compared as they are written. *)
Module Request.

Record t := mk { code : Z; hdrs : list (string * string) }.

Definition new : t := mk 200 [].

Fixpoint set_assoc (k v : string) (l : list (string * string))
  : list (string * string) :=
  match l with
  | [] => [(k, v)]
  | (k0, v0) :: rest =>
      if String.eqb k0 k then (k0, v) :: rest else (k0, v0) :: set_assoc k v rest
  end.

Fixpoint get_assoc (k : string) (l : list (string * string)) : option string :=
  match l with
  | [] => None
  | (k0, v0) :: rest => if String.eqb k0 k then Some v0 else get_assoc k rest
  end.

Definition setHeader (k v : string) (req : t) : t :=
  mk (code req) (set_assoc k v (hdrs req)).

Definition status (c : Z) (req : t) : t := mk c (hdrs req).

Definition send (data : option string) (ctype : option string) (req : t)
  : Response :=
  mkResponse (code req) (hdrs req) data ctype.

Definition json (data : JSON) (req : t) : Response :=
  send (Some (Json.stringify data)) (Some "application/json; charset=utf-8") req.

End Request.

(** [r.headers.get(name)]: [None] stands for [null]. *)
Definition header (r : ServerRequest) (name : string) : option string :=
  reqHeaders r name.

(** A code-injection transform: [(specifier, code) => ret.code]. *)
Definition Transform : Type := string -> string -> string.

(** The first component of a matched API route. *)
Record RouterURL := mkRouterURL {
  params : list (string * string);
  query : list (string * string);
}.

(** What invoking an API handler does: it returns, having responded through
    its own request view or not, or it throws. *)
Inductive HandlerResult : Type :=
| Returned (resp : option Response)
| Thrown (e : Error).

Definition ApiHandler : Type := Request.t -> RouterURL -> HandlerResult.

(** The [default] export of an API module. *)
Inductive Export : Type :=
| NotAFunction
| Function (h : ApiHandler).

Record Config := mkConfig {
  basePath : string;
  cfgHeaders : list (string * string);
  rewrites : list (string * string);
}.

(** The methods of [Application] ([server/app.ts], not among the sources)
    that the handler calls.  [compile] returns the position of the compiled
    record in the registry of the store it leaves, or throws; the other
    methods read the store. *)
Record Application := mkApplication {
  config : Config;
  isDev : bool;
  workingDir : string;
  buildDir : string;
  isHMRable : string -> bool;
  getCodeInjects : string -> string -> option (list Transform);
  compile : string -> Store -> Result nat * Store;
  getModuleJS : Store -> ModuleRecord -> option string;
  getSSRData : Store -> string -> option JSON;
  createMainJS : Store -> bool -> string;
  getAPIRoute : Store -> string -> string -> option (RouterURL * ModuleRecord);
  importModule : Store -> ModuleRecord -> Result Export;
  getPageHTML : Store -> string -> string -> Z * string;
}.

(** Imported functions and constants of modules that are not among the
    sources, and the JavaScript built-ins used.  [decodeText] is the
    decoding of [Deno.readTextFile]: the text of a file's bytes read as
    UTF-8 (a leading byte-order mark dropped, malformed sequences replaced
    by U+FFFD), as the bytes that are sent for it.  [acceptWebSocket] is
    the handshake of line 52 on a request: it returns, or throws when the
    request is not an acceptable upgrade. *)
Record Externals := mkExternals {
  VERSION : string;
  builtinModuleExts : list string;
  trimBuiltinModuleExts : string -> string;
  rewriteURL : string -> string -> list (string * string) -> URL;
  decodeURI : string -> string;
  join : list string -> string;
  getContentType : string -> string;
  stripSsrCode : string -> string -> string;
  atobUrl : string -> string;
  cleanPath : string -> string;
  JSON_parse : string -> option JSON;
  searchParams_toString : list (string * string) -> string;
  decodeText : string -> string;
  acceptWebSocket : ServerRequest -> Result unit;
}.

(** Modelled from the spec: [app.findModule(pred)] ([server/app.ts]):
    the first known module record that satisfies [pred], with its
    position in the registry. *)
Fixpoint findModule_from (i : nat) (pred : ModuleRecord -> bool)
  (ms : list ModuleRecord) : option (nat * ModuleRecord) :=
  match ms with
  | [] => None
  | m :: rest => if pred m then Some (i, m) else findModule_from (S i) pred rest
  end.

Definition findModule (pred : ModuleRecord -> bool) (st : Store)
  : option (nat * ModuleRecord) :=
  findModule_from 0 pred (modules st).

(** Modelled from the spec: [app.getModule(specifier)] ([server/app.ts]):
    the module record registered under [specifier]. *)
Definition getModule (ms : list ModuleRecord) (s : string) : option ModuleRecord :=
  snd <$> findModule_from 0 (fun m => String.eqb (specifier m) s) ms.

(* ------------------------------------------------------------------ *)
(** ** Effects: state passing over [World], with thrown errors *)

Definition M (A : Type) : Type := World -> Result A * World.

Definition ret {A : Type} (a : A) : M A := fun w => (Ok a, w).

Definition bind {A B : Type} (c : M A) (k : A -> M B) : M B :=
  fun w =>
    match c w with
    | (Ok a, w') => k a w'
    | (Throw e, w') => (Throw e, w')
    end.

Notation "x <- c ;; k" := (bind c (fun x => k))
  (at level 100, c at next level, right associativity).

(** [try { c } catch (err) { h err }] *)
Definition try_catch {A : Type} (c : M A) (h : Error -> M A) : M A :=
  fun w =>
    match c w with
    | (Ok a, w') => (Ok a, w')
    | (Throw e, w') => h e w'
    end.

Definition perform (e : Effect) : M unit :=
  fun w => (Ok tt, mkWorld (store w) (trace w ++ [e])).

(** Reading the store. *)
Definition reads {A : Type} (f : Store -> A) : M A :=
  fun w => (Ok (f (store w)), w).

(** A collaborator call that may change the store or throw. *)
Definition call {A : Type} (f : Store -> Result A * Store) : M A :=
  fun w => let '(res, st) := f (store w) in (res, mkWorld st (trace w)).

Definition throw {A : Type} (e : Error) : M A := fun w => (Throw e, w).

(** A computation that only appends to the log and never reads it: run
    after the log [t], it does what it does after the empty log. *)
Definition traceOblivious {A : Type} (c : M A) : Prop :=
  forall (st : Store) (t : list Effect),
    c (mkWorld st t) =
    (fst (c (mkWorld st [])),
     mkWorld (store (snd (c (mkWorld st []))))
             (t ++ trace (snd (c (mkWorld st []))))).

(** Modelled from the spec: [existsFile] ([shared/fs.ts]): whether a
    regular file is at [path]. *)
Definition existsFile (path : string) : M bool :=
  _ <- perform (ExistsFile path) ;;
  reads (fun st => match fs st path with Some _ => true | None => false end).

(** [Deno.lstatSync(path).mtime?.toUTCString() ?? (new Date).toUTCString()] *)
Definition lastModifiedOf (path : string) : M string :=
  reads (fun st =>
           match fs st path with
           | Some (mkFile (Some t) _) => t
           | _ => clock st
           end).

(** [Deno.readFileSync(path)]: the bytes of the file. *)
Definition readFile (path : string) : M string :=
  _ <- perform (ReadFile path) ;;
  reads (fun st => match fs st path with Some f => content f | None => "" end).

(** The record [m] with its [csrCode] property set. *)
Definition withCsrCode (m : ModuleRecord) (code : string) : ModuleRecord :=
  mkModule (specifier m) (jsFile m) (hash m) (sourceHash m)
           (denoHooks m) (ssrPropsFn m) (ssgPathsFn m) (Some code).

(** [Object.assign(module, { csrCode })] on the module object at [l]: the
    registry sees the change. *)
Definition assignCsrCode (l : nat) (code : string) : M unit :=
  call (fun st =>
          (Ok tt,
           mkStore
             (match modules st !! l with
              | Some m => <[ l := withCsrCode m code ]> (modules st)
              | None => modules st
              end)
             (fs st) (clock st))).

(* ------------------------------------------------------------------ *)
(** ** The HMR channel *)

(** The three closures that [handle] registers on the watcher.
    [OnModify spec] is the listener created for [mod.specifier = spec]. *)
Inductive Listener : Type :=
| OnAdd
| OnRemove
| OnModify (spec : string).

(** What the application emits on a watcher, with its payload. *)
Inductive WatchEvent : Type :=
| EvAdd (info : list (string * JSON))
| EvRemove (spec : string)
| EvModify (spec : string) (data : list (string * JSON)).

Definition eventName (ev : WatchEvent) : string :=
  match ev with
  | EvAdd _ => "add"
  | EvRemove _ => "remove"
  | EvModify spec _ => "modify-" +:+ spec
  end.

(** Modelled from the spec: the file watcher returned by
    [app.createFSWatcher()] (an event emitter, not among the sources) with
    its [on(event, handler)] / [removeAllListeners(event)] semantics:
    [on] adds a listener under an event name, [removeAllListeners] drops
    every listener of that name, and emitting an event calls the listeners
    of its name in the order they were added. *)
Module Watcher.

Definition t : Type := list (string * Listener).

Definition on (name : string) (l : Listener) (w : t) : t := w ++ [(name, l)].

Definition removeAllListeners (name : string) (w : t) : t :=
  List.filter (fun nl => negb (String.eqb (fst nl) name)) w.

Definition listenersOf (name : string) (w : t) : list Listener :=
  map snd (List.filter (fun nl => String.eqb (fst nl) name) w).

End Watcher.

(** One connection: its watcher, the text frames sent on the socket so
    far, and whether the receive loop has ended (after which the watcher
    is removed from the application). *)
Record Channel := mkChannel {
  watcher : Watcher.t;
  outbox : list string;
  closed : bool;
}.

(** What the socket iterator yields. *)
Inductive SocketEvent : Type :=
| SockText (e : string)
| SockBinary
| SockPing
| SockPong
| SockClose.

(** What happens on a channel: a frame arrives (the registry is the one
    of that moment), or the application emits on the watcher. *)
Inductive HmrEvent : Type :=
| Recv (ms : list ModuleRecord) (e : SocketEvent)
| Emit (ev : WatchEvent).

Definition LF : string := String "010" "".

Definition jsType : string := "application/javascript; charset=utf-8".
Definition jsonType : string := "application/json; charset=utf-8".
Definition htmlType : string := "text/html; charset=utf-8".

(** How a call of [handle] ends: a response was sent, the connection was
    upgraded to an HMR channel, or an API handler returned without
    responding. *)
Inductive Outcome : Type :=
| Sent (resp : Response)
| Upgraded (ch : Channel)
| NoReply.

Section Server.

Context (app : Application) (ext : Externals).

(** *** The HMR branch (lines 50-86) *)

(** [util.cleanPath(`${basePath}/_aleph/${trimBuiltinModuleExts(spec)}.js`)] *)
Definition updateUrl (spec : string) : string :=
  cleanPath ext
    (basePath (config app) +:+ "/_aleph/" +:+ trimBuiltinModuleExts ext spec +:+ ".js").

(** [socket.send(JSON.stringify(v))] *)
Definition socketSend (v : JSON) (ch : Channel) : Channel :=
  mkChannel (watcher ch) (outbox ch ++ [Json.stringify v]) (closed ch).

(** The object sent by the modify listener of [spec] on payload [data]. *)
Definition updateMessage (spec : string) (data : list (string * JSON)) : JSON :=
  JObj (Json.spread data
          [("type", JStr "update");
           ("specifier", JStr spec);
           ("updateUrl", JStr (updateUrl spec))]).

Definition removeMessage (spec : string) : JSON :=
  JObj [("type", JStr "remove"); ("specifier", JStr spec)].

Definition addMessage (info : list (string * JSON)) : JSON :=
  JObj (Json.spread info [("type", JStr "add")]).

(** Running one listener on an event.  A listener is only ever registered
    under the name of its own kind of event, so the last case is never
    reached. *)
Definition notify (l : Listener) (ev : WatchEvent) (ch : Channel) : Channel :=
  match l, ev with
  | OnAdd, EvAdd info => socketSend (addMessage info) ch
  | OnRemove, EvRemove spec =>
      socketSend (removeMessage spec)
        (mkChannel (Watcher.removeAllListeners ("modify-" +:+ spec) (watcher ch))
                   (outbox ch) (closed ch))
  | OnModify spec, EvModify _ data => socketSend (updateMessage spec data) ch
  | _, _ => ch
  end.

(** The application emits [ev] on the watcher of an open channel. *)
Definition emit (ev : WatchEvent) (ch : Channel) : Channel :=
  if closed ch then ch
  else fold_left (fun c l => notify l ev c)
                 (Watcher.listenersOf (eventName ev) (watcher ch)) ch.

(** The channel just after the upgrade: the [add] and [remove] listeners
    are registered (lines 53-58). *)
Definition hmrOpen : Channel :=
  mkChannel (Watcher.on "remove" OnRemove (Watcher.on "add" OnAdd [])) [] false.

(** The specifier that a parsed frame asks to hot-accept, if it does. *)
Definition hotAcceptOf (data : JSON) : option string :=
  match data with
  | JObj fields =>
      match Json.get "type" fields, Json.get "specifier" fields with
      | Some (JStr ty), Some (JStr spec) =>
          if String.eqb ty "hotAccept" && Util.isNEString spec
          then Some spec else None
      | _, _ => None
      end
  | _ => None
  end.

(** One turn of the receive loop (lines 60-82); on a close event the loop
    ends and the watcher is removed (line 83). *)
Definition onSocketEvent (ms : list ModuleRecord) (e : SocketEvent)
  (ch : Channel) : Channel :=
  if closed ch then ch
  else
    match e with
    | SockText e =>
        if Util.isNEString e then
          match JSON_parse ext e with
          | Some data =>
              match hotAcceptOf data with
              | Some spec =>
                  match getModule ms spec with
                  | Some m =>
                      mkChannel
                        (Watcher.on ("modify-" +:+ specifier m)
                                    (OnModify (specifier m)) (watcher ch))
                        (outbox ch) (closed ch)
                  | None => ch
                  end
              | None => ch
              end
          | None => ch
          end
        else ch
    | SockClose => mkChannel (watcher ch) (outbox ch) true
    | _ => ch
    end.

Definition hmrStep (ch : Channel) (ev : HmrEvent) : Channel :=
  match ev with
  | Recv ms e => onSocketEvent ms e ch
  | Emit ev => emit ev ch
  end.

Definition hmrRun (evs : list HmrEvent) (ch : Channel) : Channel :=
  fold_left hmrStep evs ch.

(** The number of modify listeners registered for [spec]. *)
Definition subscriptions (spec : string) (ch : Channel) : nat :=
  length (Watcher.listenersOf ("modify-" +:+ spec) (watcher ch)).

(** The specifier for which the text frame [e], received when the
    registry is [ms], gets a modify listener registered (lines 61-77). *)
Definition subscribed (ms : list ModuleRecord) (e : string) : option string :=
  if Util.isNEString e then
    match JSON_parse ext e with
    | Some data =>
        match hotAcceptOf data with
        | Some spec => specifier <$> getModule ms spec
        | None => None
        end
    | None => None
    end
  else None.

(** The text frame [e] is a hot-accept for [spec], and [spec] has a module
    record in the registry [ms] (the conditions of lines 61-66). *)
Definition hotAccepts (ms : list ModuleRecord) (e spec : string) : Prop :=
  Util.isNEString e = true
  /\ exists fields m,
       JSON_parse ext e = Some (JObj fields)
       /\ Json.get "type" fields = Some (JStr "hotAccept")
       /\ Json.get "specifier" fields = Some (JStr spec)
       /\ spec <> ""
       /\ getModule ms spec = Some m.

(** The modify listeners registered for the specifiers [subs], in order. *)
Definition modifyListeners (subs : list string) : Watcher.t :=
  map (fun spec => ("modify-" +:+ spec, OnModify spec)) subs.

(** The shape of the watcher of a channel opened by [handle]: the add and
    remove listeners, then modify listeners only. *)
Definition wellFormed (ch : Channel) : Prop :=
  exists subs : list string,
    watcher ch = ("add", OnAdd) :: ("remove", OnRemove) :: modifyListeners subs.

(** *** Compiled modules (lines 107-159) *)

(** [module.denoHooks?.length || module.ssrPropsFn || module.ssgPathsFn] *)
Definition hasServerHooks (m : ModuleRecord) : bool :=
  match denoHooks m with Some (_ :: _) => true | _ => false end
  || match ssrPropsFn m with Some s => Util.isNEString s | None => false end
  || match ssgPathsFn m with Some b => b | None => false end.

(** [module.hash || module.sourceHash] *)
Definition fingerprint (m : ModuleRecord) : string :=
  match hash m with
  | Some h => if Util.isNEString h then h else sourceHash m
  | None => sourceHash m
  end.

(** [createHash('md5').update(VERSION).update(module.hash || module.sourceHash).toString()] *)
Definition etagOf (m : ModuleRecord) : string :=
  MD5.toString (MD5.update (MD5.update MD5.createHash (VERSION ext)) (fingerprint m)).

(** The five-line template of lines 145-151. *)
Definition hotWrap (spec code : string) : string :=
  Util.join_with LF
    ["import.meta.hot = window.$createHotContext(" +:+ Json.quote spec +:+ ");";
     "";
     code;
     "";
     "import.meta.hot.accept();"].

(** Lines 131-140: the client-only variant, stripped once and kept on the
    module object. *)
Definition clientCode (l : nat) (m : ModuleRecord) (code : string) : M string :=
  if hasServerHooks m then
    match csrCode m with
    | Some c => ret c
    | None =>
        _ <- perform (StripSsrCode (specifier m)) ;;
        let csr := stripSsrCode ext (specifier m) code in
        _ <- assignCsrCode l csr ;;
        ret csr
    end
  else ret code.

(** The text that [clientCode] yields for the compiled text [code]. *)
Definition clientVariant (m : ModuleRecord) (code : string) : string :=
  if hasServerHooks m then
    match csrCode m with
    | Some c => c
    | None => stripSsrCode ext (specifier m) code
    end
  else code.

(** Lines 141-144: [app.getCodeInjects('hmr', specifier)?.forEach(...)] *)
Definition applyInjects (spec code : string) : string :=
  match getCodeInjects app "hmr" spec with
  | Some transforms =>
      fold_left (fun code transform => transform spec code) transforms code
  | None => code
  end.

Definition matchesHeader (r : ServerRequest) (name value : string) : bool :=
  match header r name with
  | Some v => String.eqb value v
  | None => false
  end.

(** Lines 119-157 for the module object at [l]; [None] when the content is
    not available and control falls through to the build directory. *)
Definition serveModule (r : ServerRequest) (req : Request.t) (l : nat)
  (m : ModuleRecord) : M (option Response) :=
  _ <- perform (GetModuleJS (specifier m)) ;;
  content <- reads (fun st => getModuleJS app st m) ;;
  match content with
  | Some content =>
      let etag := etagOf m in
      if matchesHeader r "If-None-Match" etag then
        ret (Some (Request.send None None (Request.status 304 req)))
      else
        let req := Request.setHeader "ETag" etag req in
        if isDev app && isHMRable app (specifier m) then
          code <- clientCode l m content ;;
          ret (Some (Request.send
                       (Some (hotWrap (specifier m) (applyInjects (specifier m) code)))
                       (Some jsType) req))
        else ret (Some (Request.send (Some content) (Some jsType) req))
  | None => ret None
  end.

(** The candidates of line 110: every built-in extension, then none. *)
Definition candidateExts : list string :=
  map (fun e => "." +:+ e) (builtinModuleExts ext) ++ [""].

(** The loop of lines 110-116. *)
Fixpoint probe (relPath : string) (exts : list string) : M (option nat) :=
  match exts with
  | [] => ret None
  | e :: rest =>
      let sepcifier := Util.trimSuffix relPath ".js" +:+ e in
      found <- existsFile (join ext [workingDir app; sepcifier]) ;;
      if found then
        _ <- perform (Compile sepcifier) ;;
        l <- call (compile app sepcifier) ;;
        ret (Some l)
      else probe relPath rest
  end.

(** Lines 108-117. *)
Definition resolveModule (relPath : string) : M (option nat) :=
  fun w =>
    match findModule (fun m => String.eqb (jsFile m) relPath) (store w) with
    | Some (l, _) => (Ok (Some l), w)
    | None =>
        if isDev app then probe relPath candidateExts w else (Ok None, w)
    end.

(** *** Public files with [Last-Modified] (lines 183-196) *)

Definition serveStatic (r : ServerRequest) (req : Request.t) (filePath : string)
  : M (option Response) :=
  found <- existsFile filePath ;;
  if found then
    lastModified <- lastModifiedOf filePath ;;
    if matchesHeader r "If-Modified-Since" lastModified then
      ret (Some (Request.send None None (Request.status 304 req)))
    else
      body <- readFile filePath ;;
      ret (Some (Request.send (Some body) (Some (getContentType ext filePath))
                   (Request.setHeader "Last-Modified" lastModified req)))
  else ret None.

(** [Array.from(url.searchParams.keys()).length > 0
      ? '?' + url.searchParams.toString() : ''] *)
Definition searchOf (u : URL) : string :=
  match searchParams u with
  | [] => ""
  | _ :: _ => "?" +:+ searchParams_toString ext (searchParams u)
  end.

(** *** The build-output branch (lines 89-180) *)

(** Lines 118-158 on the result of the lookup: [if (module) { ... }]. *)
Definition deliverModule (r : ServerRequest) (req : Request.t)
  (module : option nat) : M (option Response) :=
  match module with
  | Some l =>
      found <- reads (fun st => modules st !! l) ;;
      match found with
      | Some m => serveModule r req l m
      | None => ret None
      end
  | None => ret None
  end.

(** [Deno.readTextFile(path)]: the bytes of the file, decoded as text. *)
Definition readTextFile (path : string) : M string :=
  _ <- perform (ReadFile path) ;;
  reads (fun st =>
           match fs st path with
           | Some f => decodeText ext (content f)
           | None => ""
           end).

(** Lines 161-179: the file of the build directory, read as text, or 404. *)
Definition serveBuildFile (r : ServerRequest) (req : Request.t)
  (relPath : string) : M Outcome :=
  let filePath := join ext [buildDir app; relPath] in
  found <- existsFile filePath ;;
  if found then
    lastModified <- lastModifiedOf filePath ;;
    if matchesHeader r "If-Modified-Since" lastModified then
      ret (Sent (Request.send None None (Request.status 304 req)))
    else
      let req := Request.setHeader "Last-Modified" lastModified req in
      text <- readTextFile filePath ;;
      ret (Sent (Request.send (Some text) (Some (getContentType ext filePath)) req))
  else
    ret (Sent (Request.send (Some "not found") None (Request.status 404 req))).

(** A module response ends the request; otherwise the build directory is
    looked up. *)
Definition orBuildFile (r : ServerRequest) (req : Request.t)
  (relPath : string) (served : option Response) : M Outcome :=
  match served with
  | Some resp => ret (Sent resp)
  | None => serveBuildFile r req relPath
  end.

Definition serveDist (r : ServerRequest) (req : Request.t) (pathname : string)
  : M Outcome :=
  if Util.startsWith pathname "/_aleph/data/" && Util.endsWith pathname ".json" then
    let path :=
      atobUrl ext
        (Util.trimSuffix (Util.trimPrefix pathname "/_aleph/data/") ".json") in
    data <- reads (fun st => getSSRData app st path) ;;
    match data with
    | None =>
        ret (Sent (Request.send (Some "null") (Some jsonType)
                     (Request.status 404 req)))
    | Some data =>
        ret (Sent (Request.send (Some (Json.stringify data)) (Some jsonType) req))
    end
  else
    let relPath := Util.trimPrefix pathname "/_aleph" in
    if String.eqb relPath "/main.js" then
      mainJS <- reads (fun st => createMainJS app st false) ;;
      ret (Sent (Request.send (Some mainJS) (Some jsType) req))
    else
      served <-
        (if Util.endsWith relPath ".js" then
           module <- resolveModule relPath ;;
           deliverModule r req module
         else ret None) ;;
      orBuildFile r req relPath served.

(** *** API routes (lines 199-221) *)

Definition apiError (code : Z) (msg : string) : JSON :=
  JObj [("status", JNum code); ("message", JStr msg)].

Definition serveApi (req : Request.t) (pathname : string) (u : URL) : M Outcome :=
  route <- reads (fun st => getAPIRoute app st pathname (searchOf u)) ;;
  match route with
  | Some (route, module) =>
      try_catch
        (exported <- call (fun st => (importModule app st module, st)) ;;
         match exported with
         | Function handler =>
             match handler req route with
             | Returned (Some resp) => ret (Sent resp)
             | Returned None => ret NoReply
             | Thrown err => throw err
             end
         | NotAFunction =>
             ret (Sent (Request.json (apiError 500 "bad api handler")
                          (Request.status 500 req)))
         end)
        (fun err =>
           ret (Sent (Request.json (apiError 500 (message err))
                        (Request.status 500 req))))
  | None =>
      ret (Sent (Request.json (apiError 404 "not found")
                   (Request.status 404 req)))
  end.

(** *** The dispatcher (lines 26-240) *)

Definition dispatch (r : ServerRequest) (req : Request.t) (pathname : string)
  (u : URL) : M Outcome :=
  if String.eqb pathname "/_hmr" then
    match acceptWebSocket ext r with
    | Ok _ => ret (Upgraded hmrOpen)
    | Throw err => throw err
    end
  else if Util.startsWith pathname "/_aleph/" then serveDist r req pathname
  else
    file <- serveStatic r req (join ext [workingDir app; "public"; pathname]) ;;
    match file with
    | Some resp => ret (Sent resp)
    | None =>
        if Util.startsWith pathname "/api/" then serveApi req pathname u
        else
          page <- reads (fun st => getPageHTML app st pathname (searchOf u)) ;;
          ret (Sent (Request.send (Some (snd page)) (Some htmlType)
                       (Request.status (fst page) req)))
    end.

(** The page of lines 231-236. *)
Definition errorPage (err : Error) : string :=
  Util.join_with LF
    ["<!DOCTYPE html>";
     "<title>Server Error</title>";
     "<h1>Error: " +:+ message err +:+ "</h1>";
     "<p><pre>" +:+ stack err +:+ "</pre></p>"].

(** The URL after [rewriteURL], and its decoded path (lines 34-35).
    These two lines stand before the [try]: when one of them throws (a
    malformed escape in the path), the call of [handle] is rejected and
    nothing is sent.  [handle] below is the call on a request for which
    they return. *)
Definition urlOf (r : ServerRequest) : URL :=
  rewriteURL ext (url r) (basePath (config app)) (rewrites (config app)).

Definition pathnameOf (r : ServerRequest) : string :=
  decodeURI ext (pathname (urlOf r)).

(** The request context after lines 36-46: the configured headers and, in
    development, [Cache-Control: max-age=0]. *)
Definition initialRequest : Request.t :=
  let req :=
    fold_left (fun req kv => Request.setHeader (fst kv) (snd kv) req)
              (cfgHeaders (config app)) Request.new in
  if isDev app then Request.setHeader "Cache-Control" "max-age=0" req else req.

(** The outermost [try]/[catch] (lines 48 and 229-239). *)
Definition settle (res : Result Outcome * World) : Outcome * World :=
  match res with
  | (Ok outcome, w') => (outcome, w')
  | (Throw err, w') =>
      (Sent (Request.send (Some (errorPage err)) (Some htmlType)
               (Request.status 500 initialRequest)), w')
  end.

Definition handle (r : ServerRequest) (w : World) : Outcome * World :=
  settle (dispatch r initialRequest (pathnameOf r) (urlOf r) w).

(** The conditions of lines 89, 90, 102 and 107 under which a path is
    served from the module registry: under ["/_aleph/"], not an SSR-data
    path, not the main bundle, and ending in [".js"]. *)
Definition isModuleJSPath (p : string) : bool :=
  Util.startsWith p "/_aleph/"
  && negb (Util.startsWith p "/_aleph/data/" && Util.endsWith p ".json")
  && negb (String.eqb (Util.trimPrefix p "/_aleph") "/main.js")
  && Util.endsWith (Util.trimPrefix p "/_aleph") ".js".

(** The path of the source candidate with extension [e] (line 112). *)
Definition candidatePath (relPath e : string) : string :=
  join ext [workingDir app; Util.trimSuffix relPath ".js" +:+ e].

(** The world after the calls [es] were logged. *)
Definition logged (w : World) (es : list Effect) : World :=
  mkWorld (store w) (trace w ++ es).

End Server.

(* ------------------------------------------------------------------ *)
(** ** A concrete application, for the examples *)

Module Demo.

Definition exts : list string := ["tsx"; "jsx"; "ts"; "js"; "mjs"].

(** Modelled from the spec: [trimBuiltinModuleExts]
    ([framework/core/module.ts], not among the sources): the specifier
    with its recognized module extension trimmed. *)
Fixpoint trimExtsFrom (es : list string) (s : string) : string :=
  match es with
  | [] => s
  | e :: rest =>
      if Util.endsWith s ("." +:+ e) then Util.trimSuffix s ("." +:+ e)
      else trimExtsFrom rest s
  end.

Fixpoint segments (s cur : string) : list string :=
  match s with
  | EmptyString => [cur]
  | String c r =>
      if Ascii.eqb c "/" then cur :: segments r ""
      else segments r (cur +:+ String c "")
  end.

(** Modelled from the spec: [util.cleanPath] ([shared/util.ts], not among
    the sources): the cleaned path, with one ["/"] before each non-empty
    segment, ["."] dropped and [".."] resolved. *)
Definition cleanPath (p : string) : string :=
  let kept :=
    fold_left
      (fun acc seg =>
         if String.eqb seg "" || String.eqb seg "." then acc
         else if String.eqb seg ".." then removelast acc
         else acc ++ [seg])
      (segments p "") [] in
  "/" +:+ Util.join_with "/" kept.

Definition hotAccept (spec : string) : JSON :=
  JObj [("type", JStr "hotAccept"); ("specifier", JStr spec)].

(** The text frame [{type: 'hotAccept', specifier}] as the client sends it. *)
Definition hotAcceptFrame (spec : string) : string :=
  Json.stringify (hotAccept spec).

Definition mimeOf (path : string) : string :=
  if Util.endsWith path ".js" then jsType
  else if Util.endsWith path ".png" then "image/png"
  else "application/octet-stream".

(** The imports of a server whose build version is [version].  The files
    of the examples are ASCII text, which decoding leaves as it is; a
    request is accepted as an upgrade when it has the [Upgrade] header of
    a WebSocket and a key. *)
Definition versioned (version : string) : Externals :=
  mkExternals
    version
    exts
    (trimExtsFrom exts)
    (fun url _ _ => mkURL url [])
    (fun p => p)
    (fun parts => cleanPath (Util.join_with "/" parts))
    mimeOf
    (fun spec code => "/* client */ " +:+ code)
    (fun s => s)
    cleanPath
    (fun e =>
       if String.eqb e (hotAcceptFrame "/pages/index.tsx")
       then Some (hotAccept "/pages/index.tsx") else None)
    (fun ps => Util.join_with "&" (map (fun kv => fst kv +:+ "=" +:+ snd kv) ps))
    (fun bytes => bytes)
    (fun r =>
       match reqHeaders r "Upgrade", reqHeaders r "Sec-WebSocket-Key" with
       | Some "websocket", Some (String _ _) => Ok tt
       | _, _ => Throw (mkError "request is not acceptable" "at acceptWebSocket")
       end).

Definition ext : Externals := versioned "0.3.0".

Definition indexModule : ModuleRecord :=
  mkModule "/pages/index.tsx" "/pages/index.js" (Some "c0ffee") "5eed"
           None None None None.

Definition blogModule : ModuleRecord :=
  mkModule "/pages/blog.tsx" "/pages/blog.js" None "b10c"
           None (Some "ssr") None None.

Definition goneModule : ModuleRecord :=
  mkModule "/pages/gone.tsx" "/pages/gone.js" (Some "9a7e") "90fe"
           None None None None.

Definition docsModule : ModuleRecord :=
  mkModule "/pages/docs.tsx" "/pages/docs.js"
           (Some "7d0c5") "d0c5"
           None None None None.

Definition files (path : string) : option File :=
  if String.eqb path "/app/.aleph/development/pages/docs.js"
  then Some (mkFile None "export default 4")
  else
  if String.eqb path "/app/.aleph/development/pages/index.js"
  then Some (mkFile None "export default 1")
  else if String.eqb path "/app/.aleph/development/pages/blog.js"
  then Some (mkFile None "export const ssr = 0; export default 2")
  else if String.eqb path "/app/.aleph/development/deps/react.js"
  then Some (mkFile (Some "Mon, 02 Nov 2026 10:00:00 GMT") "export {}")
  else if String.eqb path "/app/public/logo.png"
  then Some (mkFile (Some "Tue, 03 Nov 2026 08:00:00 GMT") "PNG")
  else if String.eqb path "/app/pages/broken.ts"
  then Some (mkFile None "export default (")
  else if String.eqb path "/app/pages/about.jsx"
  then Some (mkFile None "export default () => 3")
  else if String.eqb path "/app/.aleph/development/pages/about.js"
  then Some (mkFile None "export default 3")
  else None.

Definition store : Store :=
  mkStore [indexModule; blogModule; goneModule; docsModule] files
          "Tue, 03 Nov 2026 09:00:00 GMT".

Definition world : World := mkWorld store [].

(** The compiler: it fails on [/pages/broken.ts], and otherwise registers
    a new record at the end of the registry. *)
Definition compile (sepcifier : string) (st : Store) : Result nat * Store :=
  if String.eqb sepcifier "/pages/broken.ts"
  then (Throw (mkError "unexpected end of file" "at compile"), st)
  else
    (Ok (length (modules st)),
     mkStore
       (modules st ++
          [mkModule sepcifier (trimExtsFrom exts sepcifier +:+ ".js")
                    None "feed" None None None None])
       (fs st) (clock st)).

Definition boom : ApiHandler :=
  fun _ _ => Thrown (mkError "boom" "at handler").

Definition apiModule (name : string) : ModuleRecord :=
  mkModule name (trimExtsFrom exts name +:+ ".js") None "a91" None None None None.

Definition app : Application :=
  mkApplication
    (mkConfig "/" [] [])
    true
    "/app"
    "/app/.aleph/development"
    (fun spec => Util.startsWith spec "/pages/")
    (fun tag spec =>
       if String.eqb tag "hmr"
       then Some [fun _ code => code +:+ LF +:+ "/* refresh */"]
       else None)
    compile
    (fun st m => content <$> fs st ("/app/.aleph/development" +:+ jsFile m))
    (fun _ _ => None)
    (fun _ _ => "main")
    (fun _ pathname _ =>
       if String.eqb pathname "/api/boom"
       then Some (mkRouterURL [] [], apiModule "/api/boom.ts")
       else if String.eqb pathname "/api/bad"
       then Some (mkRouterURL [] [], apiModule "/api/bad.ts")
       else None)
    (fun _ m =>
       if String.eqb (specifier m) "/api/boom.ts" then Ok (Function boom)
       else Ok NotAFunction)
    (fun _ _ _ => (200%Z, "<html></html>")).

(** A request for [path] with the headers [hs]. *)
Definition get (path : string) (hs : list (string * string)) : ServerRequest :=
  mkServerRequest path (fun name => Request.get_assoc name hs).

End Demo.

(* ------------------------------------------------------------------ *)
(** ** What a request can be answered with, and what it may touch *)

(** Every normal result of [c] satisfies [Q]. *)
Definition yields {A : Type} (c : M A) (Q : A -> Prop) : Prop :=
  forall (w : World) (a : A) (w' : World), c w = (Ok a, w') -> Q a.

(** The collaborator calls that change the store: compiling a module and
    stripping one (whose result is kept on the record). *)
Definition mutating (e : Effect) : bool :=
  match e with
  | Compile _ | StripSsrCode _ => true
  | _ => false
  end.

(** [c] leaves the store as it finds it and logs no mutating call. *)
Definition readOnly {A : Type} (c : M A) : Prop :=
  forall (w : World) (res : Result A) (w' : World),
    c w = (res, w') ->
    store w' = store w
    /\ exists es, trace w' = trace w ++ es /\ Forall (fun e => mutating e = false) es.

(** [keys] are pairwise different. *)
Fixpoint distinct (keys : list string) : bool :=
  match keys with
  | [] => true
  | k :: rest => negb (existsb (String.eqb k) rest) && distinct rest
  end.

(** The values of [JSON] that stand for a JavaScript value on which
    [Json.stringify] gives the text of [JSON.stringify]: every number is a
    safe integer (of magnitude at most 2^53 - 1, which JavaScript holds
    exactly and prints in full), and the keys of an object are distinct.
    Numbers with a fraction or an exponent have no value in [JSON]. *)
Fixpoint plainJSON (v : JSON) : bool :=
  match v with
  | JNum n => (Z.abs n <=? 9007199254740991)%Z
  | JArr items => forallb plainJSON items
  | JObj fields =>
      distinct (map fst fields) && forallb (fun kv => plainJSON (snd kv)) fields
  | _ => true
  end.

(** A header name in lower case: header names do not distinguish case. *)
Definition lowerChar (c : ascii) : ascii :=
  let n := N_of_ascii c in
  if ((65 <=? n) && (n <=? 90))%N then ascii_of_N (n + 32) else c.

Fixpoint toLowerCase (s : string) : string :=
  match s with
  | EmptyString => EmptyString
  | String c rest => String (lowerChar c) (toLowerCase rest)
  end.

Section Shapes.

Context (app : Application) (ext : Externals).

(** The handler of the API route matched for path [p] and search [s]
    sent [resp] through its own view of the request. *)
Definition handlerReplied (p s : string) (resp : Response) : Prop :=
  exists st st' route module handler,
    getAPIRoute app st p s = Some (route, module)
    /\ importModule app st' module = Ok (Function handler)
    /\ handler (initialRequest app) route = Returned (Some resp).

(** The responses that [handle] can end with, for a request [r] of path
    [p] and search [s]: one case per kind of [req.send] in the source. *)
Inductive Reply (r : ServerRequest) (p s : string) : Response -> Prop :=
| reply_not_modified :
    header r "If-None-Match" <> None \/ header r "If-Modified-Since" <> None ->
    Reply r p s
      (mkResponse 304 (Request.hdrs (initialRequest app)) None None)
| reply_validated (name v body ctype : string) :
    name = "ETag" \/ name = "Last-Modified" ->
    Reply r p s
      (mkResponse 200
         (Request.set_assoc name v (Request.hdrs (initialRequest app)))
         (Some body) (Some ctype))
| reply_ok (body ctype : string) :
    Reply r p s
      (mkResponse 200 (Request.hdrs (initialRequest app)) (Some body) (Some ctype))
| reply_error (code : Z) (body : string) (ctype : option string) :
    code = 404%Z \/ code = 500%Z ->
    Reply r p s
      (mkResponse code (Request.hdrs (initialRequest app)) (Some body) ctype)
| reply_page (st : Store) :
    Reply r p s
      (mkResponse (fst (getPageHTML app st p s))
         (Request.hdrs (initialRequest app))
         (Some (snd (getPageHTML app st p s))) (Some htmlType))
| reply_handler (resp : Response) :
    handlerReplied p s resp -> Reply r p s resp.

(** How a history moves the pair (closed, number of modify listeners of
    [spec]): an accepted hot-accept for [spec] adds one, the remove event
    of [spec] resets to none, a close frame ends everything. *)
Definition countStep (spec : string) (st : bool * nat) (ev : HmrEvent)
  : bool * nat :=
  if fst st then st
  else
    match ev with
    | Recv ms (SockText e) =>
        match subscribed ext ms e with
        | Some s => if String.eqb s spec then (false, S (snd st)) else st
        | None => st
        end
    | Recv _ SockClose => (true, snd st)
    | Recv _ _ => st
    | Emit (EvRemove s) => if String.eqb s spec then (false, 0) else st
    | Emit _ => st
    end.

Definition acceptedSince (spec : string) (history : list HmrEvent) : bool * nat :=
  fold_left (countStep spec) history (false, 0).


(** The conditions of lines 89, 90, 102 and 107 under which a path under
    ["/_aleph/"] is looked up in the build directory only. *)
Definition isBuildFilePath (p : string) : bool :=
  Util.startsWith p "/_aleph/"
  && negb (Util.startsWith p "/_aleph/data/" && Util.endsWith p ".json")
  && negb (String.eqb (Util.trimPrefix p "/_aleph") "/main.js")
  && negb (Util.endsWith (Util.trimPrefix p "/_aleph") ".js").

End Shapes.

(** More applications over the files of [Demo], in both modes and with
    configured headers. *)
Module Example.

Definition ssrData (path : string) : option JSON :=
  if String.eqb path "/blog" then Some (JObj [("title", JStr "Blog")]) else None.

Definition failing : ModuleRecord := Demo.apiModule "/api/failing.ts".

Definition hello : ApiHandler :=
  fun req _ => Returned (Some (Request.send (Some "hello") None req)).

(** A handler that returns without responding. *)
Definition silent : ApiHandler := fun _ _ => Returned None.

Definition appWith (cfg : Config) (dev : bool) : Application :=
  mkApplication
    cfg dev
    (workingDir Demo.app) (buildDir Demo.app)
    (isHMRable Demo.app) (getCodeInjects Demo.app)
    (compile Demo.app) (getModuleJS Demo.app)
    (fun _ path => ssrData path)
    (createMainJS Demo.app)
    (fun _ pathname _ =>
       if String.eqb pathname "/api/failing" then Some (mkRouterURL [] [], failing)
       else if String.eqb pathname "/api/hello"
       then Some (mkRouterURL [] [], Demo.apiModule "/api/hello.ts")
       else if String.eqb pathname "/api/silent"
       then Some (mkRouterURL [] [], Demo.apiModule "/api/silent.ts")
       else None)
    (fun _ m =>
       if String.eqb (specifier m) "/api/failing.ts"
       then Throw (mkError "cannot load module" "at import")
       else if String.eqb (specifier m) "/api/silent.ts"
       then Ok (Function silent)
       else Ok (Function hello))
    (fun _ pathname search => (200%Z, "<h1>" +:+ pathname +:+ search +:+ "</h1>")).

Definition cfg : Config := mkConfig "/" [("X-Frame-Options", "DENY")] [].

Definition development : Application := appWith cfg true.
Definition production : Application := appWith cfg false.

(** A configuration that asks for caching. *)
Definition caching : Config :=
  mkConfig "/" [("Cache-Control", "public, max-age=3600")] [].

(** The development application when the compiled text of
    [/pages/docs.tsx] cannot be got from the application, while its file
    is in the build directory. *)
Definition withoutDocs : Application :=
  mkApplication
    cfg true
    (workingDir Demo.app) (buildDir Demo.app)
    (isHMRable Demo.app) (getCodeInjects Demo.app)
    (compile Demo.app)
    (fun st m =>
       if String.eqb (specifier m) "/pages/docs.tsx" then None
       else getModuleJS Demo.app st m)
    (getSSRData development)
    (createMainJS Demo.app)
    (getAPIRoute development)
    (importModule development)
    (getPageHTML development).

(** The files of [Demo] and a public file without modification time. *)
Definition files (path : string) : option File :=
  if String.eqb path "/app/public/robots.txt"
  then Some (mkFile None "User-agent: *")
  else if String.eqb path "/app/.aleph/development/style.css"
  then Some (mkFile (Some "Mon, 02 Nov 2026 11:00:00 GMT") "body {}")
  else Demo.files path.

Definition storeAt (now : string) : Store :=
  mkStore (modules Demo.store) files now.

Definition world : World := mkWorld (storeAt "Tue, 03 Nov 2026 09:00:00 GMT") [].

End Example.


(* ------------------------------------------------------------------ *)
(** * Properties *)

(** ** Strings, headers and the registry *)

Lemma eqb_string_true (a b : string) : String.eqb a b = true <-> a = b.
Proof. apply String.eqb_eq. Qed.

Lemma eqb_string_false (a b : string) : String.eqb a b = false <-> a <> b.
Proof. apply String.eqb_neq. Qed.

Lemma append_assoc (a b c : string) : (a +:+ b) +:+ c = a +:+ (b +:+ c).
Proof.
  induction a as [|x a IH]; [reflexivity|].
  change (String x ((a +:+ b) +:+ c) = String x (a +:+ (b +:+ c))).
  f_equal. exact IH.
Qed.

Lemma string_length_append (a b : string) :
  String.length (a +:+ b) = String.length a + String.length b.
Proof.
  induction a as [|x a IH]; [reflexivity|].
  change (S (String.length (a +:+ b)) = S (String.length a + String.length b)).
  rewrite IH. reflexivity.
Qed.

(** [trimPrefix] and [trimSuffix] undo a concatenation. *)
Lemma trimPrefix_app (p r : string) : Util.trimPrefix (p +:+ r) p = r.
Proof.
  unfold Util.trimPrefix.
  assert (H : Util.strip_prefix p (p +:+ r) = Some r).
  { induction p as [|x p IH]; [reflexivity|].
    change (Util.strip_prefix (String x p) (String x (p +:+ r)) = Some r).
    cbn [Util.strip_prefix]. rewrite Ascii.eqb_refl. exact IH. }
  rewrite H. reflexivity.
Qed.

Lemma strip_suffix_app (a suf : string) :
  Util.strip_suffix suf (a +:+ suf) = Some a.
Proof.
  induction a as [|x a IH].
  - change (Util.strip_suffix suf suf = Some "").
    destruct suf; cbn [Util.strip_suffix]; rewrite String.eqb_refl; reflexivity.
  - change (Util.strip_suffix suf (String x (a +:+ suf)) = Some (String x a)).
    cbn [Util.strip_suffix].
    destruct (String.eqb (String x (a +:+ suf)) suf) eqn:E.
    + apply eqb_string_true in E.
      apply (f_equal String.length) in E. cbn [String.length] in E.
      rewrite string_length_append in E. lia.
    + rewrite IH. reflexivity.
Qed.

Lemma trimSuffix_app (a suf : string) :
  Util.trimSuffix (a +:+ suf) suf = a /\ Util.endsWith (a +:+ suf) suf = true.
Proof.
  unfold Util.trimSuffix, Util.endsWith. rewrite strip_suffix_app. split; reflexivity.
Qed.

(** The test suite of RFC 1321, appendix A.5. *)
Lemma md5_test_suite :
  let md5 := fun s => MD5.toString (MD5.update MD5.createHash s) in
  md5 "" = "d41d8cd98f00b204e9800998ecf8427e"
  /\ md5 "a" = "0cc175b9c0f1b6a831c399e269772661"
  /\ md5 "abc" = "900150983cd24fb0d6963f7d28e17f72"
  /\ md5 "message digest" = "f96b697d7cb7938d525a2f31aaf161d0"
  /\ md5 "abcdefghijklmnopqrstuvwxyz" = "c3fcd3d76192e4007dfb496cca67e13b"
  /\ md5 "ABCDEFGHIJKLMNOPQRSTUVWXYZabcdefghijklmnopqrstuvwxyz0123456789"
     = "d174ab98d277d9f5a5611c2c9f419d9f"
  /\ md5 ("1234567890123456789012345678901234567890"
            +:+ "1234567890123456789012345678901234567890")
     = "57edf4a22be3c955ac49da2e2107b67a".
Proof. repeat split; vm_compute; reflexivity. Qed.

Lemma get_set_assoc (k v : string) (l : list (string * string)) :
  Request.get_assoc k (Request.set_assoc k v l) = Some v.
Proof.
  induction l as [|[k0 v0] l IH]; simpl.
  - rewrite String.eqb_refl. reflexivity.
  - destruct (String.eqb k0 k) eqn:E; simpl; rewrite E; auto.
Qed.

Lemma findModule_from_spec (pred : ModuleRecord -> bool) (ms : list ModuleRecord) :
  forall i l m,
    findModule_from i pred ms = Some (l, m) ->
    exists k, l = i + k /\ ms !! k = Some m /\ pred m = true /\
              forall j m', j < k -> ms !! j = Some m' -> pred m' = false.
Proof.
  induction ms as [|m0 ms IH]; intros i l m H; simpl in H; [discriminate|].
  destruct (pred m0) eqn:E.
  - inversion H; subst. exists 0.
    split; [lia|]. split; [reflexivity|]. split; [assumption|].
    intros j m' Hj. lia.
  - destruct (IH _ _ _ H) as (k & -> & Hk & Hp & Hlt).
    exists (S k).
    split; [lia|]. split; [assumption|]. split; [assumption|].
    intros [|j] m' Hj Hm'; simpl in Hm'.
    + inversion Hm'; subst; assumption.
    + apply (Hlt j); [lia|assumption].
Qed.

Lemma findModule_lookup (pred : ModuleRecord -> bool) (st : Store) l m :
  findModule pred st = Some (l, m) ->
  modules st !! l = Some m /\ pred m = true.
Proof.
  intros H. apply findModule_from_spec in H as (k & -> & Hk & Hp & _).
  simpl. auto.
Qed.

Section Properties.

Context (app : Application) (ext : Externals).

Lemma initialRequest_code : Request.code (initialRequest app) = 200%Z.
Proof.
  unfold initialRequest.
  assert (H : forall hs req,
             Request.code
               (fold_left (fun req kv => Request.setHeader (fst kv) (snd kv) req)
                          hs req) = Request.code req).
  { induction hs as [|kv hs IH]; intros req; simpl; auto. rewrite IH. reflexivity. }
  destruct (isDev app); simpl; rewrite H; reflexivity.
Qed.

Lemma module_path_not_hmr (p : string) :
  isModuleJSPath p = true -> String.eqb p "/_hmr" = false.
Proof.
  intros H. apply eqb_string_false. intros ->. vm_compute in H. discriminate.
Qed.

(** On a module path, [handle] is the lookup followed by delivery. *)
Lemma handle_module_path (r : ServerRequest) (w : World) :
  isModuleJSPath (pathnameOf app ext r) = true ->
  handle app ext r w =
  settle app
    ((module <- resolveModule app ext
                  (Util.trimPrefix (pathnameOf app ext r) "/_aleph") ;;
      served <- deliverModule app ext r (initialRequest app) module ;;
      orBuildFile app ext r (initialRequest app)
        (Util.trimPrefix (pathnameOf app ext r) "/_aleph") served) w).
Proof.
  intros H. unfold handle, dispatch.
  rewrite (module_path_not_hmr _ H).
  unfold isModuleJSPath in H.
  apply andb_true_iff in H as [H H4].
  apply andb_true_iff in H as [H H3].
  apply andb_true_iff in H as [H1 H2].
  apply negb_true_iff in H2, H3.
  rewrite H1. unfold serveDist. rewrite H2, H3, H4.
  unfold bind. destruct (resolveModule _ _ _ w) as [[module|e] w']; reflexivity.
Qed.

Lemma logged_logged (w : World) (es fs : list Effect) :
  logged (logged w es) fs = logged w (es ++ fs).
Proof. unfold logged; simpl. rewrite <- app_assoc. reflexivity. Qed.

(** A record of the registry whose [jsFile] is the requested path is the
    resolved module, and nothing is probed or compiled. *)
Lemma resolveModule_known (relPath : string) (w : World) l m :
  findModule (fun m => String.eqb (jsFile m) relPath) (store w) = Some (l, m) ->
  resolveModule app ext relPath w = (Ok (Some l), w).
Proof. intros Hf. unfold resolveModule. rewrite Hf. reflexivity. Qed.

(** When the lookup, or the compilation on demand, yields the module
    object at [l], [handle] goes on with [serveModule] on it. *)
Lemma handle_resolved_module (r : ServerRequest) (w w0 : World) l m :
  isModuleJSPath (pathnameOf app ext r) = true ->
  resolveModule app ext (Util.trimPrefix (pathnameOf app ext r) "/_aleph") w
  = (Ok (Some l), w0) ->
  modules (store w0) !! l = Some m ->
  handle app ext r w =
  settle app
    ((served <- serveModule app ext r (initialRequest app) l m ;;
      orBuildFile app ext r (initialRequest app)
        (Util.trimPrefix (pathnameOf app ext r) "/_aleph") served) w0).
Proof.
  intros Hp Hr Hl. rewrite (handle_module_path _ _ Hp).
  unfold bind at 1. rewrite Hr.
  unfold bind at 1. unfold deliverModule. unfold bind at 1.
  unfold reads at 1. rewrite Hl. reflexivity.
Qed.

(** The four ways [serveModule] ends. *)
Lemma serveModule_unavailable (r : ServerRequest) (req : Request.t) l m (w : World) :
  getModuleJS app (store w) m = None ->
  serveModule app ext r req l m w = (Ok None, logged w [GetModuleJS (specifier m)]).
Proof.
  intros H. unfold serveModule, bind, perform, reads; simpl. rewrite H. reflexivity.
Qed.

Lemma serveModule_not_modified (r : ServerRequest) (req : Request.t) l m (w : World) c :
  getModuleJS app (store w) m = Some c ->
  matchesHeader r "If-None-Match" (etagOf ext m) = true ->
  serveModule app ext r req l m w =
  (Ok (Some (Request.send None None (Request.status 304 req))),
   logged w [GetModuleJS (specifier m)]).
Proof.
  intros H E. unfold serveModule, bind, perform, reads; simpl. rewrite H, E.
  reflexivity.
Qed.

Lemma serveModule_plain (r : ServerRequest) (req : Request.t) l m (w : World) c :
  getModuleJS app (store w) m = Some c ->
  matchesHeader r "If-None-Match" (etagOf ext m) = false ->
  isDev app && isHMRable app (specifier m) = false ->
  serveModule app ext r req l m w =
  (Ok (Some (Request.send (Some c) (Some jsType)
               (Request.setHeader "ETag" (etagOf ext m) req))),
   logged w [GetModuleJS (specifier m)]).
Proof.
  intros H E D. unfold serveModule, bind, perform, reads; simpl. rewrite H, E, D.
  reflexivity.
Qed.

Lemma serveModule_hot (r : ServerRequest) (req : Request.t) l m (w : World) c :
  getModuleJS app (store w) m = Some c ->
  matchesHeader r "If-None-Match" (etagOf ext m) = false ->
  isDev app && isHMRable app (specifier m) = true ->
  serveModule app ext r req l m w =
  (code <- clientCode ext l m c ;;
   ret (Some (Request.send
                (Some (hotWrap (specifier m) (applyInjects app (specifier m) code)))
                (Some jsType)
                (Request.setHeader "ETag" (etagOf ext m) req))))
    (logged w [GetModuleJS (specifier m)]).
Proof.
  intros H E D. unfold serveModule, bind at 1, perform, reads; simpl.
  unfold bind at 1. simpl. rewrite H, E, D. reflexivity.
Qed.

Lemma serveBuildFile_absent (r : ServerRequest) (req : Request.t) relPath (w : World) :
  fs (store w) (join ext [buildDir app; relPath]) = None ->
  serveBuildFile app ext r req relPath w =
  (Ok (Sent (Request.send (Some "not found") None (Request.status 404 req))),
   logged w [ExistsFile (join ext [buildDir app; relPath])]).
Proof.
  intros H. unfold serveBuildFile, serveStatic, existsFile, bind, perform, reads; simpl.
  rewrite H. reflexivity.
Qed.

(** C10: a build-output JS request whose path matches a known module
    record but whose compiled content is unavailable does not fail: the
    handler falls through to the file of the build directory and, when
    there is none either, answers 404 with the plain body "not found",
    sent without a JSON content type. *)
Theorem C10_unavailable_content_is_plain_404 (r : ServerRequest) (w : World) l m :
  let relPath := Util.trimPrefix (pathnameOf app ext r) "/_aleph" in
  isModuleJSPath (pathnameOf app ext r) = true ->
  findModule (fun m => String.eqb (jsFile m) relPath) (store w) = Some (l, m) ->
  getModuleJS app (store w) m = None ->
  fs (store w) (join ext [buildDir app; relPath]) = None ->
  handle app ext r w =
  (Sent (mkResponse 404 (Request.hdrs (initialRequest app)) (Some "not found") None),
   logged w [GetModuleJS (specifier m);
             ExistsFile (join ext [buildDir app; relPath])]).
Proof.
  intros relPath Hp Hf Hc Hb.
  destruct (findModule_lookup _ _ _ _ Hf) as [Hl _].
  rewrite (handle_resolved_module _ _ _ _ _ Hp (resolveModule_known _ _ _ _ Hf) Hl).
  unfold bind. rewrite (serveModule_unavailable _ _ _ _ _ Hc).
  unfold orBuildFile. fold relPath.
  rewrite serveBuildFile_absent by exact Hb.
  rewrite logged_logged. reflexivity.
Qed.

(** ** The validator of compiled modules *)

Lemma matchesHeader_true (r : ServerRequest) (name v : string) :
  matchesHeader r name v = true <-> header r name = Some v.
Proof.
  unfold matchesHeader. destruct (header r name) as [v'|].
  - rewrite eqb_string_true. split; [intros ->; reflexivity | congruence].
  - split; discriminate.
Qed.

Lemma matchesHeader_false (r : ServerRequest) (name v : string) :
  matchesHeader r name v = false <-> header r name <> Some v.
Proof.
  rewrite <- matchesHeader_true. destruct (matchesHeader r name v); split; congruence.
Qed.

Lemma clientCode_value l m c (w : World) :
  fst (clientCode ext l m c w) = Ok (clientVariant ext m c).
Proof.
  unfold clientCode, clientVariant.
  destruct (hasServerHooks m); [|reflexivity].
  destruct (csrCode m); reflexivity.
Qed.

Lemma clientCode_no_hooks l m c (w : World) :
  hasServerHooks m = false -> clientCode ext l m c w = (Ok c, w).
Proof. intros H. unfold clientCode. rewrite H. reflexivity. Qed.

Lemma clientCode_memoized l m c v (w : World) :
  hasServerHooks m = true -> csrCode m = Some v ->
  clientCode ext l m c w = (Ok v, w).
Proof. intros H E. unfold clientCode. rewrite H, E. reflexivity. Qed.

Lemma clientCode_strips l m c (w : World) :
  hasServerHooks m = true -> csrCode m = None ->
  modules (store w) !! l = Some m ->
  clientCode ext l m c w =
  (Ok (stripSsrCode ext (specifier m) c),
   mkWorld
     (mkStore (<[ l := withCsrCode m (stripSsrCode ext (specifier m) c) ]>
                 (modules (store w)))
              (fs (store w)) (clock (store w)))
     (trace w ++ [StripSsrCode (specifier m)])).
Proof.
  intros H E Hl. unfold clientCode. rewrite H, E.
  unfold bind, perform, assignCsrCode, call, ret; simpl. rewrite Hl. reflexivity.
Qed.



Lemma send_with_etag (etag text : string) :
  Request.send (Some text) (Some jsType)
    (Request.setHeader "ETag" etag (initialRequest app)) =
  mkResponse 200 (Request.set_assoc "ETag" etag (Request.hdrs (initialRequest app)))
             (Some text) (Some jsType).
Proof.
  unfold Request.send, Request.setHeader; simpl.
  rewrite initialRequest_code. reflexivity.
Qed.

(** What a module request is answered with when the validator does not
    match: the compiled text, or in development, for an HMR-eligible
    module, its wrapped variant. *)
Lemma handle_module_mismatch (r : ServerRequest) (w w0 : World) l m c :
  isModuleJSPath (pathnameOf app ext r) = true ->
  resolveModule app ext (Util.trimPrefix (pathnameOf app ext r) "/_aleph") w
  = (Ok (Some l), w0) ->
  modules (store w0) !! l = Some m ->
  getModuleJS app (store w0) m = Some c ->
  matchesHeader r "If-None-Match" (etagOf ext m) = false ->
  handle app ext r w =
  (Sent (mkResponse 200
           (Request.set_assoc "ETag" (etagOf ext m) (Request.hdrs (initialRequest app)))
           (Some (if isDev app && isHMRable app (specifier m)
                  then hotWrap (specifier m)
                         (applyInjects app (specifier m) (clientVariant ext m c))
                  else c))
           (Some jsType)),
   if isDev app && isHMRable app (specifier m)
   then snd (clientCode ext l m c (logged w0 [GetModuleJS (specifier m)]))
   else logged w0 [GetModuleJS (specifier m)]).
Proof.
  intros Hp Hr Hl Hc Hm.
  rewrite (handle_resolved_module _ _ _ _ _ Hp Hr Hl).
  unfold bind at 1.
  destruct (isDev app && isHMRable app (specifier m)) eqn:D.
  - rewrite (serveModule_hot _ _ _ _ _ _ Hc Hm D).
    unfold bind at 1.
    pose proof (clientCode_value l m c (logged w0 [GetModuleJS (specifier m)])) as V.
    destruct (clientCode ext l m c (logged w0 [GetModuleJS (specifier m)]))
      as [[v|e] w2]; simpl in V; [|discriminate].
    inversion V; subst v. unfold ret, orBuildFile, settle; simpl.
    rewrite send_with_etag. reflexivity.
  - rewrite (serveModule_plain _ _ _ _ _ _ Hc Hm D).
    unfold orBuildFile, ret, settle. rewrite send_with_etag. reflexivity.
Qed.


(** C1 (amended): in development, for an HMR-eligible module without
    server-only hooks (content available, validator not matched), the
    stripping of server-only code is skipped and nothing is memoized, but
    the registered "hmr" transforms are applied to the compiled text and
    the result is wrapped in the hot-context template.  The compiled text
    is served unchanged when the server is not in development mode or the
    module is not HMR-eligible. *)
Theorem C1_hot_variant_without_hooks (r : ServerRequest) (w w0 : World) l m c :
  let relPath := Util.trimPrefix (pathnameOf app ext r) "/_aleph" in
  isModuleJSPath (pathnameOf app ext r) = true ->
  resolveModule app ext relPath w = (Ok (Some l), w0) ->
  modules (store w0) !! l = Some m ->
  getModuleJS app (store w0) m = Some c ->
  header r "If-None-Match" <> Some (etagOf ext m) ->
  (isDev app = true -> isHMRable app (specifier m) = true ->
   hasServerHooks m = false ->
   handle app ext r w =
   (Sent (mkResponse 200
            (Request.set_assoc "ETag" (etagOf ext m) (Request.hdrs (initialRequest app)))
            (Some (hotWrap (specifier m) (applyInjects app (specifier m) c)))
            (Some jsType)),
    logged w0 [GetModuleJS (specifier m)]))
  /\ (isDev app && isHMRable app (specifier m) = false ->
      handle app ext r w =
      (Sent (mkResponse 200
               (Request.set_assoc "ETag" (etagOf ext m) (Request.hdrs (initialRequest app)))
               (Some c) (Some jsType)),
       logged w0 [GetModuleJS (specifier m)])).
Proof.
  intros relPath Hp Hr Hl Hc Hm. apply matchesHeader_false in Hm.
  pose proof (handle_module_mismatch _ _ _ _ _ _ Hp Hr Hl Hc Hm) as H.
  split.
  - intros Hd Hh Hk. rewrite Hd, Hh in H; simpl in H.
    rewrite clientCode_no_hooks in H by exact Hk.
    unfold clientVariant in H. rewrite Hk in H. exact H.
  - intros D. rewrite D in H. exact H.
Qed.

(** ** The memoized client-only variant *)

Lemma findModule_from_insert (pred : ModuleRecord -> bool) (ms : list ModuleRecord) :
  forall i k m m',
    findModule_from i pred ms = Some (i + k, m) ->
    pred m' = true ->
    findModule_from i pred (<[ k := m' ]> ms) = Some (i + k, m').
Proof.
  induction ms as [|m0 ms IH]; intros i k m m' H Hp; simpl in H; [discriminate|].
  destruct (pred m0) eqn:E.
  - inversion H as [[Hi Hm]]. assert (k = 0) by lia. subst k. simpl.
    rewrite Hp. f_equal. f_equal. lia.
  - destruct (findModule_from_spec _ _ _ _ _ H) as (k' & Hk & _).
    assert (k = S k') by lia. subst k. simpl. rewrite E.
    replace (i + S k') with (S i + k') in * by lia.
    apply (IH _ _ m); assumption.
Qed.

Lemma findModule_insert (pred : ModuleRecord -> bool) (st : Store) l m m' :
  findModule pred st = Some (l, m) ->
  pred m' = true ->
  findModule pred (mkStore (<[ l := m' ]> (modules st)) (fs st) (clock st))
  = Some (l, m').
Proof.
  unfold findModule; simpl. intros H Hp.
  apply (findModule_from_insert pred (modules st) 0 l m m'); assumption.
Qed.

Lemma withCsrCode_same (m : ModuleRecord) (v : string) :
  csrCode m = Some v -> withCsrCode m v = m.
Proof. destruct m; simpl; intros ->; reflexivity. Qed.

Lemma hotWrap_shape (spec code : string) :
  hotWrap spec code =
  ("import.meta.hot = window.$createHotContext(" +:+ Json.quote spec +:+ ");")
    +:+ LF +:+ LF +:+ code +:+ LF +:+ LF +:+ "import.meta.hot.accept();".
Proof. reflexivity. Qed.

(** C5: in development, for an HMR-eligible module that declares
    server-only hooks, the served text is the client-only variant (the
    compiled text with server-only code stripped), passed through the
    registered "hmr" transforms one after the other, inside the template
    that starts with the hot-context registration of the JSON-encoded
    specifier and ends with the hot-accept call.  The variant is stripped
    at most once and kept on the module record: a second request for the
    same path gets the same text without another stripping. *)
Theorem C5_hot_variant_with_hooks (r1 : ServerRequest) (w w0 : World) l m c :
  let relPath := Util.trimPrefix (pathnameOf app ext r1) "/_aleph" in
  let variant :=
    match csrCode m with
    | Some v => v
    | None => stripSsrCode ext (specifier m) c
    end in
  let injected :=
    match getCodeInjects app "hmr" (specifier m) with
    | Some transforms =>
        fold_left (fun code transform => transform (specifier m) code)
                  transforms variant
    | None => variant
    end in
  let text :=
    ("import.meta.hot = window.$createHotContext("
       +:+ Json.quote (specifier m) +:+ ");")
      +:+ LF +:+ LF +:+ injected +:+ LF +:+ LF +:+ "import.meta.hot.accept();" in
  let resp :=
    mkResponse 200
      (Request.set_assoc "ETag" (etagOf ext m) (Request.hdrs (initialRequest app)))
      (Some text) (Some jsType) in
  isModuleJSPath (pathnameOf app ext r1) = true ->
  isDev app = true ->
  resolveModule app ext relPath w = (Ok (Some l), w0) ->
  findModule (fun m => String.eqb (jsFile m) relPath) (store w0) = Some (l, m) ->
  isHMRable app (specifier m) = true ->
  hasServerHooks m = true ->
  getModuleJS app (store w0) m = Some c ->
  header r1 "If-None-Match" <> Some (etagOf ext m) ->
  exists w1,
    handle app ext r1 w = (Sent resp, w1)
    /\ findModule (fun m => String.eqb (jsFile m) relPath) (store w1)
       = Some (l, withCsrCode m variant)
    /\ trace w1 =
       trace w0 ++ GetModuleJS (specifier m)
               :: match csrCode m with
                  | Some _ => []
                  | None => [StripSsrCode (specifier m)]
                  end
    /\ forall (r2 : ServerRequest) c2,
         pathnameOf app ext r2 = pathnameOf app ext r1 ->
         getModuleJS app (store w1) (withCsrCode m variant) = Some c2 ->
         header r2 "If-None-Match" <> Some (etagOf ext m) ->
         handle app ext r2 w1 = (Sent resp, logged w1 [GetModuleJS (specifier m)]).
Proof.
  intros relPath variant injected text resp Hp Hd Hr Hf Hh Hk Hc Hm.
  apply matchesHeader_false in Hm.
  destruct (findModule_lookup _ _ _ _ Hf) as [Hl Hj].
  pose proof (handle_module_mismatch _ _ _ _ _ _ Hp Hr Hl Hc Hm) as H1.
  rewrite Hd, Hh in H1; simpl in H1.
  assert (Hv : clientVariant ext m c = variant).
  { unfold clientVariant. rewrite Hk. reflexivity. }
  rewrite Hv in H1.
  assert (Ht : hotWrap (specifier m) (applyInjects app (specifier m) variant) = text)
    by reflexivity.
  rewrite Ht in H1.
  assert (Hsecond :
    forall w1,
      findModule (fun m => String.eqb (jsFile m) relPath) (store w1)
        = Some (l, withCsrCode m variant) ->
      forall (r2 : ServerRequest) c2,
        pathnameOf app ext r2 = pathnameOf app ext r1 ->
        getModuleJS app (store w1) (withCsrCode m variant) = Some c2 ->
        header r2 "If-None-Match" <> Some (etagOf ext m) ->
        handle app ext r2 w1 = (Sent resp, logged w1 [GetModuleJS (specifier m)])).
  { intros w1 Hf1 r2 c2 Hp2 Hc2 Hm2. apply matchesHeader_false in Hm2.
    assert (Hp' : isModuleJSPath (pathnameOf app ext r2) = true) by (rewrite Hp2; exact Hp).
    assert (Hf' : findModule
                    (fun m => String.eqb (jsFile m)
                                (Util.trimPrefix (pathnameOf app ext r2) "/_aleph"))
                    (store w1) = Some (l, withCsrCode m variant))
      by (rewrite Hp2; exact Hf1).
    pose proof (handle_module_mismatch r2 w1 w1 l (withCsrCode m variant) c2 Hp'
                  (resolveModule_known _ _ _ _ Hf')
                  (proj1 (findModule_lookup _ _ _ _ Hf')) Hc2 Hm2)
      as H2.
    simpl in H2. rewrite Hd, Hh in H2; simpl in H2.
    rewrite (clientCode_memoized l (withCsrCode m variant) c2 variant) in H2
      by (auto; reflexivity).
    assert (Hv2 : clientVariant ext (withCsrCode m variant) c2 = variant).
    { unfold clientVariant. simpl.
      change (hasServerHooks (withCsrCode m variant)) with (hasServerHooks m).
      rewrite Hk. reflexivity. }
    rewrite Hv2, Ht in H2. exact H2. }
  destruct (csrCode m) as [v|] eqn:Ev.
  - rewrite (clientCode_memoized l m c v) in H1 by assumption.
    exists (logged w0 [GetModuleJS (specifier m)]).
    assert (Hsame : withCsrCode m variant = m) by (apply withCsrCode_same; exact Ev).
    split; [exact H1|]. split; [rewrite Hsame; exact Hf|]. split; [reflexivity|].
    apply Hsecond. rewrite Hsame. exact Hf.
  - rewrite (clientCode_strips l m c) in H1 by assumption.
    simpl in H1.
    eexists. split; [exact H1|].
    assert (Hf1 : findModule (fun m0 => String.eqb (jsFile m0) relPath)
                    (mkStore (<[ l := withCsrCode m variant ]> (modules (store w0)))
                             (fs (store w0)) (clock (store w0)))
                  = Some (l, withCsrCode m variant)).
    { apply (findModule_insert _ _ _ m); [exact Hf | exact Hj]. }
    split; [exact Hf1|]. split.
    + simpl. rewrite <- app_assoc. reflexivity.
    + apply Hsecond. exact Hf1.
Qed.

(** ** Compiling on demand *)

Lemma logged_nil (w : World) : logged w [] = w.
Proof. destruct w; unfold logged; simpl. rewrite app_nil_r. reflexivity. Qed.

Lemma probe_miss (relPath : string) (es : list string) :
  forall w : World,
    (forall e, In e es -> fs (store w) (candidatePath app ext relPath e) = None) ->
    probe app ext relPath es w =
    (Ok None,
     logged w (map (fun e => ExistsFile (candidatePath app ext relPath e)) es)).
Proof.
  induction es as [|e es IH]; intros w H; simpl.
  - rewrite logged_nil. reflexivity.
  - unfold bind at 1, existsFile, bind at 1, perform, reads; simpl.
    fold (candidatePath app ext relPath e).
    rewrite (H e) by (left; reflexivity).
    rewrite IH by (intros e' He'; apply H; right; exact He').
    unfold logged; simpl. rewrite <- app_assoc. reflexivity.
Qed.

Lemma probe_hit (relPath : string) (pre : list string) :
  forall (w : World) e post f,
    (forall e', In e' pre -> fs (store w) (candidatePath app ext relPath e') = None) ->
    fs (store w) (candidatePath app ext relPath e) = Some f ->
    probe app ext relPath (pre ++ e :: post) w =
    let tr :=
      trace w
      ++ map (fun e => ExistsFile (candidatePath app ext relPath e)) (pre ++ [e])
      ++ [Compile (Util.trimSuffix relPath ".js" +:+ e)] in
    match compile app (Util.trimSuffix relPath ".js" +:+ e) (store w) with
    | (Ok l, st') => (Ok (Some l), mkWorld st' tr)
    | (Throw err, st') => (Throw err, mkWorld st' tr)
    end.
Proof.
  induction pre as [|e0 pre IH]; intros w e post f Hpre He; simpl.
  - unfold bind at 1, existsFile, bind at 1, perform, reads; simpl.
    fold (candidatePath app ext relPath e). rewrite He.
    unfold bind, perform, call, ret; simpl.
    destruct (compile app (Util.trimSuffix relPath ".js" +:+ e) (store w))
      as [[l|err] st']; rewrite <- app_assoc; reflexivity.
  - unfold bind at 1, existsFile, bind at 1, perform, reads; simpl.
    fold (candidatePath app ext relPath e0).
    rewrite (Hpre e0) by (left; reflexivity).
    rewrite (IH _ e post f); simpl.
    + destruct (compile app (Util.trimSuffix relPath ".js" +:+ e) (store w))
        as [[l|err] st']; rewrite <- app_assoc; reflexivity.
    + intros e' He'. apply Hpre. right. exact He'.
    + exact He.
Qed.

(** C3 (amended): in development, for a build-output JS path without a
    matching module record, the candidates are the path with each built-in
    extension, in their order, and then with none; they are probed in that
    order up to the first that exists, which is compiled, and the compiled
    record is the one delivered.  When compiling throws, the response is
    the 500 error page with the error's message.  When no candidate exists
    the handler falls through to the file of the build directory, and
    answers 404 "not found" when that file does not exist either. *)
Theorem C3_probe_then_compile (r : ServerRequest) (w : World) :
  let relPath := Util.trimPrefix (pathnameOf app ext r) "/_aleph" in
  let base := Util.trimSuffix relPath ".js" in
  let pathOf := fun e => join ext [workingDir app; base +:+ e] in
  isModuleJSPath (pathnameOf app ext r) = true ->
  isDev app = true ->
  findModule (fun m => String.eqb (jsFile m) relPath) (store w) = None ->
  candidateExts ext = map (fun e => "." +:+ e) (builtinModuleExts ext) ++ [""]
  /\ (forall pre e post f,
        candidateExts ext = pre ++ e :: post ->
        (forall e', In e' pre -> fs (store w) (pathOf e') = None) ->
        fs (store w) (pathOf e) = Some f ->
        let tr :=
          trace w ++ map (fun e => ExistsFile (pathOf e)) (pre ++ [e])
                  ++ [Compile (base +:+ e)] in
        (forall err st',
            compile app (base +:+ e) (store w) = (Throw err, st') ->
            handle app ext r w =
            (Sent (mkResponse 500 (Request.hdrs (initialRequest app))
                     (Some (errorPage err)) (Some htmlType)),
             mkWorld st' tr))
        /\ (forall l st',
               compile app (base +:+ e) (store w) = (Ok l, st') ->
               handle app ext r w =
               settle app
                 ((served <- deliverModule app ext r (initialRequest app) (Some l) ;;
                   orBuildFile app ext r (initialRequest app) relPath served)
                    (mkWorld st' tr))))
  /\ ((forall e, In e (candidateExts ext) -> fs (store w) (pathOf e) = None) ->
      let probes := map (fun e => ExistsFile (pathOf e)) (candidateExts ext) in
      handle app ext r w =
      settle app (serveBuildFile app ext r (initialRequest app) relPath (logged w probes))
      /\ (fs (store w) (join ext [buildDir app; relPath]) = None ->
          handle app ext r w =
          (Sent (mkResponse 404 (Request.hdrs (initialRequest app))
                   (Some "not found") None),
           logged w (probes ++ [ExistsFile (join ext [buildDir app; relPath])])))).
Proof.
  intros relPath base pathOf Hp Hd Hf.
  pose proof (handle_module_path r w Hp) as H.
  unfold bind at 1 in H. unfold resolveModule in H. fold relPath in H.
  rewrite Hf, Hd in H.
  split; [reflexivity|]. split.
  - intros pre e post f Hc Hpre He tr.
    rewrite Hc in H. rewrite (probe_hit relPath pre w e post f Hpre He) in H.
    simpl in H. fold base in H. split.
    + intros err st' Hcomp. rewrite Hcomp in H. rewrite H. unfold settle.
      unfold Request.send, Request.status; simpl. reflexivity.
    + intros l st' Hcomp. rewrite Hcomp in H. exact H.
  - intros Hnone probes.
    rewrite (probe_miss relPath (candidateExts ext) w Hnone) in H.
    unfold deliverModule, bind, ret, orBuildFile in H.
    split; [exact H|].
    intros Hb. rewrite H.
    rewrite serveBuildFile_absent by exact Hb.
    rewrite logged_logged. reflexivity.
Qed.

(** ** The log is write-only *)

Lemma oblivious_ret {A : Type} (a : A) : traceOblivious (ret a).
Proof. intros st t. unfold ret; simpl. rewrite app_nil_r. reflexivity. Qed.

Lemma oblivious_throw {A : Type} (e : Error) : traceOblivious (@throw A e).
Proof. intros st t. unfold throw; simpl. rewrite app_nil_r. reflexivity. Qed.

Lemma oblivious_perform (e : Effect) : traceOblivious (perform e).
Proof. intros st t. reflexivity. Qed.

Lemma oblivious_reads {A : Type} (f : Store -> A) : traceOblivious (reads f).
Proof. intros st t. unfold reads; simpl. rewrite app_nil_r. reflexivity. Qed.

Lemma oblivious_call {A : Type} (f : Store -> Result A * Store) :
  traceOblivious (call f).
Proof.
  intros st t. unfold call; simpl. destruct (f st) as [res st']; simpl.
  rewrite app_nil_r. reflexivity.
Qed.

Lemma oblivious_bind {A B : Type} (c : M A) (k : A -> M B) :
  traceOblivious c -> (forall a, traceOblivious (k a)) ->
  traceOblivious (bind c k).
Proof.
  intros Hc Hk st t. unfold bind. rewrite (Hc st t).
  destruct (c (mkWorld st [])) as [[a|e] [st1 t1]]; simpl; [|reflexivity].
  rewrite (Hk a st1 (t ++ t1)), (Hk a st1 t1). simpl.
  rewrite app_assoc. reflexivity.
Qed.

Lemma oblivious_try_catch {A : Type} (c : M A) (h : Error -> M A) :
  traceOblivious c -> (forall e, traceOblivious (h e)) ->
  traceOblivious (try_catch c h).
Proof.
  intros Hc Hh st t. unfold try_catch. rewrite (Hc st t).
  destruct (c (mkWorld st [])) as [[a|e] [st1 t1]]; simpl; [reflexivity|].
  rewrite (Hh e st1 (t ++ t1)), (Hh e st1 t1). simpl.
  rewrite app_assoc. reflexivity.
Qed.

Ltac oblivious :=
  repeat first
    [ apply oblivious_ret
    | apply oblivious_throw
    | apply oblivious_perform
    | apply oblivious_reads
    | apply oblivious_call
    | apply oblivious_bind; [|intros ?]
    | apply oblivious_try_catch; [|intros ?]
    | match goal with
      | |- traceOblivious (if ?b then _ else _) => destruct b
      | |- traceOblivious (match ?x with _ => _ end) => destruct x
      end ].

Lemma oblivious_serveStatic (r : ServerRequest) (req : Request.t) (path : string) :
  traceOblivious (serveStatic ext r req path).
Proof. unfold serveStatic, existsFile, lastModifiedOf, readFile. oblivious. Qed.

Lemma oblivious_serveModule (r : ServerRequest) (req : Request.t) l m :
  traceOblivious (serveModule app ext r req l m).
Proof. unfold serveModule, clientCode, assignCsrCode. oblivious. Qed.

Lemma oblivious_probe (relPath : string) (exts : list string) :
  traceOblivious (probe app ext relPath exts).
Proof.
  induction exts as [|e exts IH]; cbn [probe]; unfold existsFile; oblivious.
  exact IH.
Qed.

Lemma oblivious_resolveModule (relPath : string) :
  traceOblivious (resolveModule app ext relPath).
Proof.
  intros st t. unfold resolveModule. simpl.
  destruct (findModule _ st) as [[l m]|].
  - simpl. rewrite app_nil_r. reflexivity.
  - destruct (isDev app).
    + apply oblivious_probe.
    + simpl. rewrite app_nil_r. reflexivity.
Qed.

Lemma oblivious_serveBuildFile (r : ServerRequest) (req : Request.t) (relPath : string) :
  traceOblivious (serveBuildFile app ext r req relPath).
Proof.
  unfold serveBuildFile, existsFile, lastModifiedOf, readTextFile. cbv zeta.
  oblivious.
Qed.

Lemma oblivious_dispatch (r : ServerRequest) (req : Request.t) (p : string) (u : URL) :
  traceOblivious (dispatch app ext r req p u).
Proof.
  unfold dispatch. destruct (String.eqb p "/_hmr"); [oblivious|].
  destruct (Util.startsWith p "/_aleph/").
  - unfold serveDist.
    destruct (Util.startsWith p "/_aleph/data/" && Util.endsWith p ".json");
      [oblivious|].
    destruct (String.eqb (Util.trimPrefix p "/_aleph") "/main.js"); [oblivious|].
    apply oblivious_bind.
    + destruct (Util.endsWith (Util.trimPrefix p "/_aleph") ".js"); [|oblivious].
      apply oblivious_bind; [apply oblivious_resolveModule|].
      intros module. unfold deliverModule. destruct module as [l|]; [|oblivious].
      apply oblivious_bind; [oblivious|]. intros [m|]; [|oblivious].
      apply oblivious_serveModule.
    + intros served. unfold orBuildFile. destruct served; [oblivious|].
      apply oblivious_serveBuildFile.
  - apply oblivious_bind; [apply oblivious_serveStatic|].
    intros file. destruct file; [oblivious|].
    destruct (Util.startsWith p "/api/"); [|oblivious].
    unfold serveApi. oblivious.
Qed.

(** The outcome of a request and the store it leaves do not depend on
    what was logged before. *)
Lemma handle_after_log (r : ServerRequest) (w : World) (es : list Effect) :
  fst (handle app ext r (logged w es)) = fst (handle app ext r w)
  /\ store (snd (handle app ext r (logged w es))) = store (snd (handle app ext r w)).
Proof.
  unfold handle, logged.
  pose proof (oblivious_dispatch r (initialRequest app) (pathnameOf app ext r)
                (urlOf app ext r)) as H.
  rewrite (H (store w) (trace w ++ es)).
  destruct w as [st t]; simpl. rewrite (H st t).
  destruct (dispatch app ext r (initialRequest app) (pathnameOf app ext r)
              (urlOf app ext r) (mkWorld st [])) as [[o|e] [st1 t1]];
    simpl; split; reflexivity.
Qed.

(** ** Public files and API routes *)

(** Outside ["/_hmr"] and ["/_aleph/"], [handle] first looks for the file
    under [public]. *)
Lemma handle_other_path (r : ServerRequest) (w : World) :
  pathnameOf app ext r <> "/_hmr" ->
  Util.startsWith (pathnameOf app ext r) "/_aleph/" = false ->
  handle app ext r w =
  settle app
    ((file <- serveStatic ext r (initialRequest app)
                (join ext [workingDir app; "public"; pathnameOf app ext r]) ;;
      match file with
      | Some resp => ret (Sent resp)
      | None =>
          if Util.startsWith (pathnameOf app ext r) "/api/"
          then serveApi app ext (initialRequest app) (pathnameOf app ext r) (urlOf app ext r)
          else
            page <- reads (fun st =>
                             getPageHTML app st (pathnameOf app ext r)
                               (searchOf ext (urlOf app ext r))) ;;
            ret (Sent (Request.send (Some (snd page)) (Some htmlType)
                         (Request.status (fst page) (initialRequest app))))
      end) w).
Proof.
  intros Hh Ha. unfold handle, dispatch.
  apply eqb_string_false in Hh. rewrite Hh, Ha. reflexivity.
Qed.

(** C8: a request outside the HMR and build-output prefixes whose path is
    an existing file under the public root is validated by the file's
    last-modified time, or by the current time when the file has none:
    when [If-Modified-Since] equals it the response is 304 without a body
    and the file is not read; otherwise the response is 200 with the file's
    bytes, [Last-Modified] set to the validator and the content type of
    the file path. *)
Theorem C8_public_file_last_modified (r : ServerRequest) (w : World) (f : File) :
  let path := join ext [workingDir app; "public"; pathnameOf app ext r] in
  let lastModified :=
    match mtime f with Some t => t | None => clock (store w) end in
  pathnameOf app ext r <> "/_hmr" ->
  Util.startsWith (pathnameOf app ext r) "/_aleph/" = false ->
  fs (store w) path = Some f ->
  (header r "If-Modified-Since" = Some lastModified ->
   handle app ext r w =
   (Sent (mkResponse 304 (Request.hdrs (initialRequest app)) None None),
    logged w [ExistsFile path]))
  /\ (header r "If-Modified-Since" <> Some lastModified ->
      handle app ext r w =
      (Sent (mkResponse 200
               (Request.set_assoc "Last-Modified" lastModified
                  (Request.hdrs (initialRequest app)))
               (Some (content f)) (Some (getContentType ext path))),
       logged w [ExistsFile path; ReadFile path])
      /\ Request.get_assoc "Last-Modified"
           (Request.set_assoc "Last-Modified" lastModified
              (Request.hdrs (initialRequest app))) = Some lastModified).
Proof.
  intros path lastModified Hh Ha Hf.
  rewrite (handle_other_path r w Hh Ha). fold path.
  assert (Hlm : lastModifiedOf path (logged w [ExistsFile path])
                = (Ok lastModified, logged w [ExistsFile path])).
  { unfold lastModifiedOf, reads; simpl. rewrite Hf.
    unfold lastModified. destruct f as [[t|] c]; reflexivity. }
  split.
  - intros Hm. apply matchesHeader_true in Hm.
    unfold bind at 1, serveStatic, bind at 1, existsFile, bind at 1, perform, reads.
    simpl. rewrite Hf. unfold bind at 1.
    change (mkWorld (store w) (trace w ++ [ExistsFile path]))
      with (logged w [ExistsFile path]).
    rewrite Hlm, Hm. reflexivity.
  - intros Hm. apply matchesHeader_false in Hm. split; [|apply get_set_assoc].
    unfold bind at 1, serveStatic, bind at 1, existsFile, bind at 1, perform, reads.
    simpl. rewrite Hf. unfold bind at 1.
    change (mkWorld (store w) (trace w ++ [ExistsFile path]))
      with (logged w [ExistsFile path]).
    rewrite Hlm, Hm.
    unfold bind, readFile, bind, perform, reads, ret, settle; simpl. rewrite Hf.
    unfold Request.send, Request.setHeader; simpl. rewrite initialRequest_code.
    unfold logged; simpl. rewrite <- app_assoc. reflexivity.
Qed.

Lemma apiError_text (code : Z) (msg : string) :
  Json.stringify (apiError code msg) =
  "{" +:+ Json.quote "status" +:+ ":" +:+ pretty code +:+ ","
      +:+ Json.quote "message" +:+ ":" +:+ Json.quote msg +:+ "}".
Proof.
  unfold apiError. cbn [Json.stringify map Util.join_with fst snd].
  rewrite !append_assoc. reflexivity.
Qed.

(** An API path that is not a public file goes to the API dispatcher. *)
Lemma handle_api_path (r : ServerRequest) (w : World) :
  let path := join ext [workingDir app; "public"; pathnameOf app ext r] in
  pathnameOf app ext r <> "/_hmr" ->
  Util.startsWith (pathnameOf app ext r) "/_aleph/" = false ->
  fs (store w) path = None ->
  Util.startsWith (pathnameOf app ext r) "/api/" = true ->
  handle app ext r w =
  settle app
    (serveApi app ext (initialRequest app) (pathnameOf app ext r) (urlOf app ext r)
       (logged w [ExistsFile path])).
Proof.
  intros path Hh Ha Hf Hapi.
  rewrite (handle_other_path r w Hh Ha). fold path.
  unfold bind at 1, serveStatic, bind at 1, existsFile, bind at 1, perform, reads.
  simpl. rewrite Hf, Hapi. reflexivity.
Qed.

(** C9: a request under ["/api/"] that is not a public file is answered
    404 with the JSON envelope of "not found" when no route matches; 500
    with the envelope of "bad api handler" when the default export of the
    route's module is not a function; and 500 with the envelope carrying
    the error's message when the handler throws.  In each case [handle]
    ends with a sent response and leaves the store as it was, and any next
    request is answered as it would have been before. *)
Theorem C9_api_error_envelopes (r : ServerRequest) (w : World) :
  let p := pathnameOf app ext r in
  let path := join ext [workingDir app; "public"; p] in
  let route := getAPIRoute app (store w) p (searchOf ext (urlOf app ext r)) in
  let envelope := fun (code : Z) (msg : string) =>
    mkResponse code (Request.hdrs (initialRequest app))
      (Some ("{" +:+ Json.quote "status" +:+ ":" +:+ pretty code +:+ ","
                 +:+ Json.quote "message" +:+ ":" +:+ Json.quote msg +:+ "}"))
      (Some jsonType) in
  let answered := fun (resp : Response) =>
    handle app ext r w = (Sent resp, logged w [ExistsFile path])
    /\ forall r2 : ServerRequest,
         fst (handle app ext r2 (snd (handle app ext r w)))
         = fst (handle app ext r2 w) in
  p <> "/_hmr" ->
  Util.startsWith p "/_aleph/" = false ->
  fs (store w) path = None ->
  Util.startsWith p "/api/" = true ->
  (route = None -> answered (envelope 404%Z "not found"))
  /\ (forall params module,
        route = Some (params, module) ->
        importModule app (store w) module = Ok NotAFunction ->
        answered (envelope 500%Z "bad api handler"))
  /\ (forall params module handler err,
        route = Some (params, module) ->
        importModule app (store w) module = Ok (Function handler) ->
        handler (initialRequest app) params = Thrown err ->
        answered (envelope 500%Z (message err))).
Proof.
  intros p path route envelope answered Hh Ha Hf Hapi.
  assert (Hnext : forall resp,
             handle app ext r w = (Sent resp, logged w [ExistsFile path]) ->
             answered resp).
  { intros resp E. split; [exact E|]. intros r2. rewrite E. cbn [snd].
    apply handle_after_log. }
  unfold envelope. rewrite <- !apiError_text.
  pose proof (handle_api_path r w Hh Ha Hf Hapi) as H.
  fold p path in H.
  unfold serveApi, bind at 1, reads at 1 in H. simpl in H.
  fold p route in H.
  split; [|split].
  - intros Hr. apply Hnext. rewrite Hr in H. exact H.
  - intros params module Hr Hi. apply Hnext. rewrite Hr in H.
    unfold try_catch, bind, call in H. simpl in H. rewrite Hi in H. exact H.
  - intros params module handler err Hr Hi Ht. apply Hnext. rewrite Hr in H.
    unfold try_catch, bind, call in H. simpl in H. rewrite Hi, Ht in H. exact H.
Qed.

(** ** The HMR channel *)

Lemma modify_name_eqb (a b : string) :
  String.eqb ("modify-" +:+ a) ("modify-" +:+ b) = String.eqb a b.
Proof. reflexivity. Qed.

Lemma listenersOf_modify (spec : string) (subs : list string) :
  Watcher.listenersOf ("modify-" +:+ spec) (modifyListeners subs) =
  repeat (OnModify spec) (length (List.filter (fun s => String.eqb s spec) subs)).
Proof.
  unfold Watcher.listenersOf, modifyListeners.
  induction subs as [|s subs IH]; [reflexivity|].
  cbn [map List.filter fst]. rewrite modify_name_eqb.
  destruct (String.eqb s spec) eqn:E.
  - cbn [map snd length repeat]. apply eqb_string_true in E. subst s.
    f_equal. exact IH.
  - exact IH.
Qed.

Lemma removeAll_modify (spec : string) (subs : list string) :
  Watcher.removeAllListeners ("modify-" +:+ spec) (modifyListeners subs) =
  modifyListeners (List.filter (fun s => negb (String.eqb s spec)) subs).
Proof.
  unfold Watcher.removeAllListeners, modifyListeners.
  induction subs as [|s subs IH]; [reflexivity|].
  cbn [map List.filter fst]. rewrite modify_name_eqb.
  destruct (String.eqb s spec); cbn [negb map]; rewrite IH; reflexivity.
Qed.

Lemma listenersOf_add (subs : list string) :
  Watcher.listenersOf "add" (modifyListeners subs) = [].
Proof. induction subs as [|s subs IH]; [reflexivity | exact IH]. Qed.

Lemma listenersOf_remove (subs : list string) :
  Watcher.listenersOf "remove" (modifyListeners subs) = [].
Proof. induction subs as [|s subs IH]; [reflexivity | exact IH]. Qed.

Lemma modifyListeners_app (a b : list string) :
  modifyListeners (a ++ b) = modifyListeners a ++ modifyListeners b.
Proof. unfold modifyListeners. apply map_app. Qed.

(** The subscriptions of a well-formed channel, counted on its list of
    subscribed specifiers. *)
Lemma subscriptions_count (spec : string) (ch : Channel) (subs : list string) :
  watcher ch = ("add", OnAdd) :: ("remove", OnRemove) :: modifyListeners subs ->
  subscriptions spec ch = length (List.filter (fun s => String.eqb s spec) subs).
Proof.
  intros H. unfold subscriptions. rewrite H.
  change (Watcher.listenersOf ("modify-" +:+ spec)
            (("add", OnAdd) :: ("remove", OnRemove) :: modifyListeners subs))
    with (Watcher.listenersOf ("modify-" +:+ spec) (modifyListeners subs)).
  rewrite listenersOf_modify. apply repeat_length.
Qed.

Lemma notify_modify_repeat (spec : string) (d : list (string * JSON)) (n : nat) :
  forall ch : Channel,
    fold_left (fun c l => notify app ext l (EvModify spec d) c)
              (repeat (OnModify spec) n) ch =
    mkChannel (watcher ch)
              (outbox ch ++ repeat (Json.stringify (updateMessage app ext spec d)) n)
              (closed ch).
Proof.
  induction n as [|n IH]; intros ch; cbn [repeat fold_left].
  - rewrite app_nil_r. destruct ch; reflexivity.
  - rewrite IH. cbn [notify]. unfold socketSend. simpl.
    rewrite <- app_assoc. reflexivity.
Qed.

Lemma emit_modify (ch : Channel) (subs : list string) (spec : string)
  (d : list (string * JSON)) :
  watcher ch = ("add", OnAdd) :: ("remove", OnRemove) :: modifyListeners subs ->
  closed ch = false ->
  emit app ext (EvModify spec d) ch =
  mkChannel (watcher ch)
            (outbox ch ++ repeat (Json.stringify (updateMessage app ext spec d))
                                 (subscriptions spec ch))
            false.
Proof.
  intros H Hc. unfold emit. rewrite Hc. cbn [eventName].
  rewrite (subscriptions_count spec ch subs H). rewrite H.
  change (Watcher.listenersOf ("modify-" +:+ spec)
            (("add", OnAdd) :: ("remove", OnRemove) :: modifyListeners subs))
    with (Watcher.listenersOf ("modify-" +:+ spec) (modifyListeners subs)).
  rewrite listenersOf_modify, notify_modify_repeat. rewrite H, Hc. reflexivity.
Qed.

Lemma emit_remove (ch : Channel) (subs : list string) (spec : string) :
  watcher ch = ("add", OnAdd) :: ("remove", OnRemove) :: modifyListeners subs ->
  closed ch = false ->
  emit app ext (EvRemove spec) ch =
  mkChannel
    (("add", OnAdd) :: ("remove", OnRemove)
       :: modifyListeners (List.filter (fun s => negb (String.eqb s spec)) subs))
    (outbox ch ++ [Json.stringify (removeMessage spec)])
    false.
Proof.
  intros H Hc. unfold emit. rewrite Hc. cbn [eventName]. rewrite H.
  change (Watcher.listenersOf "remove"
            (("add", OnAdd) :: ("remove", OnRemove) :: modifyListeners subs))
    with (OnRemove :: Watcher.listenersOf "remove" (modifyListeners subs)).
  rewrite listenersOf_remove. cbn [fold_left notify]. unfold socketSend.
  rewrite <- removeAll_modify. rewrite H, Hc. reflexivity.
Qed.

Lemma emit_add (ch : Channel) (subs : list string) (info : list (string * JSON)) :
  watcher ch = ("add", OnAdd) :: ("remove", OnRemove) :: modifyListeners subs ->
  closed ch = false ->
  emit app ext (EvAdd info) ch =
  mkChannel (watcher ch) (outbox ch ++ [Json.stringify (addMessage info)]) false.
Proof.
  intros H Hc. unfold emit. rewrite Hc. cbn [eventName]. rewrite H.
  change (Watcher.listenersOf "add"
            (("add", OnAdd) :: ("remove", OnRemove) :: modifyListeners subs))
    with (OnAdd :: Watcher.listenersOf "add" (modifyListeners subs)).
  rewrite listenersOf_add. cbn [fold_left notify]. unfold socketSend.
  rewrite H, Hc. reflexivity.
Qed.

Lemma getModule_specifier (ms : list ModuleRecord) (spec : string) m :
  getModule ms spec = Some m -> specifier m = spec.
Proof.
  unfold getModule. intros H.
  destruct (findModule_from 0 (fun m => String.eqb (specifier m) spec) ms)
    as [[l m']|] eqn:E; [|discriminate].
  inversion H; subst m'.
  apply findModule_from_spec in E as (k & _ & _ & Hp & _).
  apply eqb_string_true. exact Hp.
Qed.

(** A text frame on an open channel adds a modify listener exactly when it
    is a hot-accept for a registered module. *)
Lemma onSocketEvent_text (ms : list ModuleRecord) (e : string) (ch : Channel) :
  closed ch = false ->
  onSocketEvent ext ms (SockText e) ch =
  match subscribed ext ms e with
  | Some spec =>
      mkChannel (Watcher.on ("modify-" +:+ spec) (OnModify spec) (watcher ch))
                (outbox ch) false
  | None => ch
  end.
Proof.
  intros Hc. unfold onSocketEvent, subscribed. rewrite Hc.
  destruct (Util.isNEString e); [|reflexivity].
  destruct (JSON_parse ext e) as [data|]; [|reflexivity].
  destruct (hotAcceptOf data) as [spec|]; [|reflexivity].
  destruct (getModule ms spec) as [m|]; [|reflexivity].
  reflexivity.
Qed.

Lemma wellFormed_open : wellFormed hmrOpen.
Proof. exists []. reflexivity. Qed.

Lemma wellFormed_step (ch : Channel) (ev : HmrEvent) :
  wellFormed ch -> wellFormed (hmrStep app ext ch ev).
Proof.
  intros [subs H]. destruct (closed ch) eqn:Hc.
  - assert (E : hmrStep app ext ch ev = ch).
    { destruct ev as [ms e|ev]; cbn [hmrStep]; unfold onSocketEvent, emit;
        rewrite Hc; reflexivity. }
    rewrite E. exists subs. exact H.
  - destruct ev as [ms e|ev]; cbn [hmrStep].
    + destruct e as [e| | | |];
        try (exists subs; unfold onSocketEvent; rewrite Hc; exact H).
      rewrite (onSocketEvent_text ms e ch Hc).
      destruct (subscribed ext ms e) as [spec|]; [|exists subs; exact H].
      exists (subs ++ [spec]). cbn [watcher]. rewrite H.
      unfold Watcher.on. rewrite modifyListeners_app. reflexivity.
    + destruct ev as [info|spec|spec d].
      * rewrite (emit_add ch subs info H Hc). exists subs. exact H.
      * rewrite (emit_remove ch subs spec H Hc). eexists. reflexivity.
      * rewrite (emit_modify ch subs spec d H Hc). exists subs. exact H.
Qed.

Lemma wellFormed_run (evs : list HmrEvent) :
  forall ch, wellFormed ch -> wellFormed (hmrRun app ext evs ch).
Proof.
  induction evs as [|ev evs IH]; intros ch H; [exact H|].
  apply IH. apply wellFormed_step. exact H.
Qed.

Lemma hotAccepts_subscribed (ms : list ModuleRecord) (e spec : string) :
  hotAccepts ext ms e spec -> subscribed ext ms e = Some spec.
Proof.
  intros (Hne & fields & m & Hparse & Hty & Hspec & Hnon & Hmod).
  unfold subscribed. rewrite Hne, Hparse. unfold hotAcceptOf.
  rewrite Hty, Hspec. rewrite String.eqb_refl.
  apply eqb_string_false in Hnon. unfold Util.isNEString. rewrite Hnon.
  cbn [negb andb]. rewrite Hmod. cbn [fmap option_fmap option_map].
  rewrite (getModule_specifier _ _ _ Hmod). reflexivity.
Qed.

Lemma hmrRun_app (a b : list HmrEvent) (ch : Channel) :
  hmrRun app ext (a ++ b) ch = hmrRun app ext b (hmrRun app ext a ch).
Proof. unfold hmrRun. apply fold_left_app. Qed.

Lemma hmrRun_cons (ev : HmrEvent) (evs : list HmrEvent) (ch : Channel) :
  hmrRun app ext (ev :: evs) ch = hmrRun app ext evs (hmrStep app ext ch ev).
Proof. reflexivity. Qed.

(** Modify events on an open channel: every firing sends one update per
    registered listener, and registers or removes nothing. *)
Lemma run_modifies (spec : string) (subs : list string)
  (payloads : list (list (string * JSON))) :
  forall ch : Channel,
    watcher ch = ("add", OnAdd) :: ("remove", OnRemove) :: modifyListeners subs ->
    closed ch = false ->
    hmrRun app ext (map (fun d => Emit (EvModify spec d)) payloads) ch =
    mkChannel (watcher ch)
      (outbox ch ++
         flat_map (fun d => repeat (Json.stringify (updateMessage app ext spec d))
                                   (subscriptions spec ch)) payloads)
      false.
Proof.
  induction payloads as [|d payloads IH]; intros ch H Hc.
  - cbn [map hmrRun fold_left flat_map]. rewrite app_nil_r, <- Hc.
    destruct ch; reflexivity.
  - cbn [map flat_map]. rewrite hmrRun_cons. cbn [hmrStep].
    rewrite (emit_modify ch subs spec d H Hc).
    rewrite IH by (simpl; auto).
    unfold subscriptions; simpl. rewrite <- app_assoc. reflexivity.
Qed.

Lemma subscriptions_after_accept (ms : list ModuleRecord) (e spec other : string)
  (ch : Channel) :
  closed ch = false ->
  subscribed ext ms e = Some spec ->
  subscriptions other (onSocketEvent ext ms (SockText e) ch) =
  subscriptions other ch + (if String.eqb spec other then 1 else 0).
Proof.
  intros Hc Hs. rewrite (onSocketEvent_text ms e ch Hc), Hs.
  unfold subscriptions, Watcher.on, Watcher.listenersOf; simpl.
  rewrite List.filter_app, map_app, length_app. cbn [List.filter fst].
  rewrite modify_name_eqb. destruct (String.eqb spec other); reflexivity.
Qed.

Lemma json_get_set_same (k : string) (v : JSON) (fields : list (string * JSON)) :
  Json.get k (Json.set k v fields) = Some v.
Proof.
  induction fields as [|[k0 v0] fields IH]; simpl.
  - rewrite String.eqb_refl. reflexivity.
  - destruct (String.eqb k0 k) eqn:E; simpl; rewrite E; auto.
Qed.

Lemma json_get_set_other (k k' : string) (v : JSON) (fields : list (string * JSON)) :
  k <> k' -> Json.get k (Json.set k' v fields) = Json.get k fields.
Proof.
  intros Hne. induction fields as [|[k0 v0] fields IH]; simpl.
  - destruct (String.eqb k' k) eqn:E; [|reflexivity].
    apply eqb_string_true in E. congruence.
  - destruct (String.eqb k0 k') eqn:E; simpl.
    + apply eqb_string_true in E. subst k0.
      destruct (String.eqb k' k) eqn:E'; [|reflexivity].
      apply eqb_string_true in E'. congruence.
    + destruct (String.eqb k0 k); auto.
Qed.

Lemma accepted_channel (ms : list ModuleRecord) (e spec : string) (ch : Channel)
  (subs : list string) :
  watcher ch = ("add", OnAdd) :: ("remove", OnRemove) :: modifyListeners subs ->
  closed ch = false ->
  subscribed ext ms e = Some spec ->
  onSocketEvent ext ms (SockText e) ch =
  mkChannel (("add", OnAdd) :: ("remove", OnRemove) :: modifyListeners (subs ++ [spec]))
            (outbox ch) false.
Proof.
  intros H Hc Hs. rewrite (onSocketEvent_text ms e ch Hc), Hs, H.
  unfold Watcher.on. rewrite modifyListeners_app. reflexivity.
Qed.

Lemma flat_map_singleton {A B : Type} (f : A -> B) (l : list A) :
  flat_map (fun a => repeat (f a) 1) l = map f l.
Proof. induction l as [|a l IH]; simpl; [reflexivity | f_equal; exact IH]. Qed.

Lemma flat_map_nothing {A B : Type} (f : A -> B) (l : list A) :
  flat_map (fun a => repeat (f a) 0) l = [].
Proof. induction l as [|a l IH]; simpl; auto. Qed.

(** C6: on an open channel where [spec] has no modify listener yet, after
    a hot-accept frame for [spec], whose module is registered, every
    firing of the modify event of [spec] sends exactly one message on the
    channel: the payload of the event with [type] "update", [specifier]
    [spec] and [updateUrl] the cleaned path made of the base path,
    "/_aleph/", the specifier without its module extension, and ".js". *)
Theorem C6_update_once_per_modify (history : list HmrEvent)
  (ms : list ModuleRecord) (e spec : string)
  (payloads : list (list (string * JSON))) :
  let ch := hmrRun app ext history hmrOpen in
  let ch1 := onSocketEvent ext ms (SockText e) ch in
  let updateUrl :=
    cleanPath ext
      (basePath (config app) +:+ "/_aleph/" +:+ trimBuiltinModuleExts ext spec +:+ ".js") in
  closed ch = false ->
  subscriptions spec ch = 0 ->
  hotAccepts ext ms e spec ->
  outbox (hmrRun app ext (map (fun d => Emit (EvModify spec d)) payloads) ch1) =
  outbox ch ++ map (fun d => Json.stringify (updateMessage app ext spec d)) payloads
  /\ (forall d, exists fields,
        updateMessage app ext spec d = JObj fields
        /\ Json.get "type" fields = Some (JStr "update")
        /\ Json.get "specifier" fields = Some (JStr spec)
        /\ Json.get "updateUrl" fields = Some (JStr updateUrl))
  /\ updateMessage app ext spec [] =
     JObj [("type", JStr "update");
           ("specifier", JStr spec);
           ("updateUrl", JStr updateUrl)].
Proof.
  intros ch ch1 url Hc H0 Ha.
  pose proof (hotAccepts_subscribed _ _ _ Ha) as Hs.
  destruct (wellFormed_run history hmrOpen wellFormed_open) as [subs Hw].
  fold ch in Hw.
  split; [|split].
  - assert (H1 : subscriptions spec ch1 = 1).
    { unfold ch1. rewrite (subscriptions_after_accept ms e spec spec ch Hc Hs).
      rewrite H0, String.eqb_refl. reflexivity. }
    unfold ch1 in *. rewrite (accepted_channel ms e spec ch subs Hw Hc Hs) in *.
    rewrite (run_modifies spec (subs ++ [spec]) payloads) by reflexivity.
    rewrite H1. cbn [outbox]. rewrite flat_map_singleton. reflexivity.
  - intros d. eexists. split; [reflexivity|].
    unfold Json.spread; cbn [fold_left fst snd].
    split; [|split].
    + rewrite !json_get_set_other by discriminate. apply json_get_set_same.
    + rewrite json_get_set_other by discriminate. apply json_get_set_same.
    + apply json_get_set_same.
  - reflexivity.
Qed.

(** C2 (amended): hot-accept frames do not replace one another.  On an
    open channel every hot-accept for [spec], whose module is registered,
    adds one more modify listener; after [k] of them a single modify event
    of [spec] sends one update message per listener, that is [k] more than
    before. *)
Theorem C2_each_hot_accept_adds_a_listener (history : list HmrEvent)
  (ms : list ModuleRecord) (e spec : string) (k : nat)
  (d : list (string * JSON)) :
  let ch := hmrRun app ext history hmrOpen in
  let ch' := hmrRun app ext (repeat (Recv ms (SockText e)) k) ch in
  closed ch = false ->
  hotAccepts ext ms e spec ->
  subscriptions spec ch' = subscriptions spec ch + k
  /\ outbox (emit app ext (EvModify spec d) ch') =
     outbox ch ++ repeat (Json.stringify (updateMessage app ext spec d))
                         (subscriptions spec ch + k).
Proof.
  intros ch ch' Hc Ha.
  pose proof (hotAccepts_subscribed _ _ _ Ha) as Hs.
  destruct (wellFormed_run history hmrOpen wellFormed_open) as [subs Hw].
  fold ch in Hw.
  assert (Hk : forall k c subs,
             watcher c = ("add", OnAdd) :: ("remove", OnRemove) :: modifyListeners subs ->
             closed c = false ->
             exists subs',
               hmrRun app ext (repeat (Recv ms (SockText e)) k) c =
               mkChannel (("add", OnAdd) :: ("remove", OnRemove) :: modifyListeners subs')
                         (outbox c) false
               /\ subscriptions spec
                    (hmrRun app ext (repeat (Recv ms (SockText e)) k) c)
                  = subscriptions spec c + k).
  { clear - Hs. intros k. induction k as [|k IH]; intros c subs Hw Hc.
    - exists subs. cbn [repeat hmrRun fold_left]. split; [|lia].
      rewrite <- Hw, <- Hc. destruct c; reflexivity.
    - cbn [repeat]. rewrite hmrRun_cons. cbn [hmrStep].
      pose proof (subscriptions_after_accept ms e spec spec c Hc Hs) as Hn.
      rewrite String.eqb_refl in Hn.
      rewrite (accepted_channel ms e spec c subs Hw Hc Hs) in *.
      destruct (IH (mkChannel
                      (("add", OnAdd) :: ("remove", OnRemove)
                         :: modifyListeners (subs ++ [spec]))
                      (outbox c) false)
                   (subs ++ [spec]) eq_refl eq_refl) as (subs' & E & N).
      exists subs'. split; [exact E|]. rewrite N, Hn. lia. }
  destruct (Hk k ch subs Hw Hc) as (subs' & E & N).
  fold ch' in E, N. split; [exact N|].
  rewrite (emit_modify ch' subs' spec d) by (rewrite E; reflexivity).
  cbn [outbox]. rewrite N, E. reflexivity.
Qed.

Lemma filter_none_filter {A : Type} (p q : A -> bool) (l : list A) :
  List.filter p l = [] -> List.filter p (List.filter q l) = [].
Proof.
  induction l as [|a l IH]; simpl; [reflexivity|].
  destruct (p a) eqn:Ep; [discriminate|]. intros H.
  destruct (q a); simpl; [rewrite Ep|]; auto.
Qed.

Lemma filter_removed (spec : string) (subs : list string) :
  List.filter (fun s => String.eqb s spec)
              (List.filter (fun s => negb (String.eqb s spec)) subs) = [].
Proof.
  induction subs as [|s subs IH]; [reflexivity|]. cbn [List.filter].
  destruct (String.eqb s spec) eqn:E; cbn [negb List.filter]; [exact IH|].
  rewrite E. exact IH.
Qed.

Lemma step_keeps_unsubscribed (ch : Channel) (ev : HmrEvent) (spec : string) :
  wellFormed ch ->
  subscriptions spec ch = 0 ->
  (forall ms e, ev = Recv ms (SockText e) -> subscribed ext ms e <> Some spec) ->
  subscriptions spec (hmrStep app ext ch ev) = 0.
Proof.
  intros [subs H] H0 Hev. destruct (closed ch) eqn:Hc.
  - assert (E : hmrStep app ext ch ev = ch).
    { destruct ev as [ms e|ev]; cbn [hmrStep]; unfold onSocketEvent, emit;
        rewrite Hc; reflexivity. }
    rewrite E. exact H0.
  - destruct ev as [ms e|ev]; cbn [hmrStep].
    + destruct e as [e| | | |];
        try (unfold onSocketEvent; rewrite Hc; exact H0).
      destruct (subscribed ext ms e) as [s|] eqn:Hs.
      * rewrite (subscriptions_after_accept ms e s spec ch Hc Hs), H0.
        destruct (String.eqb s spec) eqn:E; [|reflexivity].
        apply eqb_string_true in E. subst s.
        exfalso. apply (Hev ms e eq_refl). exact Hs.
      * rewrite (onSocketEvent_text ms e ch Hc), Hs. exact H0.
    + destruct ev as [info|s|s d].
      * rewrite (emit_add ch subs info H Hc). exact H0.
      * rewrite (emit_remove ch subs s H Hc).
        rewrite (subscriptions_count spec ch subs H) in H0.
        erewrite subscriptions_count by reflexivity.
        apply length_zero_iff_nil in H0.
        rewrite (filter_none_filter _ _ _ H0). reflexivity.
      * rewrite (emit_modify ch subs s d H Hc). exact H0.
Qed.

Lemma run_keeps_unsubscribed (spec : string) (evs : list HmrEvent) :
  forall ch : Channel,
    wellFormed ch ->
    subscriptions spec ch = 0 ->
    (forall ms e, In (Recv ms (SockText e)) evs -> subscribed ext ms e <> Some spec) ->
    wellFormed (hmrRun app ext evs ch)
    /\ subscriptions spec (hmrRun app ext evs ch) = 0.
Proof.
  induction evs as [|ev evs IH]; intros ch Hw H0 Hev; [split; assumption|].
  rewrite hmrRun_cons. apply IH.
  - apply wellFormed_step. exact Hw.
  - apply step_keeps_unsubscribed; [exact Hw | exact H0 |].
    intros ms e ->. apply Hev. left. reflexivity.
  - intros ms e Hin. apply Hev. right. exact Hin.
Qed.

Lemma emit_modify_unsubscribed (ch : Channel) (spec : string)
  (d : list (string * JSON)) :
  wellFormed ch ->
  subscriptions spec ch = 0 ->
  outbox (emit app ext (EvModify spec d) ch) = outbox ch.
Proof.
  intros [subs H] H0. destruct (closed ch) eqn:Hc.
  - unfold emit. rewrite Hc. reflexivity.
  - rewrite (emit_modify ch subs spec d H Hc), H0. cbn [outbox repeat].
    apply app_nil_r.
Qed.

(** C7: when the watcher of an open channel emits the remove event of
    [spec], the channel is sent the message with [type] "remove" and that
    specifier, and in the same handling every modify listener of [spec] is
    removed from the watcher.  From then on, as long as no new hot-accept
    for [spec] arrives, no modify event of [spec] sends anything on the
    channel, whatever else happens in between. *)
Theorem C7_remove_tears_down (history later : list HmrEvent) (spec : string) :
  let ch := hmrRun app ext history hmrOpen in
  let ch1 := emit app ext (EvRemove spec) ch in
  closed ch = false ->
  (forall ms e, In (Recv ms (SockText e)) later -> subscribed ext ms e <> Some spec) ->
  outbox ch1 =
    outbox ch ++ [Json.stringify (JObj [("type", JStr "remove");
                                        ("specifier", JStr spec)])]
  /\ subscriptions spec ch1 = 0
  /\ forall before d after,
       later = before ++ Emit (EvModify spec d) :: after ->
       outbox (hmrRun app ext (before ++ [Emit (EvModify spec d)]) ch1) =
       outbox (hmrRun app ext before ch1).
Proof.
  intros ch ch1 Hc Hlater.
  destruct (wellFormed_run history hmrOpen wellFormed_open) as [subs Hw].
  fold ch in Hw.
  assert (E1 : ch1 =
               mkChannel
                 (("add", OnAdd) :: ("remove", OnRemove)
                    :: modifyListeners
                         (List.filter (fun s => negb (String.eqb s spec)) subs))
                 (outbox ch ++ [Json.stringify (removeMessage spec)]) false)
    by (apply emit_remove; assumption).
  assert (Hw1 : wellFormed ch1) by (rewrite E1; eexists; reflexivity).
  assert (H1 : subscriptions spec ch1 = 0).
  { rewrite E1. erewrite subscriptions_count by reflexivity.
    rewrite filter_removed. reflexivity. }
  split; [rewrite E1; reflexivity|]. split; [exact H1|].
  intros before d after Hsplit.
  rewrite hmrRun_app. cbn [hmrRun fold_left hmrStep].
  destruct (run_keeps_unsubscribed spec before ch1 Hw1 H1) as [Hw2 H2].
  { intros ms e Hin. apply Hlater. rewrite Hsplit. apply in_or_app. left. exact Hin. }
  apply emit_modify_unsubscribed; assumption.
Qed.

End Properties.

(* ------------------------------------------------------------------ *)
(** * The properties on the concrete application *)

(** A source file without a module record is compiled on demand, at the
    second candidate, and the new record is served. *)
Lemma compiled_on_demand :
  let res := handle Demo.app Demo.ext (Demo.get "/_aleph/pages/about.js" []) Demo.world in
  (exists etag,
     fst res =
     Sent (mkResponse 200 [("Cache-Control", "max-age=0"); ("ETag", etag)]
             (Some (hotWrap "/pages/about.jsx"
                      ("export default 3" +:+ LF +:+ "/* refresh */")))
             (Some jsType)))
  /\ trace (snd res) =
     [ExistsFile "/app/pages/about.tsx"; ExistsFile "/app/pages/about.jsx";
      Compile "/pages/about.jsx"; GetModuleJS "/pages/about.jsx"]
  /\ specifier <$> (modules (store (snd res)) !! 4) = Some "/pages/about.jsx".
Proof.
  split; [eexists; vm_compute; reflexivity|].
  split; vm_compute; reflexivity.
Qed.

Lemma C10_witness :
  handle Demo.app Demo.ext (Demo.get "/_aleph/pages/gone.js" []) Demo.world =
  (Sent (mkResponse 404 [("Cache-Control", "max-age=0")] (Some "not found") None),
   mkWorld Demo.store
     [GetModuleJS "/pages/gone.tsx";
      ExistsFile "/app/.aleph/development/pages/gone.js"]).
Proof.
  exact (C10_unavailable_content_is_plain_404 Demo.app Demo.ext
           (Demo.get "/_aleph/pages/gone.js" []) Demo.world 2 Demo.goneModule
           eq_refl eq_refl eq_refl eq_refl).
Defined.

(** The response of the development server to [/_aleph/pages/index.js]
    carries the transform's output inside the hot-context template. *)
Lemma C1_witness :
  handle Demo.app Demo.ext (Demo.get "/_aleph/pages/index.js" []) Demo.world =
  (Sent (mkResponse 200
           [("Cache-Control", "max-age=0");
            ("ETag", etagOf Demo.ext Demo.indexModule)]
           (Some (hotWrap "/pages/index.tsx"
                    ("export default 1" +:+ LF +:+ "/* refresh */")))
           (Some jsType)),
   mkWorld Demo.store [GetModuleJS "/pages/index.tsx"]).
Proof.
  refine (proj1 (C1_hot_variant_without_hooks Demo.app Demo.ext
                   (Demo.get "/_aleph/pages/index.js" []) Demo.world Demo.world
                   0 Demo.indexModule "export default 1"
                   eq_refl eq_refl eq_refl eq_refl _) eq_refl eq_refl eq_refl).
  discriminate.
Defined.

(** The claim fails on the development server: the module has no
    server-only hooks, and the body is not the compiled text. *)
Lemma C1_counterexample :
  isDev Demo.app = true
  /\ isHMRable Demo.app (specifier Demo.indexModule) = true
  /\ hasServerHooks Demo.indexModule = false
  /\ getModuleJS Demo.app Demo.store Demo.indexModule = Some "export default 1"
  /\ exists resp,
       fst (handle Demo.app Demo.ext (Demo.get "/_aleph/pages/index.js" []) Demo.world)
       = Sent resp
       /\ body resp =
          Some (hotWrap "/pages/index.tsx"
                  ("export default 1" +:+ LF +:+ "/* refresh */"))
       /\ body resp <> Some "export default 1".
Proof.
  repeat split; try reflexivity.
  eexists. split; [vm_compute; reflexivity|]. split; [reflexivity | discriminate].
Qed.

Lemma C3_witness :
  handle Demo.app Demo.ext (Demo.get "/_aleph/pages/broken.js" []) Demo.world =
  (Sent (mkResponse 500 [("Cache-Control", "max-age=0")]
           (Some (errorPage (mkError "unexpected end of file" "at compile")))
           (Some htmlType)),
   mkWorld Demo.store
     [ExistsFile "/app/pages/broken.tsx";
      ExistsFile "/app/pages/broken.jsx";
      ExistsFile "/app/pages/broken.ts";
      Compile "/pages/broken.ts"]).
Proof.
  refine (proj1 (proj1 (proj2 (C3_probe_then_compile Demo.app Demo.ext
                   (Demo.get "/_aleph/pages/broken.js" []) Demo.world
                   eq_refl eq_refl eq_refl))
                   [".tsx"; ".jsx"] ".ts" [".js"; ".mjs"; ""]
                   (mkFile None "export default (") eq_refl _ eq_refl)
                _ _ eq_refl).
  intros e' [<-|[<-|[]]]; reflexivity.
Defined.

(** The claim fails twice: a candidate whose compilation throws is
    answered 500, and a path without any candidate is answered from the
    build directory when the file is there. *)
Lemma C3_counterexample :
  isDev Demo.app = true
  /\ findModule (fun m => String.eqb (jsFile m) "/pages/broken.js") Demo.store = None
  /\ Demo.files "/app/pages/broken.tsx" = None
  /\ Demo.files "/app/pages/broken.jsx" = None
  /\ Demo.files "/app/pages/broken.ts" = Some (mkFile None "export default (")
  /\ fst (compile Demo.app "/pages/broken.ts" Demo.store)
     = Throw (mkError "unexpected end of file" "at compile")
  /\ fst (handle Demo.app Demo.ext (Demo.get "/_aleph/pages/broken.js" []) Demo.world)
     = Sent (mkResponse 500 [("Cache-Control", "max-age=0")]
               (Some (errorPage (mkError "unexpected end of file" "at compile")))
               (Some htmlType))
  /\ findModule (fun m => String.eqb (jsFile m) "/deps/react.js") Demo.store = None
  /\ (forall e, In e (candidateExts Demo.ext) ->
      Demo.files (candidatePath Demo.app Demo.ext "/deps/react.js" e) = None)
  /\ fst (handle Demo.app Demo.ext (Demo.get "/_aleph/deps/react.js" []) Demo.world)
     = Sent (mkResponse 200
               [("Cache-Control", "max-age=0");
                ("Last-Modified", "Mon, 02 Nov 2026 10:00:00 GMT")]
               (Some "export {}") (Some jsType)).
Proof.
  repeat split; try reflexivity.
  intros e He. vm_compute in He.
  repeat (destruct He as [<-|He]; [reflexivity|]). destruct He.
Qed.



Lemma C5_witness :
  let r := Demo.get "/_aleph/pages/blog.js" [] in
  let resp :=
    mkResponse 200
      [("Cache-Control", "max-age=0"); ("ETag", etagOf Demo.ext Demo.blogModule)]
      (Some (hotWrap "/pages/blog.tsx"
               ("/* client */ export const ssr = 0; export default 2"
                  +:+ LF +:+ "/* refresh */")))
      (Some jsType) in
  exists w1,
    handle Demo.app Demo.ext r Demo.world = (Sent resp, w1)
    /\ trace w1 = [GetModuleJS "/pages/blog.tsx"; StripSsrCode "/pages/blog.tsx"]
    /\ handle Demo.app Demo.ext r w1 =
       (Sent resp, logged w1 [GetModuleJS "/pages/blog.tsx"]).
Proof.
  intros r resp.
  destruct (C5_hot_variant_with_hooks Demo.app Demo.ext r Demo.world Demo.world
              1 Demo.blogModule "export const ssr = 0; export default 2"
              eq_refl eq_refl eq_refl eq_refl eq_refl eq_refl eq_refl)
    as (w1 & H1 & _ & Ht & H2); [discriminate|].
  exists w1. split; [exact H1|]. split; [exact Ht|].
  assert (E : w1 = snd (handle Demo.app Demo.ext r Demo.world))
    by (rewrite H1; reflexivity).
  apply (H2 r "export const ssr = 0; export default 2"); [reflexivity| |discriminate].
  rewrite E. reflexivity.
Defined.

Lemma demo_hotAccepts :
  hotAccepts Demo.ext (modules Demo.store)
    (Demo.hotAcceptFrame "/pages/index.tsx") "/pages/index.tsx".
Proof.
  split; [reflexivity|].
  eexists _, _. repeat split; try reflexivity. discriminate.
Defined.

(** Two hot-accepts, then one modify event: two listeners, two updates. *)
Lemma C2_witness :
  let accept := Recv (modules Demo.store)
                     (SockText (Demo.hotAcceptFrame "/pages/index.tsx")) in
  let ch' := hmrRun Demo.app Demo.ext [accept; accept] hmrOpen in
  subscriptions "/pages/index.tsx" ch' = 2
  /\ outbox (emit Demo.app Demo.ext (EvModify "/pages/index.tsx" []) ch') =
     repeat (Json.stringify (updateMessage Demo.app Demo.ext "/pages/index.tsx" [])) 2.
Proof.
  exact (C2_each_hot_accept_adds_a_listener Demo.app Demo.ext []
           (modules Demo.store) (Demo.hotAcceptFrame "/pages/index.tsx")
           "/pages/index.tsx" 2 [] eq_refl demo_hotAccepts).
Defined.

(** The claim fails: after a second hot-accept for the same specifier on
    the same channel, one modify event sends two update messages. *)
Lemma C2_counterexample :
  let accept := Recv (modules Demo.store)
                     (SockText (Demo.hotAcceptFrame "/pages/index.tsx")) in
  let update :=
    Json.stringify
      (JObj [("type", JStr "update");
             ("specifier", JStr "/pages/index.tsx");
             ("updateUrl", JStr "/_aleph/pages/index.js")]) in
  outbox (hmrRun Demo.app Demo.ext
            [accept; accept; Emit (EvModify "/pages/index.tsx" [])] hmrOpen)
  = [update; update]
  /\ subscriptions "/pages/index.tsx"
       (hmrRun Demo.app Demo.ext [accept; accept] hmrOpen) = 2.
Proof. split; vm_compute; reflexivity. Qed.

(** One hot-accept, then two modify events: one update each, with the
    update URL of the example. *)
Lemma C6_witness :
  let accept := Recv (modules Demo.store)
                     (SockText (Demo.hotAcceptFrame "/pages/index.tsx")) in
  let update :=
    Json.stringify
      (JObj [("type", JStr "update");
             ("specifier", JStr "/pages/index.tsx");
             ("updateUrl", JStr "/_aleph/pages/index.js")]) in
  outbox (hmrRun Demo.app Demo.ext
            [accept; Emit (EvModify "/pages/index.tsx" []);
             Emit (EvModify "/pages/index.tsx" [])] hmrOpen)
  = [update; update].
Proof.
  exact (proj1 (C6_update_once_per_modify Demo.app Demo.ext []
                  (modules Demo.store) (Demo.hotAcceptFrame "/pages/index.tsx")
                  "/pages/index.tsx" [[]; []] eq_refl eq_refl demo_hotAccepts)).
Defined.

(** After the remove event the second modify event sends nothing. *)
Lemma C7_witness :
  let accept := Recv (modules Demo.store)
                     (SockText (Demo.hotAcceptFrame "/pages/index.tsx")) in
  let modify := Emit (EvModify "/pages/index.tsx" []) in
  let ch1 := hmrRun Demo.app Demo.ext
               [accept; Emit (EvRemove "/pages/index.tsx")] hmrOpen in
  outbox ch1 =
    [Json.stringify (JObj [("type", JStr "remove");
                           ("specifier", JStr "/pages/index.tsx")])]
  /\ subscriptions "/pages/index.tsx" ch1 = 0
  /\ outbox (hmrRun Demo.app Demo.ext [modify; Emit (EvAdd []); modify] ch1) =
     outbox (hmrRun Demo.app Demo.ext [modify; Emit (EvAdd [])] ch1).
Proof.
  intros accept modify ch1.
  assert (Hlater : forall ms e,
             In (Recv ms (SockText e)) [modify; Emit (EvAdd []); modify] ->
             subscribed Demo.ext ms e <> Some "/pages/index.tsx").
  { intros ms e [H|[H|[H|[]]]]; discriminate H. }
  destruct (C7_remove_tears_down Demo.app Demo.ext [accept]
              [modify; Emit (EvAdd []); modify] "/pages/index.tsx" eq_refl Hlater)
    as (H1 & H2 & H3).
  split; [exact H1|]. split; [exact H2|].
  exact (H3 [modify; Emit (EvAdd [])] [] [] eq_refl).
Defined.

Lemma C8_witness :
  handle Demo.app Demo.ext
    (Demo.get "/logo.png" [("If-Modified-Since", "Tue, 03 Nov 2026 08:00:00 GMT")])
    Demo.world =
  (Sent (mkResponse 304 [("Cache-Control", "max-age=0")] None None),
   mkWorld Demo.store [ExistsFile "/app/public/logo.png"])
  /\ handle Demo.app Demo.ext
       (Demo.get "/logo.png" [("If-Modified-Since", "Mon, 02 Nov 2026 08:00:00 GMT")])
       Demo.world =
     (Sent (mkResponse 200
              [("Cache-Control", "max-age=0");
               ("Last-Modified", "Tue, 03 Nov 2026 08:00:00 GMT")]
              (Some "PNG") (Some "image/png")),
      mkWorld Demo.store
        [ExistsFile "/app/public/logo.png"; ReadFile "/app/public/logo.png"]).
Proof.
  split.
  - refine (proj1 (C8_public_file_last_modified Demo.app Demo.ext
                     (Demo.get "/logo.png"
                        [("If-Modified-Since", "Tue, 03 Nov 2026 08:00:00 GMT")])
                     Demo.world
                     (mkFile (Some "Tue, 03 Nov 2026 08:00:00 GMT") "PNG")
                     _ eq_refl eq_refl) eq_refl).
    discriminate.
  - refine (proj1 (proj2 (C8_public_file_last_modified Demo.app Demo.ext
                     (Demo.get "/logo.png"
                        [("If-Modified-Since", "Mon, 02 Nov 2026 08:00:00 GMT")])
                     Demo.world
                     (mkFile (Some "Tue, 03 Nov 2026 08:00:00 GMT") "PNG")
                     _ eq_refl eq_refl) _)); discriminate.
Defined.

Lemma C9_witness :
  handle Demo.app Demo.ext (Demo.get "/api/none" []) Demo.world =
  (Sent (mkResponse 404 [("Cache-Control", "max-age=0")]
           (Some (Json.stringify
                    (JObj [("status", JNum 404); ("message", JStr "not found")])))
           (Some jsonType)),
   mkWorld Demo.store [ExistsFile "/app/public/api/none"])
  /\ handle Demo.app Demo.ext (Demo.get "/api/boom" []) Demo.world =
     (Sent (mkResponse 500 [("Cache-Control", "max-age=0")]
              (Some (Json.stringify
                       (JObj [("status", JNum 500); ("message", JStr "boom")])))
              (Some jsonType)),
      mkWorld Demo.store [ExistsFile "/app/public/api/boom"]).
Proof.
  split.
  - refine (proj1 (proj1 (C9_api_error_envelopes Demo.app Demo.ext
                     (Demo.get "/api/none" []) Demo.world
                     _ eq_refl eq_refl eq_refl) eq_refl)).
    discriminate.
  - refine (proj1 (proj2 (proj2 (C9_api_error_envelopes Demo.app Demo.ext
                     (Demo.get "/api/boom" []) Demo.world
                     _ eq_refl eq_refl eq_refl))
              (mkRouterURL [] []) (Demo.apiModule "/api/boom.ts") Demo.boom
              (mkError "boom" "at handler") eq_refl eq_refl eq_refl)).
    discriminate.
Defined.

(* ------------------------------------------------------------------ *)
(** * The other branches of the dispatcher *)

Section Branches.

Context (app : Application) (ext : Externals).

Lemma serveStatic_absent (r : ServerRequest) (req : Request.t) (path : string)
  (w : World) :
  fs (store w) path = None ->
  serveStatic ext r req path w = (Ok None, logged w [ExistsFile path]).
Proof.
  intros H. unfold serveStatic, existsFile, bind, perform, reads; simpl.
  rewrite H. reflexivity.
Qed.

Lemma lastModifiedOf_file (path : string) (w : World) (f : File) :
  fs (store w) path = Some f ->
  lastModifiedOf path w =
  (Ok (match mtime f with Some t => t | None => clock (store w) end), w).
Proof.
  intros H. unfold lastModifiedOf, reads. rewrite H.
  destruct f as [[t|] c]; reflexivity.
Qed.

Lemma serveStatic_not_modified (r : ServerRequest) (req : Request.t) (path : string)
  (w : World) (f : File) :
  fs (store w) path = Some f ->
  header r "If-Modified-Since"
  = Some (match mtime f with Some t => t | None => clock (store w) end) ->
  serveStatic ext r req path w =
  (Ok (Some (mkResponse 304 (Request.hdrs req) None None)),
   logged w [ExistsFile path]).
Proof.
  intros H Hm. apply matchesHeader_true in Hm.
  unfold serveStatic, bind at 1, existsFile, bind at 1, perform, reads.
  simpl. rewrite H. unfold bind at 1.
  change (mkWorld (store w) (trace w ++ [ExistsFile path]))
    with (logged w [ExistsFile path]).
  rewrite (lastModifiedOf_file path (logged w [ExistsFile path]) f H).
  simpl. rewrite Hm. reflexivity.
Qed.

Lemma serveStatic_fresh (r : ServerRequest) (req : Request.t) (path : string)
  (w : World) (f : File) :
  fs (store w) path = Some f ->
  header r "If-Modified-Since"
  <> Some (match mtime f with Some t => t | None => clock (store w) end) ->
  serveStatic ext r req path w =
  (Ok (Some (mkResponse (Request.code req)
               (Request.set_assoc "Last-Modified"
                  (match mtime f with Some t => t | None => clock (store w) end)
                  (Request.hdrs req))
               (Some (content f)) (Some (getContentType ext path)))),
   logged w [ExistsFile path; ReadFile path]).
Proof.
  intros H Hm. apply matchesHeader_false in Hm.
  unfold serveStatic, bind at 1, existsFile, bind at 1, perform, reads.
  simpl. rewrite H. unfold bind at 1.
  change (mkWorld (store w) (trace w ++ [ExistsFile path]))
    with (logged w [ExistsFile path]).
  rewrite (lastModifiedOf_file path (logged w [ExistsFile path]) f H).
  simpl. rewrite Hm.
  unfold bind, readFile, bind, perform, reads, ret; simpl. rewrite H.
  unfold logged; simpl. rewrite <- app_assoc. reflexivity.
Qed.

Lemma startsWith_app (p r : string) : Util.startsWith (p +:+ r) p = true.
Proof.
  unfold Util.startsWith. induction p as [|a p IH].
  - destruct r; reflexivity.
  - change (String.prefix (String a p) (String a (p +:+ r)) = true).
    cbn [String.prefix]. destruct (ascii_dec a a) as [_|N]; [exact IH|].
    exfalso. apply N. reflexivity.
Qed.

(** X1: the SSR-data endpoint (lines 90-99): the page path is decoded from
    what stands between ["/_aleph/data/"] and [".json"]; when the page has
    no data ([null]) the answer is 404 with the body [null], else it is
    the data as JSON text with status 200.  No file is looked up, whatever
    modules and files exist.  The text of the data is stated for data
    that is a JSON value with safe integers as its numbers ([plainJSON]);
    [None] stands for [null], so the data of the other case is not
    [JNull]. *)
Theorem ssr_data_endpoint (r : ServerRequest) (w : World) (x : string) :
  pathnameOf app ext r = "/_aleph/data/" +:+ x +:+ ".json" ->
  match getSSRData app (store w) (atobUrl ext x) with
  | Some data =>
      data <> JNull -> plainJSON data = true ->
      handle app ext r w =
      (Sent (mkResponse 200 (Request.hdrs (initialRequest app))
               (Some (Json.stringify data)) (Some jsonType)), w)
  | None =>
      handle app ext r w =
      (Sent (mkResponse 404 (Request.hdrs (initialRequest app))
               (Some "null") (Some jsonType)), w)
  end.
Proof.
  intros Hp. unfold handle, dispatch. rewrite Hp.
  assert (E1 : String.eqb ("/_aleph/data/" +:+ x +:+ ".json") "/_hmr" = false)
    by reflexivity.
  assert (E2 : Util.startsWith ("/_aleph/data/" +:+ x +:+ ".json") "/_aleph/" = true)
    by reflexivity.
  assert (E3 : Util.startsWith ("/_aleph/data/" +:+ x +:+ ".json") "/_aleph/data/"
               = true) by apply startsWith_app.
  assert (E4 : Util.endsWith ("/_aleph/data/" +:+ x +:+ ".json") ".json" = true).
  { rewrite <- append_assoc. apply trimSuffix_app. }
  rewrite E1, E2. unfold serveDist. rewrite E3, E4. cbn [andb].
  rewrite trimPrefix_app. rewrite (proj1 (trimSuffix_app x ".json")).
  unfold bind, reads, settle; simpl.
  destruct (getSSRData app (store w) (atobUrl ext x)) as [data|];
    [intros _ _|];
    unfold ret, Request.send, Request.status; simpl;
    rewrite ?initialRequest_code; destruct w; reflexivity.
Qed.

(** X2: the main bundle (lines 101-105): ["/_aleph/main.js"] is always
    answered with [createMainJS(false)], before any module record is
    looked up and without any validator. *)
Theorem main_bundle_first (r : ServerRequest) (w : World) :
  pathnameOf app ext r = "/_aleph/main.js" ->
  handle app ext r w =
  (Sent (mkResponse 200 (Request.hdrs (initialRequest app))
           (Some (createMainJS app (store w) false)) (Some jsType)), w).
Proof.
  intros Hp. unfold handle, dispatch. rewrite Hp.
  change (String.eqb "/_aleph/main.js" "/_hmr") with false.
  change (Util.startsWith "/_aleph/main.js" "/_aleph/") with true.
  unfold serveDist.
  change (Util.startsWith "/_aleph/main.js" "/_aleph/data/") with false.
  cbn [andb].
  change (String.eqb (Util.trimPrefix "/_aleph/main.js" "/_aleph") "/main.js")
    with true.
  unfold bind, reads, ret, settle, Request.send; simpl.
  rewrite initialRequest_code. destruct w; reflexivity.
Qed.

(** A path under ["/_aleph/"] that is neither SSR data, nor the main
    bundle, nor a [.js] path goes straight to the build directory. *)
Lemma handle_build_file_path (r : ServerRequest) (w : World) :
  isBuildFilePath (pathnameOf app ext r) = true ->
  handle app ext r w =
  settle app
    (serveBuildFile app ext r (initialRequest app)
       (Util.trimPrefix (pathnameOf app ext r) "/_aleph") w).
Proof.
  intros H. unfold isBuildFilePath in H.
  apply andb_true_iff in H as [H H4].
  apply andb_true_iff in H as [H H3].
  apply andb_true_iff in H as [H1 H2].
  apply negb_true_iff in H2, H3, H4.
  assert (Hh : String.eqb (pathnameOf app ext r) "/_hmr" = false).
  { apply eqb_string_false. intros E. rewrite E in H1. vm_compute in H1. discriminate. }
  unfold handle, dispatch. rewrite Hh, H1. unfold serveDist. rewrite H2, H3, H4.
  reflexivity.
Qed.

Lemma serveBuildFile_not_modified (r : ServerRequest) (req : Request.t)
  (relPath : string) (w : World) (f : File) :
  let path := join ext [buildDir app; relPath] in
  fs (store w) path = Some f ->
  header r "If-Modified-Since"
  = Some (match mtime f with Some t => t | None => clock (store w) end) ->
  serveBuildFile app ext r req relPath w =
  (Ok (Sent (mkResponse 304 (Request.hdrs req) None None)),
   logged w [ExistsFile path]).
Proof.
  intros path H Hm. apply matchesHeader_true in Hm.
  unfold serveBuildFile. fold path. cbv zeta.
  unfold bind at 1, existsFile, bind at 1, perform, reads.
  simpl. rewrite H. unfold bind at 1.
  change (mkWorld (store w) (trace w ++ [ExistsFile path]))
    with (logged w [ExistsFile path]).
  rewrite (lastModifiedOf_file path (logged w [ExistsFile path]) f H).
  simpl. rewrite Hm. reflexivity.
Qed.

Lemma serveBuildFile_fresh (r : ServerRequest) (req : Request.t)
  (relPath : string) (w : World) (f : File) :
  let path := join ext [buildDir app; relPath] in
  fs (store w) path = Some f ->
  header r "If-Modified-Since"
  <> Some (match mtime f with Some t => t | None => clock (store w) end) ->
  serveBuildFile app ext r req relPath w =
  (Ok (Sent (mkResponse (Request.code req)
               (Request.set_assoc "Last-Modified"
                  (match mtime f with Some t => t | None => clock (store w) end)
                  (Request.hdrs req))
               (Some (decodeText ext (content f)))
               (Some (getContentType ext path)))),
   logged w [ExistsFile path; ReadFile path]).
Proof.
  intros path H Hm. apply matchesHeader_false in Hm.
  unfold serveBuildFile. fold path. cbv zeta.
  unfold bind at 1, existsFile, bind at 1, perform, reads.
  simpl. rewrite H. unfold bind at 1.
  change (mkWorld (store w) (trace w ++ [ExistsFile path]))
    with (logged w [ExistsFile path]).
  rewrite (lastModifiedOf_file path (logged w [ExistsFile path]) f H).
  simpl. rewrite Hm.
  unfold bind, readTextFile, bind, perform, reads, ret; simpl. rewrite H.
  unfold logged; simpl. rewrite <- app_assoc. reflexivity.
Qed.

(** X3: files of the build directory (lines 161-179): a path under
    ["/_aleph/"] that does not end in [.js] (a style sheet, a source map)
    is answered from the build directory, validated by
    [If-Modified-Since] against the file's modification time; the body is
    the file read as text ([Deno.readTextFile]), not its raw bytes.  When
    the file is not there the answer is the plain 404 "not found". *)
Theorem build_directory_file (r : ServerRequest) (w : World) :
  let relPath := Util.trimPrefix (pathnameOf app ext r) "/_aleph" in
  let path := join ext [buildDir app; relPath] in
  isBuildFilePath (pathnameOf app ext r) = true ->
  (fs (store w) path = None ->
   handle app ext r w =
   (Sent (mkResponse 404 (Request.hdrs (initialRequest app)) (Some "not found") None),
    logged w [ExistsFile path]))
  /\ (forall f,
        fs (store w) path = Some f ->
        let lastModified :=
          match mtime f with Some t => t | None => clock (store w) end in
        (header r "If-Modified-Since" = Some lastModified ->
         handle app ext r w =
         (Sent (mkResponse 304 (Request.hdrs (initialRequest app)) None None),
          logged w [ExistsFile path]))
        /\ (header r "If-Modified-Since" <> Some lastModified ->
            handle app ext r w =
            (Sent (mkResponse 200
                     (Request.set_assoc "Last-Modified" lastModified
                        (Request.hdrs (initialRequest app)))
                     (Some (decodeText ext (content f)))
                     (Some (getContentType ext path))),
             logged w [ExistsFile path; ReadFile path]))).
Proof.
  intros relPath path Hp. rewrite (handle_build_file_path r w Hp).
  fold relPath. split.
  - intros Hf. rewrite (serveBuildFile_absent app ext _ _ _ _ Hf). reflexivity.
  - intros f Hf. cbv zeta. split; intros Hm.
    + rewrite (serveBuildFile_not_modified _ _ _ _ _ Hf Hm). reflexivity.
    + rewrite (serveBuildFile_fresh _ _ _ _ _ Hf Hm). rewrite initialRequest_code.
      reflexivity.
Qed.

(** X4: in production nothing is probed or compiled (the guard of line 109):
    a [.js] path without a module record is answered from the build
    directory alone. *)
Theorem production_never_compiles (r : ServerRequest) (w : World) :
  let relPath := Util.trimPrefix (pathnameOf app ext r) "/_aleph" in
  let path := join ext [buildDir app; relPath] in
  isDev app = false ->
  isModuleJSPath (pathnameOf app ext r) = true ->
  findModule (fun m => String.eqb (jsFile m) relPath) (store w) = None ->
  handle app ext r w =
  settle app (serveBuildFile app ext r (initialRequest app) relPath w)
  /\ (fs (store w) path = None ->
      handle app ext r w =
      (Sent (mkResponse 404 (Request.hdrs (initialRequest app))
               (Some "not found") None),
       logged w [ExistsFile path])).
Proof.
  intros relPath path Hd Hp Hf.
  assert (H : handle app ext r w =
              settle app (serveBuildFile app ext r (initialRequest app) relPath w)).
  { rewrite (handle_module_path app ext r w Hp). fold relPath.
    unfold bind at 1, resolveModule. rewrite Hf, Hd. reflexivity. }
  split; [exact H|]. intros Hb. rewrite H.
  rewrite (serveBuildFile_absent app ext _ _ _ _ Hb). reflexivity.
Qed.

(** X6: pages (lines 223-228): a path that is no HMR, build-output, public-file
    or API path is rendered by [getPageHTML], whose status and HTML are
    relayed as they are; the search string passed on is empty when the URL
    has no query parameter, and ["?"] followed by the parameters else. *)
Theorem page_is_relayed (r : ServerRequest) (w : World) :
  let p := pathnameOf app ext r in
  let path := join ext [workingDir app; "public"; p] in
  let search :=
    match searchParams (urlOf app ext r) with
    | [] => ""
    | _ :: _ => "?" +:+ searchParams_toString ext (searchParams (urlOf app ext r))
    end in
  let page := getPageHTML app (store w) p search in
  p <> "/_hmr" ->
  Util.startsWith p "/_aleph/" = false ->
  fs (store w) path = None ->
  Util.startsWith p "/api/" = false ->
  handle app ext r w =
  (Sent (mkResponse (fst page) (Request.hdrs (initialRequest app))
           (Some (snd page)) (Some htmlType)),
   logged w [ExistsFile path]).
Proof.
  intros p path search page Hh Ha Hf Hapi.
  rewrite (handle_other_path app ext r w Hh Ha). fold p path.
  unfold bind at 1. rewrite (serveStatic_absent _ _ _ _ Hf). rewrite Hapi.
  reflexivity.
Qed.

(** X7: API modules that fail to load (line 207, inside the [try] of line
    205): the error is answered with the 500 JSON envelope carrying its
    message, not with the HTML error page of the outer [catch]. *)
Theorem api_import_failure (r : ServerRequest) (w : World) params module err :
  let p := pathnameOf app ext r in
  let path := join ext [workingDir app; "public"; p] in
  p <> "/_hmr" ->
  Util.startsWith p "/_aleph/" = false ->
  fs (store w) path = None ->
  Util.startsWith p "/api/" = true ->
  getAPIRoute app (store w) p (searchOf ext (urlOf app ext r)) = Some (params, module) ->
  importModule app (store w) module = Throw err ->
  handle app ext r w =
  (Sent (mkResponse 500 (Request.hdrs (initialRequest app))
           (Some (Json.stringify (apiError 500 (message err)))) (Some jsonType)),
   logged w [ExistsFile path]).
Proof.
  intros p path Hh Ha Hf Hapi Hr Hi.
  rewrite (handle_api_path app ext r w Hh Ha Hf Hapi). fold p path.
  unfold serveApi, bind at 1, reads at 1. simpl. fold p. rewrite Hr.
  unfold try_catch, bind, call. simpl. rewrite Hi. reflexivity.
Qed.

(** X8: API handlers that return (lines 208-209): [handle] sends nothing of
    its own; the outcome is the handler's response, or none when the
    handler did not respond, and the store is left as it was. *)
Theorem api_handler_returns (r : ServerRequest) (w : World) params module handler
  (answer : option Response) :
  let p := pathnameOf app ext r in
  let path := join ext [workingDir app; "public"; p] in
  p <> "/_hmr" ->
  Util.startsWith p "/_aleph/" = false ->
  fs (store w) path = None ->
  Util.startsWith p "/api/" = true ->
  getAPIRoute app (store w) p (searchOf ext (urlOf app ext r)) = Some (params, module) ->
  importModule app (store w) module = Ok (Function handler) ->
  handler (initialRequest app) params = Returned answer ->
  handle app ext r w =
  (match answer with Some resp => Sent resp | None => NoReply end,
   logged w [ExistsFile path]).
Proof.
  intros p path Hh Ha Hf Hapi Hr Hi Hret.
  rewrite (handle_api_path app ext r w Hh Ha Hf Hapi). fold p path.
  unfold serveApi, bind at 1, reads at 1. simpl. fold p. rewrite Hr.
  unfold try_catch, bind, call. simpl. rewrite Hi, Hret.
  destruct answer; reflexivity.
Qed.

(** X5: the module record exists but its compiled content is unavailable
    (lines 118-121): the file of the same path in the build directory is
    sent instead, read as text like any build file, without [ETag] and,
    also in development, without the hot-context template. *)
Theorem unavailable_module_falls_back (r : ServerRequest) (w : World) l m (f : File) :
  let relPath := Util.trimPrefix (pathnameOf app ext r) "/_aleph" in
  let path := join ext [buildDir app; relPath] in
  let lastModified := match mtime f with Some t => t | None => clock (store w) end in
  isModuleJSPath (pathnameOf app ext r) = true ->
  findModule (fun m => String.eqb (jsFile m) relPath) (store w) = Some (l, m) ->
  getModuleJS app (store w) m = None ->
  fs (store w) path = Some f ->
  header r "If-Modified-Since" <> Some lastModified ->
  handle app ext r w =
  (Sent (mkResponse 200
           (Request.set_assoc "Last-Modified" lastModified
              (Request.hdrs (initialRequest app)))
           (Some (decodeText ext (content f))) (Some (getContentType ext path))),
   logged w [GetModuleJS (specifier m); ExistsFile path; ReadFile path]).
Proof.
  intros relPath path lastModified Hp Hf Hc Hb Hm.
  destruct (findModule_lookup _ _ _ _ Hf) as [Hl _].
  rewrite (handle_resolved_module app ext _ _ _ _ _ Hp
             (resolveModule_known app ext _ _ _ _ Hf) Hl).
  unfold bind. rewrite (serveModule_unavailable app ext _ _ _ _ _ Hc).
  unfold orBuildFile. fold relPath.
  assert (Hb' : fs (store (logged w [GetModuleJS (specifier m)])) path = Some f)
    by exact Hb.
  rewrite (serveBuildFile_fresh _ _ _ _ _ Hb' Hm). rewrite initialRequest_code.
  rewrite logged_logged. reflexivity.
Qed.

(** ** Validators sent back *)

(** X9: revalidating a public file: the [Last-Modified] value of a 200
    response, sent back as [If-Modified-Since], gives 304 without body at
    any later time, as long as the file has the same modification time. *)
Theorem last_modified_round_trip (r1 r2 : ServerRequest) (w1 w2 : World)
  (f1 f2 : File) (t : string) :
  let p := pathnameOf app ext r1 in
  let path := join ext [workingDir app; "public"; p] in
  p <> "/_hmr" ->
  Util.startsWith p "/_aleph/" = false ->
  pathnameOf app ext r2 = p ->
  fs (store w1) path = Some f1 -> mtime f1 = Some t ->
  fs (store w2) path = Some f2 -> mtime f2 = Some t ->
  header r1 "If-Modified-Since" <> Some t ->
  exists resp1 w1',
    handle app ext r1 w1 = (Sent resp1, w1')
    /\ status resp1 = 200%Z
    /\ body resp1 = Some (content f1)
    /\ (header r2 "If-Modified-Since"
        = Request.get_assoc "Last-Modified" (headers resp1) ->
        handle app ext r2 w2 =
        (Sent (mkResponse 304 (Request.hdrs (initialRequest app)) None None),
         logged w2 [ExistsFile path])).
Proof.
  intros p path Hh Ha Hp2 Hf1 Ht1 Hf2 Ht2 Hm.
  assert (Hm1 : header r1 "If-Modified-Since"
                <> Some (match mtime f1 with Some t => t | None => clock (store w1) end))
    by (rewrite Ht1; exact Hm).
  eexists _, _. split.
  { rewrite (handle_other_path app ext r1 w1 Hh Ha). fold p path.
    unfold bind at 1. rewrite (serveStatic_fresh _ _ _ _ _ Hf1 Hm1).
    rewrite initialRequest_code. reflexivity. }
  split; [reflexivity|]. split; [reflexivity|].
  cbn [headers]. rewrite get_set_assoc, Ht1. intros H2.
  assert (Hh2 : pathnameOf app ext r2 <> "/_hmr") by (rewrite Hp2; exact Hh).
  assert (Ha2 : Util.startsWith (pathnameOf app ext r2) "/_aleph/" = false)
    by (rewrite Hp2; exact Ha).
  rewrite (handle_other_path app ext r2 w2 Hh2 Ha2). rewrite Hp2. fold p path.
  assert (Hm2 : header r2 "If-Modified-Since"
                = Some (match mtime f2 with Some t => t | None => clock (store w2) end))
    by (rewrite Ht2; exact H2).
  unfold bind at 1. rewrite (serveStatic_not_modified _ _ _ _ _ Hf2 Hm2).
  reflexivity.
Qed.

(** X10: a file without modification time is validated against the current
    time (line 186): the [Last-Modified] value that was sent is the time
    of the request, and sending it back once the clock has moved gets the
    whole file again, under a new [Last-Modified]. *)
Theorem no_mtime_never_revalidates (r1 r2 : ServerRequest) (w1 w2 : World)
  (f1 f2 : File) :
  let p := pathnameOf app ext r1 in
  let path := join ext [workingDir app; "public"; p] in
  p <> "/_hmr" ->
  Util.startsWith p "/_aleph/" = false ->
  pathnameOf app ext r2 = p ->
  fs (store w1) path = Some f1 -> mtime f1 = None ->
  fs (store w2) path = Some f2 -> mtime f2 = None ->
  header r1 "If-Modified-Since" <> Some (clock (store w1)) ->
  clock (store w2) <> clock (store w1) ->
  exists resp1 w1',
    handle app ext r1 w1 = (Sent resp1, w1')
    /\ Request.get_assoc "Last-Modified" (headers resp1) = Some (clock (store w1))
    /\ (header r2 "If-Modified-Since"
        = Request.get_assoc "Last-Modified" (headers resp1) ->
        handle app ext r2 w2 =
        (Sent (mkResponse 200
                 (Request.set_assoc "Last-Modified" (clock (store w2))
                    (Request.hdrs (initialRequest app)))
                 (Some (content f2)) (Some (getContentType ext path))),
         logged w2 [ExistsFile path; ReadFile path])).
Proof.
  intros p path Hh Ha Hp2 Hf1 Ht1 Hf2 Ht2 Hm Hclock.
  assert (Hm1 : header r1 "If-Modified-Since"
                <> Some (match mtime f1 with Some t => t | None => clock (store w1) end))
    by (rewrite Ht1; exact Hm).
  eexists _, _. split.
  { rewrite (handle_other_path app ext r1 w1 Hh Ha). fold p path.
    unfold bind at 1. rewrite (serveStatic_fresh _ _ _ _ _ Hf1 Hm1).
    rewrite initialRequest_code. reflexivity. }
  cbn [headers]. rewrite get_set_assoc, Ht1. split; [reflexivity|]. intros H2.
  assert (Hh2 : pathnameOf app ext r2 <> "/_hmr") by (rewrite Hp2; exact Hh).
  assert (Ha2 : Util.startsWith (pathnameOf app ext r2) "/_aleph/" = false)
    by (rewrite Hp2; exact Ha).
  rewrite (handle_other_path app ext r2 w2 Hh2 Ha2). rewrite Hp2. fold p path.
  assert (Hm2 : header r2 "If-Modified-Since"
                <> Some (match mtime f2 with Some t => t | None => clock (store w2) end)).
  { rewrite Ht2, H2. intros E. inversion E. congruence. }
  unfold bind at 1. rewrite (serveStatic_fresh _ _ _ _ _ Hf2 Hm2).
  rewrite initialRequest_code, Ht2. reflexivity.
Qed.

(** X11: revalidating a compiled module: the [ETag] value of a 200 response,
    sent back as [If-None-Match], gives 304 without body in any later
    state in which the module of that path has the same compiled-content
    hash (or source hash), whatever else changed on the record. *)
Theorem etag_round_trip (r1 r2 : ServerRequest) (w1 w2 : World) l1 m1 c1 l2 m2 c2 :
  let relPath := Util.trimPrefix (pathnameOf app ext r1) "/_aleph" in
  isModuleJSPath (pathnameOf app ext r1) = true ->
  pathnameOf app ext r2 = pathnameOf app ext r1 ->
  findModule (fun m => String.eqb (jsFile m) relPath) (store w1) = Some (l1, m1) ->
  getModuleJS app (store w1) m1 = Some c1 ->
  header r1 "If-None-Match" <> Some (etagOf ext m1) ->
  findModule (fun m => String.eqb (jsFile m) relPath) (store w2) = Some (l2, m2) ->
  getModuleJS app (store w2) m2 = Some c2 ->
  fingerprint m2 = fingerprint m1 ->
  exists resp1 w1',
    handle app ext r1 w1 = (Sent resp1, w1')
    /\ status resp1 = 200%Z
    /\ (header r2 "If-None-Match" = Request.get_assoc "ETag" (headers resp1) ->
        handle app ext r2 w2 =
        (Sent (mkResponse 304 (Request.hdrs (initialRequest app)) None None),
         logged w2 [GetModuleJS (specifier m2)])).
Proof.
  intros relPath Hp Hp2 Hf1 Hc1 Hm1 Hf2 Hc2 Hfp.
  apply matchesHeader_false in Hm1.
  destruct (findModule_lookup _ _ _ _ Hf1) as [Hl1 _].
  destruct (findModule_lookup _ _ _ _ Hf2) as [Hl2 _].
  eexists _, _. split.
  { exact (handle_module_mismatch app ext r1 w1 w1 l1 m1 c1 Hp
             (resolveModule_known app ext _ _ _ _ Hf1) Hl1 Hc1 Hm1). }
  split; [reflexivity|].
  cbn [headers]. rewrite get_set_assoc. intros H2.
  assert (He : etagOf ext m2 = etagOf ext m1) by (unfold etagOf; rewrite Hfp; reflexivity).
  rewrite <- He in H2. apply matchesHeader_true in H2.
  assert (Hp' : isModuleJSPath (pathnameOf app ext r2) = true) by (rewrite Hp2; exact Hp).
  assert (Hf' : findModule
                  (fun m => String.eqb (jsFile m)
                              (Util.trimPrefix (pathnameOf app ext r2) "/_aleph"))
                  (store w2) = Some (l2, m2))
    by (rewrite Hp2; exact Hf2).
  rewrite (handle_resolved_module app ext _ _ _ _ _ Hp'
             (resolveModule_known app ext _ _ _ _ Hf') Hl2).
  unfold bind. rewrite (serveModule_not_modified app ext _ _ _ _ _ _ Hc2 H2).
  unfold orBuildFile, ret, settle, Request.send, Request.status; simpl.
  reflexivity.
Qed.

(** ** What every response carries *)

Lemma yields_ret {A : Type} (a : A) (Q : A -> Prop) : Q a -> yields (ret a) Q.
Proof. intros H w a' w' E. inversion E; subst. exact H. Qed.

Lemma yields_throw {A : Type} (e : Error) (Q : A -> Prop) : yields (throw e) Q.
Proof. intros w a w' E. discriminate E. Qed.

Lemma yields_any {A : Type} (c : M A) : yields c (fun _ => True).
Proof. intros w a w' _. exact I. Qed.

Lemma yields_bind {A B : Type} (c : M A) (k : A -> M B) (P : A -> Prop)
  (Q : B -> Prop) :
  yields c P -> (forall a, P a -> yields (k a) Q) -> yields (bind c k) Q.
Proof.
  intros Hc Hk w b w' E. unfold bind in E.
  destruct (c w) as [[a|e] w1] eqn:Ec; [|discriminate].
  exact (Hk a (Hc _ _ _ Ec) _ _ _ E).
Qed.

Lemma yields_reads {A : Type} (f : Store -> A) (Q : A -> Prop) :
  (forall st, Q (f st)) -> yields (reads f) Q.
Proof. intros H w a w' E. inversion E; subst. apply H. Qed.

Lemma yields_call {A : Type} (f : Store -> Result A * Store) (Q : A -> Prop) :
  (forall st a st', f st = (Ok a, st') -> Q a) -> yields (call f) Q.
Proof.
  intros H w a w' E. unfold call in E.
  destruct (f (store w)) as [res st'] eqn:Ef. inversion E; subst.
  exact (H _ _ _ Ef).
Qed.

Lemma yields_try_catch {A : Type} (c : M A) (h : Error -> M A) (Q : A -> Prop) :
  yields c Q -> (forall e, yields (h e) Q) -> yields (try_catch c h) Q.
Proof.
  intros Hc Hh w a w' E. unfold try_catch in E.
  destruct (c w) as [[a0|e] w1] eqn:Ec.
  - inversion E; subst. exact (Hc _ _ _ Ec).
  - exact (Hh e _ _ _ E).
Qed.

Lemma serveStatic_reply (r : ServerRequest) (p s path : string) :
  yields (serveStatic ext r (initialRequest app) path)
    (fun o => match o with Some resp => Reply app r p s resp | None => True end).
Proof.
  unfold serveStatic.
  apply (yields_bind _ _ (fun _ => True)); [apply yields_any|]. intros found _.
  destruct found; [|apply yields_ret; exact I].
  apply (yields_bind _ _ (fun _ => True)); [apply yields_any|]. intros lm _.
  destruct (matchesHeader r "If-Modified-Since" lm) eqn:E.
  - apply yields_ret. apply matchesHeader_true in E.
    apply reply_not_modified. right. rewrite E. discriminate.
  - apply (yields_bind _ _ (fun _ => True)); [apply yields_any|]. intros data _.
    apply yields_ret. unfold Request.send, Request.setHeader; simpl.
    rewrite initialRequest_code. apply reply_validated. right. reflexivity.
Qed.

Lemma serveModule_reply (r : ServerRequest) (p s : string) l m :
  yields (serveModule app ext r (initialRequest app) l m)
    (fun o => match o with Some resp => Reply app r p s resp | None => True end).
Proof.
  unfold serveModule.
  apply (yields_bind _ _ (fun _ => True)); [apply yields_any|]. intros _ _.
  apply (yields_bind _ _ (fun _ => True)); [apply yields_any|]. intros [c|] _;
    [|apply yields_ret; exact I].
  cbv zeta. destruct (matchesHeader r "If-None-Match" (etagOf ext m)) eqn:E.
  - apply yields_ret. apply matchesHeader_true in E.
    apply reply_not_modified. left. rewrite E. discriminate.
  - destruct (isDev app && isHMRable app (specifier m)).
    + apply (yields_bind _ _ (fun _ => True)); [apply yields_any|]. intros code _.
      apply yields_ret. rewrite send_with_etag. apply reply_validated. left. reflexivity.
    + apply yields_ret. rewrite send_with_etag. apply reply_validated. left. reflexivity.
Qed.

Lemma serveBuildFile_reply (r : ServerRequest) (p s relPath : string) :
  yields (serveBuildFile app ext r (initialRequest app) relPath)
    (fun o => match o with Sent resp => Reply app r p s resp | _ => False end).
Proof.
  unfold serveBuildFile. cbv zeta.
  apply (yields_bind _ _ (fun _ => True)); [apply yields_any|]. intros found _.
  destruct found; [|apply yields_ret; apply reply_error; left; reflexivity].
  apply (yields_bind _ _ (fun _ => True)); [apply yields_any|]. intros lm _.
  destruct (matchesHeader r "If-Modified-Since" lm) eqn:E.
  - apply yields_ret. apply matchesHeader_true in E.
    apply reply_not_modified. right. rewrite E. discriminate.
  - apply (yields_bind _ _ (fun _ => True)); [apply yields_any|]. intros text _.
    apply yields_ret. unfold Request.send, Request.setHeader; simpl.
    rewrite initialRequest_code. apply reply_validated. right. reflexivity.
Qed.

Lemma serveDist_reply (r : ServerRequest) (p s : string) :
  yields (serveDist app ext r (initialRequest app) p)
    (fun o => match o with Sent resp => Reply app r p s resp | _ => False end).
Proof.
  unfold serveDist.
  destruct (Util.startsWith p "/_aleph/data/" && Util.endsWith p ".json").
  - cbv zeta. apply (yields_bind _ _ (fun _ => True)); [apply yields_any|].
    intros [data|] _; apply yields_ret.
    + unfold Request.send. rewrite initialRequest_code. apply reply_ok.
    + apply reply_error. left. reflexivity.
  - cbv zeta. destruct (String.eqb (Util.trimPrefix p "/_aleph") "/main.js").
    + apply (yields_bind _ _ (fun _ => True)); [apply yields_any|]. intros mainJS _.
      apply yields_ret. unfold Request.send. rewrite initialRequest_code.
      apply reply_ok.
    + apply (yields_bind _ _
               (fun o => match o with
                         | Some resp => Reply app r p s resp
                         | None => True
                         end)).
      * destruct (Util.endsWith (Util.trimPrefix p "/_aleph") ".js");
          [|apply yields_ret; exact I].
        apply (yields_bind _ _ (fun _ => True)); [apply yields_any|].
        intros [l|] _; unfold deliverModule; [|apply yields_ret; exact I].
        apply (yields_bind _ _ (fun _ => True)); [apply yields_any|].
        intros [m|] _; [apply serveModule_reply | apply yields_ret; exact I].
      * intros [resp|] H; unfold orBuildFile.
        -- apply yields_ret. exact H.
        -- apply serveBuildFile_reply.
Qed.

(** What [serveApi] ends with: an error envelope of [handle], or what the
    handler of the matched route did. *)
Lemma serveApi_reply (r : ServerRequest) (p : string) (u : URL) :
  yields (serveApi app ext (initialRequest app) p u)
    (fun o =>
       match o with
       | Sent resp => Reply app r p (searchOf ext u) resp
       | Upgraded _ => False
       | NoReply =>
           exists st st' route module handler,
             getAPIRoute app st p (searchOf ext u) = Some (route, module)
             /\ importModule app st' module = Ok (Function handler)
             /\ handler (initialRequest app) route = Returned None
       end).
Proof.
  unfold serveApi.
  apply (yields_bind _ _
           (fun found => exists st, getAPIRoute app st p (searchOf ext u) = found)).
  { apply yields_reads. intros st. exists st. reflexivity. }
  intros [[route module]|] [st Hst].
  - apply yields_try_catch.
    + apply (yields_bind _ _
               (fun exported => exists st', importModule app st' module = Ok exported)).
      { apply yields_call. intros st0 a st' E. exists st0. congruence. }
      intros [|handler] [st' Hi].
      * apply yields_ret. apply reply_error. right. reflexivity.
      * destruct (handler (initialRequest app) route) as [[resp|]|err] eqn:Eh.
        -- apply yields_ret. apply reply_handler.
           exists st, st', route, module, handler. auto.
        -- apply yields_ret. exists st, st', route, module, handler. auto.
        -- apply yields_throw.
    + intros e. apply yields_ret. apply reply_error. right. reflexivity.
  - apply yields_ret. apply reply_error. left. reflexivity.
Qed.

Lemma dispatch_reply (r : ServerRequest) (p : string) (u : URL) :
  yields (dispatch app ext r (initialRequest app) p u)
    (fun o =>
       match o with
       | Sent resp => Reply app r p (searchOf ext u) resp
       | Upgraded ch => p = "/_hmr" /\ ch = hmrOpen
       | NoReply =>
           Util.startsWith p "/api/" = true
           /\ exists st st' route module handler,
                getAPIRoute app st p (searchOf ext u) = Some (route, module)
                /\ importModule app st' module = Ok (Function handler)
                /\ handler (initialRequest app) route = Returned None
       end).
Proof.
  unfold dispatch. destruct (String.eqb p "/_hmr") eqn:Eh.
  { apply eqb_string_true in Eh.
    destruct (acceptWebSocket ext r); [apply yields_ret; auto | apply yields_throw]. }
  destruct (Util.startsWith p "/_aleph/").
  { intros w o w' E. pose proof (serveDist_reply r p (searchOf ext u) w o w' E) as H.
    destruct o; [exact H | destruct H | destruct H]. }
  apply (yields_bind _ _ _ _ (serveStatic_reply r p (searchOf ext u) _)).
  intros [resp|] H; [apply yields_ret; exact H|].
  destruct (Util.startsWith p "/api/") eqn:Ea.
  - intros w o w' E. pose proof (serveApi_reply r p u w o w' E) as H1.
    destruct o; [exact H1 | destruct H1 | split; [reflexivity | exact H1]].
  - apply (yields_bind _ _
             (fun page => exists st, page = getPageHTML app st p (searchOf ext u))).
    { apply yields_reads. intros st. exists st. reflexivity. }
    intros page [st ->]. apply yields_ret.
    unfold Request.send, Request.status; simpl. apply reply_page.
Qed.

(** Every response that [handle] ends with is one of the six kinds of
    [Reply]. *)
Lemma handle_reply (r : ServerRequest) (w : World) (resp : Response) (w' : World) :
  handle app ext r w = (Sent resp, w') ->
  Reply app r (pathnameOf app ext r) (searchOf ext (urlOf app ext r)) resp.
Proof.
  unfold handle. intros E.
  destruct (dispatch app ext r (initialRequest app) (pathnameOf app ext r)
              (urlOf app ext r) w) as [[o|e] w1] eqn:Ed; simpl in E.
  - inversion E; subst. exact (dispatch_reply r _ _ _ _ _ Ed).
  - inversion E; subst. apply reply_error. right. reflexivity.
Qed.

Lemma get_set_assoc_other (k k' v : string) (l : list (string * string)) :
  k <> k' -> Request.get_assoc k (Request.set_assoc k' v l) = Request.get_assoc k l.
Proof.
  intros Hne. induction l as [|[k0 v0] l IH]; simpl.
  - destruct (String.eqb k' k) eqn:E; [|reflexivity].
    apply eqb_string_true in E. congruence.
  - destruct (String.eqb k0 k') eqn:E; simpl.
    + apply eqb_string_true in E. subst k0.
      destruct (String.eqb k' k) eqn:E'; [|reflexivity].
      apply eqb_string_true in E'. congruence.
    + destruct (String.eqb k0 k); auto.
Qed.

(** The headers of a response of [handle] itself are those of the request
    context, with at most a validator added. *)
Lemma reply_headers (r : ServerRequest) (p s : string) (resp : Response) (k : string) :
  Reply app r p s resp ->
  k <> "ETag" -> k <> "Last-Modified" ->
  handlerReplied app p s resp
  \/ Request.get_assoc k (headers resp)
     = Request.get_assoc k (Request.hdrs (initialRequest app)).
Proof.
  intros H He Hl. destruct H as [H|name v b c [->| ->]|b c|code b c H|st|resp H];
    try (right; reflexivity).
  - right. cbn [headers]. apply get_set_assoc_other. exact He.
  - right. cbn [headers]. apply get_set_assoc_other. exact Hl.
  - left. exact H.
Qed.

Lemma fold_setHeader_hdrs (hs : list (string * string)) :
  forall req,
    Request.hdrs (fold_left (fun req kv => Request.setHeader (fst kv) (snd kv) req)
                            hs req)
    = fold_left (fun l kv => Request.set_assoc (fst kv) (snd kv) l) hs
                (Request.hdrs req).
Proof. induction hs as [|kv hs IH]; intros req; simpl; [reflexivity | apply IH]. Qed.

Lemma fold_set_assoc_other (k : string) (hs : list (string * string)) :
  forall l,
    ~ In k (map fst hs) ->
    Request.get_assoc k
      (fold_left (fun l kv => Request.set_assoc (fst kv) (snd kv) l) hs l)
    = Request.get_assoc k l.
Proof.
  induction hs as [|[k0 v0] hs IH]; intros l Hn; simpl; [reflexivity|].
  rewrite IH by (intros Hin; apply Hn; right; exact Hin).
  apply get_set_assoc_other. intros ->. apply Hn. left. reflexivity.
Qed.

Lemma fold_set_assoc_in (k v : string) (hs : list (string * string)) :
  forall l,
    List.NoDup (map fst hs) -> In (k, v) hs ->
    Request.get_assoc k
      (fold_left (fun l kv => Request.set_assoc (fst kv) (snd kv) l) hs l)
    = Some v.
Proof.
  induction hs as [|[k0 v0] hs IH]; intros l Hd Hin; [destruct Hin|].
  simpl in Hd. apply List.NoDup_cons_iff in Hd as [Hfresh Hd].
  destruct Hin as [E|Hin]; simpl.
  - inversion E; subst k0 v0. rewrite fold_set_assoc_other by exact Hfresh.
    apply get_set_assoc.
  - apply IH; assumption.
Qed.

(** X12: development mode (lines 43-46): whatever the configuration says, every
    response that [handle] sends itself carries
    [Cache-Control: max-age=0]; only an API handler decides about the
    headers of its own response. *)
Theorem development_disables_caching (r : ServerRequest) (w w' : World)
  (resp : Response) :
  isDev app = true ->
  handle app ext r w = (Sent resp, w') ->
  handlerReplied app (pathnameOf app ext r) (searchOf ext (urlOf app ext r)) resp
  \/ Request.get_assoc "Cache-Control" (headers resp) = Some "max-age=0".
Proof.
  intros Hd E. apply handle_reply in E.
  destruct (reply_headers _ _ _ _ "Cache-Control" E) as [H|H];
    [discriminate | discriminate | left; exact H |].
  right. rewrite H. unfold initialRequest. rewrite Hd.
  cbn [Request.setHeader Request.hdrs]. apply get_set_assoc.
Qed.

Lemma toLowerCase_in (k : string) (names : list string) :
  ~ In (toLowerCase k) (map toLowerCase names) -> ~ In k names.
Proof. intros H Hin. apply H. apply in_map. exact Hin. Qed.

(** X13: the configured headers (lines 38-41): a header of the
    configuration is still on the request context, with its configured
    value, at every [send] of [handle] itself, unless its name is one that
    is set later: [ETag] and [Last-Modified] by [handle], [Content-Type]
    by the content type given to [send], and, in development,
    [Cache-Control].  Header names do not distinguish case, and the names
    of the configuration are different headers. *)
Theorem configured_headers_are_sent (r : ServerRequest) (w w' : World)
  (resp : Response) (k v : string) :
  List.NoDup (map (fun kv => toLowerCase (fst kv)) (cfgHeaders (config app))) ->
  In (k, v) (cfgHeaders (config app)) ->
  ~ In (toLowerCase k) ["etag"; "last-modified"; "content-type"] ->
  (isDev app = true -> toLowerCase k <> "cache-control") ->
  handle app ext r w = (Sent resp, w') ->
  handlerReplied app (pathnameOf app ext r) (searchOf ext (urlOf app ext r)) resp
  \/ Request.get_assoc k (headers resp) = Some v.
Proof.
  intros Hnd Hin Hk Hc E. apply handle_reply in E.
  assert (Hk' : ~ In k ["ETag"; "Last-Modified"; "Content-Type"])
    by (apply toLowerCase_in; exact Hk).
  assert (He : k <> "ETag") by (intros ->; apply Hk'; simpl; auto).
  assert (Hl : k <> "Last-Modified") by (intros ->; apply Hk'; simpl; auto).
  assert (Hnd' : List.NoDup (map fst (cfgHeaders (config app)))).
  { apply (List.NoDup_map_inv toLowerCase). rewrite map_map. exact Hnd. }
  destruct (reply_headers _ _ _ _ k E He Hl) as [H|H]; [left; exact H|].
  right. rewrite H. unfold initialRequest.
  assert (Hcfg : Request.get_assoc k
                   (Request.hdrs
                      (fold_left
                         (fun req kv => Request.setHeader (fst kv) (snd kv) req)
                         (cfgHeaders (config app)) Request.new)) = Some v).
  { rewrite fold_setHeader_hdrs. apply fold_set_assoc_in; assumption. }
  destruct (isDev app); [|exact Hcfg].
  cbn [Request.setHeader Request.hdrs].
  rewrite get_set_assoc_other; [exact Hcfg|].
  intros ->. apply Hc; reflexivity.
Qed.

(** X14: the only response without a body that [handle] sends itself is the
    304 to a conditional request: it has no content type either, and the
    request carried [If-None-Match] or [If-Modified-Since]. *)
Theorem empty_body_only_when_not_modified (r : ServerRequest) (w w' : World)
  (resp : Response) :
  handle app ext r w = (Sent resp, w') ->
  body resp = None ->
  handlerReplied app (pathnameOf app ext r) (searchOf ext (urlOf app ext r)) resp
  \/ (status resp = 304%Z
      /\ contentType resp = None
      /\ (header r "If-None-Match" <> None \/ header r "If-Modified-Since" <> None)).
Proof.
  intros E Hb. apply handle_reply in E.
  destruct E as [H|name v b c _|b c|code b c _|st|resp H];
    try discriminate Hb.
  - right. auto.
  - left. exact H.
Qed.

(** X15: the status codes of [handle] itself are 200, 304, 404 and 500; any
    other status is the one of the rendered page or of an API handler. *)
Theorem own_status_codes (r : ServerRequest) (w w' : World) (resp : Response) :
  handle app ext r w = (Sent resp, w') ->
  handlerReplied app (pathnameOf app ext r) (searchOf ext (urlOf app ext r)) resp
  \/ (exists st,
        status resp
        = fst (getPageHTML app st (pathnameOf app ext r)
                 (searchOf ext (urlOf app ext r))))
  \/ In (status resp) [200%Z; 304%Z; 404%Z; 500%Z].
Proof.
  intros E. apply handle_reply in E.
  destruct E as [H|name v b c _|b c|code b c [->| ->]|st|resp H].
  - right. right. simpl. auto.
  - right. right. simpl. auto.
  - right. right. simpl. auto.
  - right. right. simpl. auto.
  - right. right. simpl. auto.
  - right. left. exists st. reflexivity.
  - left. exact H.
Qed.

(** X16: the upgrade (lines 50-58): a request is upgraded to an HMR
    channel exactly when its path is ["/_hmr"] and [acceptWebSocket]
    accepts it; the channel then starts with the add and the remove
    listener, and no file, module or route of that name is looked up.
    When [acceptWebSocket] throws, the request is answered by the outer
    [catch] with the 500 error page. *)
Theorem upgraded_exactly_on_hmr_path (r : ServerRequest) (w w' : World) (ch : Channel) :
  (handle app ext r w = (Upgraded ch, w')
   <-> pathnameOf app ext r = "/_hmr" /\ acceptWebSocket ext r = Ok tt
       /\ ch = hmrOpen /\ w' = w)
  /\ (forall err,
        pathnameOf app ext r = "/_hmr" ->
        acceptWebSocket ext r = Throw err ->
        handle app ext r w =
        (Sent (mkResponse 500 (Request.hdrs (initialRequest app))
                 (Some (errorPage err)) (Some htmlType)), w)).
Proof.
  split; [split|].
  - unfold handle. intros E.
    destruct (dispatch app ext r (initialRequest app) (pathnameOf app ext r)
                (urlOf app ext r) w) as [[o|e] w1] eqn:Ed; simpl in E;
      [|discriminate].
    inversion E; subst.
    destruct (dispatch_reply r _ _ _ _ _ Ed) as [Hp Hc].
    split; [exact Hp|].
    unfold dispatch in Ed. rewrite Hp in Ed. simpl in Ed.
    destruct (acceptWebSocket ext r) as [[]|err]; [|discriminate Ed].
    split; [reflexivity|]. split; [exact Hc|].
    inversion Ed. reflexivity.
  - intros (Hp & Ha & -> & ->). unfold handle, dispatch. rewrite Hp, Ha. reflexivity.
  - intros err Hp Ha. unfold handle, dispatch. rewrite Hp, Ha. simpl.
    unfold Request.send, Request.status; simpl. destruct w; reflexivity.
Qed.

(** X17: when [handle] returns without a response having been sent and
    without an upgrade, the path is an API path and the handler of the
    matched route returned without responding: every other way through
    the [try] of lines 48-239 ends in a [send]. *)
Theorem unanswered_only_by_api_handler (r : ServerRequest) (w w' : World) :
  handle app ext r w = (NoReply, w') ->
  Util.startsWith (pathnameOf app ext r) "/api/" = true
  /\ exists st st' route module handler,
       getAPIRoute app st (pathnameOf app ext r) (searchOf ext (urlOf app ext r))
       = Some (route, module)
       /\ importModule app st' module = Ok (Function handler)
       /\ handler (initialRequest app) route = Returned None.
Proof.
  unfold handle. intros E.
  destruct (dispatch app ext r (initialRequest app) (pathnameOf app ext r)
              (urlOf app ext r) w) as [[o|e] w1] eqn:Ed; simpl in E;
    [|discriminate].
  inversion E; subst. exact (dispatch_reply r _ _ _ _ _ Ed).
Qed.

(** ** What a request may change *)

Lemma readOnly_ret {A : Type} (a : A) : readOnly (ret a).
Proof.
  intros w res w' E. inversion E; subst. split; [reflexivity|].
  exists []. rewrite app_nil_r. split; [reflexivity | constructor].
Qed.

Lemma readOnly_throw {A : Type} (e : Error) : readOnly (@throw A e).
Proof.
  intros w res w' E. inversion E; subst. split; [reflexivity|].
  exists []. rewrite app_nil_r. split; [reflexivity | constructor].
Qed.

Lemma readOnly_reads {A : Type} (f : Store -> A) : readOnly (reads f).
Proof.
  intros w res w' E. inversion E; subst. split; [reflexivity|].
  exists []. rewrite app_nil_r. split; [reflexivity | constructor].
Qed.

Lemma readOnly_perform (e : Effect) : mutating e = false -> readOnly (perform e).
Proof.
  intros He w res w' E. inversion E; subst. split; [reflexivity|].
  exists [e]. split; [reflexivity|]. constructor; [exact He | constructor].
Qed.

Lemma readOnly_call {A : Type} (f : Store -> Result A * Store) :
  (forall st, snd (f st) = st) -> readOnly (call f).
Proof.
  intros Hf w res w' E. unfold call in E. pose proof (Hf (store w)) as Hs.
  destruct (f (store w)) as [res0 st']. simpl in Hs. inversion E; subst.
  split; [reflexivity|].
  exists []. simpl. rewrite app_nil_r. split; [reflexivity | constructor].
Qed.

Lemma readOnly_bind {A B : Type} (c : M A) (k : A -> M B) :
  readOnly c -> (forall a, readOnly (k a)) -> readOnly (bind c k).
Proof.
  intros Hc Hk w res w' E. unfold bind in E.
  destruct (c w) as [[a|e] w1] eqn:Ec.
  - destruct (Hc _ _ _ Ec) as (Hs1 & es1 & Ht1 & Hf1).
    destruct (Hk a _ _ _ E) as (Hs2 & es2 & Ht2 & Hf2).
    split; [congruence|]. exists (es1 ++ es2).
    split; [rewrite Ht2, Ht1, app_assoc; reflexivity|].
    apply Forall_app. split; assumption.
  - inversion E; subst. exact (Hc _ _ _ Ec).
Qed.

Lemma readOnly_try_catch {A : Type} (c : M A) (h : Error -> M A) :
  readOnly c -> (forall e, readOnly (h e)) -> readOnly (try_catch c h).
Proof.
  intros Hc Hh w res w' E. unfold try_catch in E.
  destruct (c w) as [[a|e] w1] eqn:Ec.
  - inversion E; subst. exact (Hc _ _ _ Ec).
  - destruct (Hc _ _ _ Ec) as (Hs1 & es1 & Ht1 & Hf1).
    destruct (Hh e _ _ _ E) as (Hs2 & es2 & Ht2 & Hf2).
    split; [congruence|]. exists (es1 ++ es2).
    split; [rewrite Ht2, Ht1, app_assoc; reflexivity|].
    apply Forall_app. split; assumption.
Qed.

Lemma readOnly_serveStatic (r : ServerRequest) (req : Request.t) (path : string) :
  readOnly (serveStatic ext r req path).
Proof.
  unfold serveStatic, existsFile, lastModifiedOf, readFile.
  apply readOnly_bind.
  { apply readOnly_bind; [apply readOnly_perform; reflexivity|].
    intros _. apply readOnly_reads. }
  intros [|]; [|apply readOnly_ret].
  apply readOnly_bind; [apply readOnly_reads|]. intros lm.
  destruct (matchesHeader r "If-Modified-Since" lm); [apply readOnly_ret|].
  apply readOnly_bind; [|intros data; apply readOnly_ret].
  apply readOnly_bind; [apply readOnly_perform; reflexivity|].
  intros _. apply readOnly_reads.
Qed.

Lemma readOnly_serveBuildFile (r : ServerRequest) (req : Request.t) (relPath : string) :
  readOnly (serveBuildFile app ext r req relPath).
Proof.
  unfold serveBuildFile, existsFile, lastModifiedOf, readTextFile. cbv zeta.
  apply readOnly_bind.
  { apply readOnly_bind; [apply readOnly_perform; reflexivity|].
    intros _. apply readOnly_reads. }
  intros [|]; [|apply readOnly_ret].
  apply readOnly_bind; [apply readOnly_reads|]. intros lm.
  destruct (matchesHeader r "If-Modified-Since" lm); [apply readOnly_ret|].
  apply readOnly_bind; [|intros text; apply readOnly_ret].
  apply readOnly_bind; [apply readOnly_perform; reflexivity|].
  intros _. apply readOnly_reads.
Qed.

Lemma readOnly_serveApi (req : Request.t) (p : string) (u : URL) :
  readOnly (serveApi app ext req p u).
Proof.
  unfold serveApi. apply readOnly_bind; [apply readOnly_reads|].
  intros [[route module]|]; [|apply readOnly_ret].
  apply readOnly_try_catch; [|intros e; apply readOnly_ret].
  apply readOnly_bind; [apply readOnly_call; reflexivity|].
  intros [|handler]; [apply readOnly_ret|].
  destruct (handler req route) as [[resp|]|err];
    [apply readOnly_ret | apply readOnly_ret | apply readOnly_throw].
Qed.

(** Outside development a module is sent as it was compiled: nothing is
    stripped, and nothing is kept on the record. *)
Lemma readOnly_serveModule (r : ServerRequest) (req : Request.t) l m :
  isDev app = false -> readOnly (serveModule app ext r req l m).
Proof.
  intros Hd. unfold serveModule.
  apply readOnly_bind; [apply readOnly_perform; reflexivity|]. intros _.
  apply readOnly_bind; [apply readOnly_reads|]. intros [c|]; [|apply readOnly_ret].
  cbv zeta. destruct (matchesHeader r "If-None-Match" (etagOf ext m));
    [apply readOnly_ret|].
  rewrite Hd. apply readOnly_ret.
Qed.

Lemma readOnly_serveDist (r : ServerRequest) (req : Request.t) (p : string) :
  isDev app = false \/ isModuleJSPath p = false ->
  Util.startsWith p "/_aleph/" = true ->
  readOnly (serveDist app ext r req p).
Proof.
  intros H Hs. unfold serveDist. unfold isModuleJSPath in H. rewrite Hs in H.
  destruct (Util.startsWith p "/_aleph/data/" && Util.endsWith p ".json").
  { cbv zeta. apply readOnly_bind; [apply readOnly_reads|].
    intros [data|]; apply readOnly_ret. }
  cbv zeta. destruct (String.eqb (Util.trimPrefix p "/_aleph") "/main.js").
  { apply readOnly_bind; [apply readOnly_reads|]. intros mainJS. apply readOnly_ret. }
  cbn [negb andb] in H.
  apply readOnly_bind.
  - destruct (Util.endsWith (Util.trimPrefix p "/_aleph") ".js");
      [|apply readOnly_ret].
    destruct H as [Hd|H]; [|discriminate H].
    apply readOnly_bind.
    + intros w res w' E. unfold resolveModule in E. rewrite Hd in E.
      destruct (findModule _ (store w)) as [[l m]|]; inversion E; subst;
        (split; [reflexivity|]; exists []; rewrite app_nil_r;
         split; [reflexivity | constructor]).
    + intros [l|]; unfold deliverModule; [|apply readOnly_ret].
      apply readOnly_bind; [apply readOnly_reads|].
      intros [m|]; [apply readOnly_serveModule; exact Hd | apply readOnly_ret].
  - intros [resp|]; unfold orBuildFile;
      [apply readOnly_ret | apply readOnly_serveBuildFile].
Qed.

Lemma readOnly_dispatch (r : ServerRequest) (req : Request.t) (p : string) (u : URL) :
  isDev app = false \/ isModuleJSPath p = false ->
  readOnly (dispatch app ext r req p u).
Proof.
  intros H. unfold dispatch.
  destruct (String.eqb p "/_hmr").
  { destruct (acceptWebSocket ext r); [apply readOnly_ret | apply readOnly_throw]. }
  destruct (Util.startsWith p "/_aleph/") eqn:Hs.
  { apply readOnly_serveDist; assumption. }
  apply readOnly_bind; [apply readOnly_serveStatic|].
  intros [resp|]; [apply readOnly_ret|].
  destruct (Util.startsWith p "/api/"); [apply readOnly_serveApi|].
  apply readOnly_bind; [apply readOnly_reads|]. intros page. apply readOnly_ret.
Qed.

(** X18: the only requests by which [handle] changes the store are
    development requests for a compiled-module path: in production, and
    for every other path in development, it compiles nothing, strips
    nothing, and leaves the module registry as it is, however the request
    ends. *)
Theorem only_development_module_requests_write (r : ServerRequest) (w w' : World)
  (o : Outcome) :
  isDev app = false \/ isModuleJSPath (pathnameOf app ext r) = false ->
  handle app ext r w = (o, w') ->
  store w' = store w
  /\ exists es,
       trace w' = trace w ++ es
       /\ forall e, In e es ->
            match e with
            | Compile _ | StripSsrCode _ => False
            | _ => True
            end.
Proof.
  intros H E. unfold handle in E.
  destruct (dispatch app ext r (initialRequest app) (pathnameOf app ext r)
              (urlOf app ext r) w) as [res w1] eqn:Ed.
  destruct (readOnly_dispatch r _ _ _ H _ _ _ Ed) as (Hs & es & Ht & Hf).
  assert (Hw : w' = w1) by (destruct res; simpl in E; congruence).
  subst w'. split; [exact Hs|]. exists es. split; [exact Ht|].
  intros e Hin. rewrite List.Forall_forall in Hf. specialize (Hf e Hin).
  destruct e; try exact I; discriminate Hf.
Qed.

(** ** More on the HMR channel *)

Lemma closed_step (ch : Channel) (ev : HmrEvent) :
  closed ch = true -> hmrStep app ext ch ev = ch.
Proof.
  intros Hc. destruct ev as [ms e|ev]; cbn [hmrStep]; unfold onSocketEvent, emit;
    rewrite Hc; reflexivity.
Qed.

Lemma closed_run (evs : list HmrEvent) (ch : Channel) :
  closed ch = true -> hmrRun app ext evs ch = ch.
Proof.
  intros Hc. induction evs as [|ev evs IH]; [reflexivity|].
  rewrite hmrRun_cons, closed_step by exact Hc. exact IH.
Qed.

(** X19: after the close frame (lines 79-83) the channel is dead: whatever the
    watcher emits and whatever frames still arrive, nothing more is sent
    and no listener is added. *)
Theorem nothing_after_close (history later : list HmrEvent)
  (ms : list ModuleRecord) :
  let ch := hmrRun app ext (history ++ [Recv ms SockClose]) hmrOpen in
  closed ch = true /\ hmrRun app ext later ch = ch.
Proof.
  intros ch.
  assert (Hc : closed ch = true).
  { unfold ch. rewrite hmrRun_app. cbn [hmrRun fold_left hmrStep].
    unfold onSocketEvent.
    destruct (closed (hmrRun app ext history hmrOpen)) eqn:E;
      [exact E | reflexivity]. }
  split; [exact Hc | apply closed_run; exact Hc].
Qed.

(** X20: the add listener (lines 53-54): on an open channel, whatever was
    accepted or removed before, every add event is forwarded as exactly
    one message, the module's fields with [type] set to ["add"], and the
    listeners stay as they are. *)
Theorem add_is_forwarded_once (history : list HmrEvent)
  (info : list (string * JSON)) :
  let ch := hmrRun app ext history hmrOpen in
  closed ch = false ->
  emit app ext (EvAdd info) ch =
  mkChannel (watcher ch)
            (outbox ch ++ [Json.stringify (JObj (Json.spread info [("type", JStr "add")]))])
            false.
Proof.
  intros ch Hc.
  destruct (wellFormed_run app ext history hmrOpen wellFormed_open) as [subs Hw].
  exact (emit_add app ext ch subs info Hw Hc).
Qed.

Lemma filter_others (spec s : string) (subs : list string) :
  s <> spec ->
  List.filter (fun x => String.eqb x spec)
              (List.filter (fun x => negb (String.eqb x s)) subs)
  = List.filter (fun x => String.eqb x spec) subs.
Proof.
  intros Hne. induction subs as [|x subs IH]; [reflexivity|]. cbn [List.filter].
  destruct (String.eqb x s) eqn:Es; cbn [negb List.filter].
  - apply eqb_string_true in Es. subst x.
    assert (E : String.eqb s spec = false) by (apply eqb_string_false; exact Hne).
    rewrite E. exact IH.
  - destruct (String.eqb x spec); [f_equal|]; exact IH.
Qed.

(** One step of a channel against one step of the count. *)
Lemma countStep_step (spec : string) (ch : Channel) (st : bool * nat) (ev : HmrEvent) :
  wellFormed ch ->
  closed ch = fst st -> subscriptions spec ch = snd st ->
  closed (hmrStep app ext ch ev) = fst (countStep ext spec st ev)
  /\ subscriptions spec (hmrStep app ext ch ev) = snd (countStep ext spec st ev).
Proof.
  intros [subs H] Hc Hn. unfold countStep. destruct (fst st) eqn:Est.
  { rewrite closed_step by exact Hc. rewrite Est. auto. }
  destruct ev as [ms e|ev]; cbn [hmrStep].
  - destruct e as [e| | | |].
    + pose proof (onSocketEvent_text ext ms e ch Hc) as Ht.
      destruct (subscribed ext ms e) as [s|] eqn:Hs; [|rewrite Ht, Est; auto].
      pose proof (subscriptions_after_accept ext ms e s spec ch Hc Hs) as Hsub.
      rewrite Ht in Hsub |- *.
      destruct (String.eqb s spec); cbn [fst snd closed].
      * split; [reflexivity|]. rewrite Hsub, Hn. lia.
      * split; [symmetry; exact Est|]. rewrite Hsub, Hn. lia.
    + unfold onSocketEvent. rewrite Hc, Est. auto.
    + unfold onSocketEvent. rewrite Hc, Est. auto.
    + unfold onSocketEvent. rewrite Hc, Est. auto.
    + unfold onSocketEvent. rewrite Hc. cbn [fst snd closed]. auto.
  - destruct ev as [info|s|s d].
    + rewrite (emit_add app ext ch subs info H Hc). rewrite Est. split; [reflexivity|].
      exact Hn.
    + rewrite (emit_remove app ext ch subs s H Hc).
      rewrite (subscriptions_count spec ch subs H) in Hn.
      erewrite subscriptions_count by reflexivity.
      destruct (String.eqb s spec) eqn:Es; cbn [fst snd closed].
      * apply eqb_string_true in Es. subst s. rewrite filter_removed.
        split; reflexivity.
      * apply eqb_string_false in Es. rewrite (filter_others spec s subs Es).
        split; [symmetry; exact Est | exact Hn].
    + rewrite (emit_modify app ext ch subs s d H Hc). rewrite Est.
      split; [reflexivity|]. exact Hn.
Qed.

Lemma countStep_run (spec : string) (evs : list HmrEvent) :
  forall (ch : Channel) (st : bool * nat),
    wellFormed ch ->
    closed ch = fst st -> subscriptions spec ch = snd st ->
    closed (hmrRun app ext evs ch) = fst (fold_left (countStep ext spec) evs st)
    /\ subscriptions spec (hmrRun app ext evs ch)
       = snd (fold_left (countStep ext spec) evs st).
Proof.
  induction evs as [|ev evs IH]; intros ch st Hw Hc Hn; [split; assumption|].
  rewrite hmrRun_cons. cbn [fold_left].
  destruct (countStep_step spec ch st ev Hw Hc Hn) as [Hc' Hn'].
  apply IH; [apply wellFormed_step; exact Hw | exact Hc' | exact Hn'].
Qed.

(** X21: how many updates a modify event sends (lines 55-77): on a channel
    opened by [handle], after any history, as many as hot-accepts for that
    specifier were accepted since its last remove event; none once the
    close frame was received. *)
Theorem updates_follow_the_history (history : list HmrEvent) (spec : string)
  (d : list (string * JSON)) :
  let ch := hmrRun app ext history hmrOpen in
  let listeners :=
    if fst (acceptedSince ext spec history) then 0
    else snd (acceptedSince ext spec history) in
  closed ch = fst (acceptedSince ext spec history)
  /\ subscriptions spec ch = snd (acceptedSince ext spec history)
  /\ outbox (emit app ext (EvModify spec d) ch) =
     outbox ch ++ repeat (Json.stringify (updateMessage app ext spec d)) listeners.
Proof.
  intros ch listeners.
  destruct (countStep_run spec history hmrOpen (false, 0) wellFormed_open
              eq_refl eq_refl) as [Hc Hn].
  fold ch in Hc, Hn. fold (acceptedSince ext spec history) in Hc, Hn.
  split; [exact Hc|]. split; [exact Hn|].
  destruct (wellFormed_run app ext history hmrOpen wellFormed_open) as [subs Hw].
  fold ch in Hw. unfold listeners.
  destruct (fst (acceptedSince ext spec history)) eqn:E.
  - unfold emit. rewrite Hc. cbn [repeat]. rewrite app_nil_r. reflexivity.
  - rewrite (emit_modify app ext ch subs spec d Hw Hc). cbn [outbox].
    rewrite Hn. reflexivity.
Qed.



End Branches.

(* ------------------------------------------------------------------ *)
(** * The other branches on the concrete applications *)

Lemma ssr_data_endpoint_witness :
  handle Example.development Demo.ext
    (Demo.get "/_aleph/data//blog.json" []) Example.world =
  (Sent (mkResponse 200
           [("X-Frame-Options", "DENY"); ("Cache-Control", "max-age=0")]
           (Some (Json.stringify (JObj [("title", JStr "Blog")])))
           (Some jsonType)),
   Example.world)
  /\ handle Example.development Demo.ext
       (Demo.get "/_aleph/data//about.json" []) Example.world =
     (Sent (mkResponse 404
              [("X-Frame-Options", "DENY"); ("Cache-Control", "max-age=0")]
              (Some "null") (Some jsonType)),
      Example.world).
Proof.
  split.
  - refine (ssr_data_endpoint Example.development Demo.ext
              (Demo.get "/_aleph/data//blog.json" []) Example.world "/blog" eq_refl
              _ eq_refl).
    discriminate.
  - exact (ssr_data_endpoint Example.development Demo.ext
             (Demo.get "/_aleph/data//about.json" []) Example.world "/about" eq_refl).
Defined.

Lemma main_bundle_first_witness :
  handle Example.development Demo.ext (Demo.get "/_aleph/main.js" []) Example.world =
  (Sent (mkResponse 200
           [("X-Frame-Options", "DENY"); ("Cache-Control", "max-age=0")]
           (Some "main") (Some jsType)),
   Example.world).
Proof.
  exact (main_bundle_first Example.development Demo.ext
           (Demo.get "/_aleph/main.js" []) Example.world eq_refl).
Defined.

(** A style sheet of the build directory, revalidated, and one that is
    not there. *)
Lemma build_directory_file_witness :
  handle Example.development Demo.ext
    (Demo.get "/_aleph/style.css"
       [("If-Modified-Since", "Mon, 02 Nov 2026 11:00:00 GMT")])
    Example.world =
  (Sent (mkResponse 304
           [("X-Frame-Options", "DENY"); ("Cache-Control", "max-age=0")] None None),
   logged Example.world [ExistsFile "/app/.aleph/development/style.css"])
  /\ handle Example.development Demo.ext
       (Demo.get "/_aleph/print.css" []) Example.world =
     (Sent (mkResponse 404
              [("X-Frame-Options", "DENY"); ("Cache-Control", "max-age=0")]
              (Some "not found") None),
      logged Example.world [ExistsFile "/app/.aleph/development/print.css"]).
Proof.
  split.
  - exact (proj1 (proj2 (build_directory_file Example.development Demo.ext
                           (Demo.get "/_aleph/style.css"
                              [("If-Modified-Since", "Mon, 02 Nov 2026 11:00:00 GMT")])
                           Example.world eq_refl)
                    (mkFile (Some "Mon, 02 Nov 2026 11:00:00 GMT") "body {}") eq_refl)
             eq_refl).
  - exact (proj1 (build_directory_file Example.development Demo.ext
                    (Demo.get "/_aleph/print.css" []) Example.world eq_refl)
             eq_refl).
Defined.

(** [/pages/about.jsx] is on disk and has no record: in production it is
    not compiled, and a path without build file gets 404 after a single
    look at the build directory. *)
Lemma production_never_compiles_witness :
  handle Example.production Demo.ext
    (Demo.get "/_aleph/pages/about.js" []) Example.world =
  (Sent (mkResponse 200
           [("X-Frame-Options", "DENY");
            ("Last-Modified", "Tue, 03 Nov 2026 09:00:00 GMT")]
           (Some "export default 3") (Some jsType)),
   logged Example.world
     [ExistsFile "/app/.aleph/development/pages/about.js";
      ReadFile "/app/.aleph/development/pages/about.js"])
  /\ handle Example.production Demo.ext
       (Demo.get "/_aleph/pages/broken.js" []) Example.world =
     (Sent (mkResponse 404 [("X-Frame-Options", "DENY")] (Some "not found") None),
      logged Example.world [ExistsFile "/app/.aleph/development/pages/broken.js"]).
Proof.
  split.
  - rewrite (proj1 (production_never_compiles Example.production Demo.ext
                      (Demo.get "/_aleph/pages/about.js" []) Example.world
                      eq_refl eq_refl eq_refl)).
    reflexivity.
  - exact (proj2 (production_never_compiles Example.production Demo.ext
                    (Demo.get "/_aleph/pages/broken.js" []) Example.world
                    eq_refl eq_refl eq_refl) eq_refl).
Defined.

Lemma page_is_relayed_witness :
  handle Example.development Demo.ext (Demo.get "/about" []) Example.world =
  (Sent (mkResponse 200
           [("X-Frame-Options", "DENY"); ("Cache-Control", "max-age=0")]
           (Some "<h1>/about</h1>") (Some htmlType)),
   logged Example.world [ExistsFile "/app/public/about"]).
Proof.
  refine (page_is_relayed Example.development Demo.ext (Demo.get "/about" [])
            Example.world _ eq_refl eq_refl eq_refl).
  discriminate.
Defined.

Lemma api_import_failure_witness :
  handle Example.development Demo.ext (Demo.get "/api/failing" []) Example.world =
  (Sent (mkResponse 500
           [("X-Frame-Options", "DENY"); ("Cache-Control", "max-age=0")]
           (Some (Json.stringify
                    (JObj [("status", JNum 500);
                           ("message", JStr "cannot load module")])))
           (Some jsonType)),
   logged Example.world [ExistsFile "/app/public/api/failing"]).
Proof.
  refine (api_import_failure Example.development Demo.ext
            (Demo.get "/api/failing" []) Example.world
            (mkRouterURL [] []) Example.failing
            (mkError "cannot load module" "at import")
            _ eq_refl eq_refl eq_refl eq_refl eq_refl).
  discriminate.
Defined.

(** A handler that responds, and one that does not. *)
Lemma api_handler_returns_witness :
  handle Example.development Demo.ext (Demo.get "/api/hello" []) Example.world =
  (Sent (mkResponse 200
           [("X-Frame-Options", "DENY"); ("Cache-Control", "max-age=0")]
           (Some "hello") None),
   logged Example.world [ExistsFile "/app/public/api/hello"])
  /\ handle Example.development Demo.ext (Demo.get "/api/silent" []) Example.world =
     (NoReply, logged Example.world [ExistsFile "/app/public/api/silent"]).
Proof.
  split.
  - refine (api_handler_returns Example.development Demo.ext
              (Demo.get "/api/hello" []) Example.world
              (mkRouterURL [] []) (Demo.apiModule "/api/hello.ts") Example.hello
              (Some (mkResponse 200
                       [("X-Frame-Options", "DENY"); ("Cache-Control", "max-age=0")]
                       (Some "hello") None))
              _ eq_refl eq_refl eq_refl eq_refl eq_refl eq_refl).
    discriminate.
  - refine (api_handler_returns Example.development Demo.ext
              (Demo.get "/api/silent" []) Example.world
              (mkRouterURL [] []) (Demo.apiModule "/api/silent.ts") Example.silent
              None
              _ eq_refl eq_refl eq_refl eq_refl eq_refl eq_refl).
    discriminate.
Defined.

Lemma unavailable_module_falls_back_witness :
  handle Example.withoutDocs Demo.ext
    (Demo.get "/_aleph/pages/docs.js" []) Example.world =
  (Sent (mkResponse 200
           [("X-Frame-Options", "DENY"); ("Cache-Control", "max-age=0");
            ("Last-Modified", "Tue, 03 Nov 2026 09:00:00 GMT")]
           (Some "export default 4") (Some jsType)),
   logged Example.world
     [GetModuleJS "/pages/docs.tsx";
      ExistsFile "/app/.aleph/development/pages/docs.js";
      ReadFile "/app/.aleph/development/pages/docs.js"]).
Proof.
  refine (unavailable_module_falls_back Example.withoutDocs Demo.ext
            (Demo.get "/_aleph/pages/docs.js" []) Example.world
            3 Demo.docsModule (mkFile None "export default 4")
            eq_refl eq_refl eq_refl eq_refl _).
  discriminate.
Defined.

(** The logo, fetched and then revalidated a day later. *)
Lemma last_modified_round_trip_witness :
  let later := mkWorld (Example.storeAt "Wed, 04 Nov 2026 12:00:00 GMT") [] in
  exists resp1 w1',
    handle Example.development Demo.ext (Demo.get "/logo.png" []) Example.world
    = (Sent resp1, w1')
    /\ status resp1 = 200%Z
    /\ body resp1 = Some "PNG"
    /\ handle Example.development Demo.ext
         (Demo.get "/logo.png"
            [("If-Modified-Since", "Tue, 03 Nov 2026 08:00:00 GMT")])
         later =
       (Sent (mkResponse 304
                [("X-Frame-Options", "DENY"); ("Cache-Control", "max-age=0")]
                None None),
        logged later [ExistsFile "/app/public/logo.png"]).
Proof.
  intros later.
  destruct (last_modified_round_trip Example.development Demo.ext
              (Demo.get "/logo.png" [])
              (Demo.get "/logo.png"
                 [("If-Modified-Since", "Tue, 03 Nov 2026 08:00:00 GMT")])
              Example.world later
              (mkFile (Some "Tue, 03 Nov 2026 08:00:00 GMT") "PNG")
              (mkFile (Some "Tue, 03 Nov 2026 08:00:00 GMT") "PNG")
              "Tue, 03 Nov 2026 08:00:00 GMT")
    as (resp1 & w1' & H1 & Hs & Hb & H2);
    try reflexivity; try discriminate.
  exists resp1, w1'. split; [exact H1|]. split; [exact Hs|]. split; [exact Hb|].
  apply H2.
  assert (E : Sent resp1
              = fst (handle Example.development Demo.ext (Demo.get "/logo.png" [])
                       Example.world))
    by (rewrite H1; reflexivity).
  vm_compute in E. inversion E. reflexivity.
Defined.

(** [robots.txt] has no modification time: five minutes later the value
    that was sent no longer validates. *)
Lemma no_mtime_never_revalidates_witness :
  let later := mkWorld (Example.storeAt "Tue, 03 Nov 2026 09:05:00 GMT") [] in
  exists resp1 w1',
    handle Example.development Demo.ext (Demo.get "/robots.txt" []) Example.world
    = (Sent resp1, w1')
    /\ Request.get_assoc "Last-Modified" (headers resp1)
       = Some "Tue, 03 Nov 2026 09:00:00 GMT"
    /\ handle Example.development Demo.ext
         (Demo.get "/robots.txt"
            [("If-Modified-Since", "Tue, 03 Nov 2026 09:00:00 GMT")])
         later =
       (Sent (mkResponse 200
                [("X-Frame-Options", "DENY"); ("Cache-Control", "max-age=0");
                 ("Last-Modified", "Tue, 03 Nov 2026 09:05:00 GMT")]
                (Some "User-agent: *") (Some "application/octet-stream")),
        logged later [ExistsFile "/app/public/robots.txt";
                      ReadFile "/app/public/robots.txt"]).
Proof.
  intros later.
  destruct (no_mtime_never_revalidates Example.development Demo.ext
              (Demo.get "/robots.txt" [])
              (Demo.get "/robots.txt"
                 [("If-Modified-Since", "Tue, 03 Nov 2026 09:00:00 GMT")])
              Example.world later
              (mkFile None "User-agent: *") (mkFile None "User-agent: *"))
    as (resp1 & w1' & H1 & Hl & H2);
    try reflexivity; try discriminate.
  exists resp1, w1'. split; [exact H1|]. split; [exact Hl|].
  apply H2. rewrite Hl. reflexivity.
Defined.

(** The blog module, fetched and then revalidated: the first request left
    the client-only variant on the record, and the validator still
    matches. *)
Lemma etag_round_trip_witness :
  let r1 := Demo.get "/_aleph/pages/blog.js" [] in
  let r2 := Demo.get "/_aleph/pages/blog.js"
              [("If-None-Match", "4471571a518d82a180a2f80cb2185196")] in
  let blog :=
    withCsrCode Demo.blogModule
      "/* client */ export const ssr = 0; export default 2" in
  let w2 :=
    mkWorld
      (mkStore [Demo.indexModule; blog; Demo.goneModule; Demo.docsModule]
               Demo.files "Tue, 03 Nov 2026 09:00:00 GMT")
      [GetModuleJS "/pages/blog.tsx"; StripSsrCode "/pages/blog.tsx"] in
  exists resp1,
    handle Demo.app Demo.ext r1 Demo.world = (Sent resp1, w2)
    /\ status resp1 = 200%Z
    /\ handle Demo.app Demo.ext r2 w2 =
       (Sent (mkResponse 304 [("Cache-Control", "max-age=0")] None None),
        logged w2 [GetModuleJS "/pages/blog.tsx"]).
Proof.
  intros r1 r2 blog w2.
  destruct (etag_round_trip Demo.app Demo.ext r1 r2 Demo.world w2
              1 Demo.blogModule "export const ssr = 0; export default 2"
              1 blog "export const ssr = 0; export default 2"
              eq_refl eq_refl eq_refl eq_refl)
    as (resp1 & w1' & H1 & Hs & H2);
    [discriminate | reflexivity | reflexivity | reflexivity |].
  assert (E : handle Demo.app Demo.ext r1 Demo.world
              = (Sent (mkResponse 200
                         [("Cache-Control", "max-age=0");
                          ("ETag", "4471571a518d82a180a2f80cb2185196")]
                         (Some (hotWrap "/pages/blog.tsx"
                                  ("/* client */ export const ssr = 0; export default 2"
                                     +:+ LF +:+ "/* refresh */")))
                         (Some jsType)), w2))
    by (vm_compute; reflexivity).
  rewrite E in H1. injection H1 as Er Ew. subst w1' resp1.
  eexists. split; [exact E|]. split; [reflexivity|].
  apply H2. reflexivity.
Defined.

(** The configuration asks for an hour of caching; in development the
    response says [max-age=0]. *)
Lemma development_disables_caching_witness :
  let app := Example.appWith Example.caching true in
  let r := Demo.get "/logo.png" [] in
  let resp :=
    mkResponse 200
      [("Cache-Control", "max-age=0");
       ("Last-Modified", "Tue, 03 Nov 2026 08:00:00 GMT")]
      (Some "PNG") (Some "image/png") in
  In ("Cache-Control", "public, max-age=3600") (cfgHeaders (config app))
  /\ (handlerReplied app (pathnameOf app Demo.ext r)
        (searchOf Demo.ext (urlOf app Demo.ext r)) resp
      \/ Request.get_assoc "Cache-Control" (headers resp) = Some "max-age=0").
Proof.
  intros app r resp. split; [left; reflexivity|].
  exact (development_disables_caching app Demo.ext r Example.world
           (logged Example.world [ExistsFile "/app/public/logo.png";
                                  ReadFile "/app/public/logo.png"])
           resp eq_refl eq_refl).
Defined.

Lemma configured_headers_are_sent_witness :
  let r := Demo.get "/about" [] in
  let resp :=
    mkResponse 200
      [("X-Frame-Options", "DENY"); ("Cache-Control", "max-age=0")]
      (Some "<h1>/about</h1>") (Some htmlType) in
  handlerReplied Example.development (pathnameOf Example.development Demo.ext r)
    (searchOf Demo.ext (urlOf Example.development Demo.ext r)) resp
  \/ Request.get_assoc "X-Frame-Options" (headers resp) = Some "DENY".
Proof.
  intros r resp.
  refine (configured_headers_are_sent Example.development Demo.ext r Example.world
            (logged Example.world [ExistsFile "/app/public/about"])
            resp "X-Frame-Options" "DENY" _ _ _ _ eq_refl).
  - constructor; [intros [] | constructor].
  - left. reflexivity.
  - intros [H|[H|[H|[]]]]; discriminate H.
  - intros _. discriminate.
Defined.

Lemma empty_body_only_when_not_modified_witness :
  let r := Demo.get "/logo.png"
             [("If-Modified-Since", "Tue, 03 Nov 2026 08:00:00 GMT")] in
  let resp := mkResponse 304 [("Cache-Control", "max-age=0")] None None in
  handlerReplied Demo.app (pathnameOf Demo.app Demo.ext r)
    (searchOf Demo.ext (urlOf Demo.app Demo.ext r)) resp
  \/ (status resp = 304%Z
      /\ contentType resp = None
      /\ (header r "If-None-Match" <> None \/ header r "If-Modified-Since" <> None)).
Proof.
  intros r resp.
  exact (empty_body_only_when_not_modified Demo.app Demo.ext r Demo.world
           (logged Demo.world [ExistsFile "/app/public/logo.png"])
           resp eq_refl eq_refl).
Defined.

Lemma own_status_codes_witness :
  let r := Demo.get "/_aleph/pages/gone.js" [] in
  let resp :=
    mkResponse 404 [("Cache-Control", "max-age=0")] (Some "not found") None in
  handlerReplied Demo.app (pathnameOf Demo.app Demo.ext r)
    (searchOf Demo.ext (urlOf Demo.app Demo.ext r)) resp
  \/ (exists st,
        status resp
        = fst (getPageHTML Demo.app st (pathnameOf Demo.app Demo.ext r)
                 (searchOf Demo.ext (urlOf Demo.app Demo.ext r))))
  \/ In (status resp) [200%Z; 304%Z; 404%Z; 500%Z].
Proof.
  intros r resp.
  exact (own_status_codes Demo.app Demo.ext r Demo.world
           (logged Demo.world
              [GetModuleJS "/pages/gone.tsx";
               ExistsFile "/app/.aleph/development/pages/gone.js"])
           resp eq_refl).
Defined.

(** An upgrade request is accepted; a plain request for the same path
    gets the error page. *)
Lemma upgraded_exactly_on_hmr_path_witness :
  handle Demo.app Demo.ext
    (Demo.get "/_hmr" [("Upgrade", "websocket");
                       ("Sec-WebSocket-Key", "dGhlIHNhbXBsZSBub25jZQ==")])
    Demo.world
  = (Upgraded hmrOpen, Demo.world)
  /\ handle Demo.app Demo.ext (Demo.get "/_hmr" []) Demo.world
     = (Sent (mkResponse 500 [("Cache-Control", "max-age=0")]
                (Some (errorPage (mkError "request is not acceptable"
                                          "at acceptWebSocket")))
                (Some htmlType)),
        Demo.world).
Proof.
  split.
  - exact (proj2 (proj1 (upgraded_exactly_on_hmr_path Demo.app Demo.ext
                           (Demo.get "/_hmr"
                              [("Upgrade", "websocket");
                               ("Sec-WebSocket-Key", "dGhlIHNhbXBsZSBub25jZQ==")])
                           Demo.world Demo.world hmrOpen))
             (conj eq_refl (conj eq_refl (conj eq_refl eq_refl)))).
  - exact (proj2 (upgraded_exactly_on_hmr_path Demo.app Demo.ext
                    (Demo.get "/_hmr" []) Demo.world Demo.world hmrOpen)
             (mkError "request is not acceptable" "at acceptWebSocket")
             eq_refl eq_refl).
Defined.

Lemma unanswered_only_by_api_handler_witness :
  let r := Demo.get "/api/silent" [] in
  Util.startsWith (pathnameOf Example.development Demo.ext r) "/api/" = true
  /\ exists st st' route module handler,
       getAPIRoute Example.development st (pathnameOf Example.development Demo.ext r)
         (searchOf Demo.ext (urlOf Example.development Demo.ext r))
       = Some (route, module)
       /\ importModule Example.development st' module = Ok (Function handler)
       /\ handler (initialRequest Example.development) route = Returned None.
Proof.
  intros r.
  exact (unanswered_only_by_api_handler Example.development Demo.ext r Example.world
           (logged Example.world [ExistsFile "/app/public/api/silent"]) eq_refl).
Defined.

(** In production the blog module, which declares a server-only hook, is
    sent as it was compiled; the registry stays as it was. *)
Lemma only_development_module_requests_write_witness :
  let out := handle Example.production Demo.ext
               (Demo.get "/_aleph/pages/blog.js" []) Example.world in
  store (snd out) = store Example.world
  /\ exists es,
       trace (snd out) = trace Example.world ++ es
       /\ forall e, In e es ->
            match e with
            | Compile _ | StripSsrCode _ => False
            | _ => True
            end.
Proof.
  intros out.
  refine (only_development_module_requests_write Example.production Demo.ext
            (Demo.get "/_aleph/pages/blog.js" []) Example.world (snd out) (fst out)
            (or_introl eq_refl) _).
  apply surjective_pairing.
Defined.

Lemma add_is_forwarded_once_witness :
  let accept := Recv (modules Demo.store)
                     (SockText (Demo.hotAcceptFrame "/pages/index.tsx")) in
  let ch := hmrRun Demo.app Demo.ext [accept] hmrOpen in
  emit Demo.app Demo.ext (EvAdd [("specifier", JStr "/pages/new.tsx")]) ch =
  mkChannel (watcher ch)
    [Json.stringify (JObj [("specifier", JStr "/pages/new.tsx");
                           ("type", JStr "add")])]
    false.
Proof.
  exact (add_is_forwarded_once Demo.app Demo.ext
           [Recv (modules Demo.store)
                 (SockText (Demo.hotAcceptFrame "/pages/index.tsx"))]
           [("specifier", JStr "/pages/new.tsx")] eq_refl).
Defined.
